(** * Dependency-Track client: identity resolution, login and key issuance

    A shallow embedding of the Python client scripts
    ([dt_user_login.py], [dt_fetch_teams_for_user.py],
    [dt_generate_api_key.py], [Dependency-Track_generate_api_key.py],
    [jwtBasedAuthentication.py]) together with the properties of the
    design document that concern them.

    Conventions.
    - Python [str] values are byte strings ([string]).  [PyStr.lower] and
      [PyStr.strip] fold the letters A-Z and trim the ASCII white space: on
      ASCII text they are [str.lower] and [str.strip], and every property
      that depends on what the two compute is stated for ASCII text
      ([ascii_text], [ascii_identity], [ascii_team]).
    - Values obtained from [response.json()] / [json.loads] are [pyval]s;
      attribute access on a value of the wrong dynamic type raises, as in
      Python.
    - The remote service, [json.loads] and the platform range of
      [datetime.fromtimestamp] are parameters of the client. *)

From Stdlib Require Import String Ascii List ZArith NArith Bool Lia PeanoNat.
Import ListNotations.
Open Scope string_scope.
Set Warnings "-register-all".
Open Scope Z_scope.

(* ================================================================== *)
(** ** Python strings *)

Module PyStr.

Definition is_upper (c : ascii) : bool :=
  let n := nat_of_ascii c in ((65 <=? n) && (n <=? 90))%nat.

Definition lower_char (c : ascii) : ascii :=
  if is_upper c then ascii_of_nat (nat_of_ascii c + 32) else c.

(** [s.lower()] for ASCII [s]: the letters A-Z are folded, every other
    byte is kept. *)
Fixpoint lower (s : string) : string :=
  match s with
  | EmptyString => EmptyString
  | String c s' => String (lower_char c) (lower s')
  end.

(** The ASCII characters for which [str.isspace] holds:
    TAB, LF, VT, FF, CR, FS, GS, RS, US and SPACE. *)
Definition is_space (c : ascii) : bool :=
  let n := nat_of_ascii c in
  (((9 <=? n) && (n <=? 13)) || ((28 <=? n) && (n <=? 32)))%nat.

Fixpoint lstrip (s : string) : string :=
  match s with
  | EmptyString => EmptyString
  | String c s' => if is_space c then lstrip s' else s
  end.

Fixpoint rstrip (s : string) : string :=
  match s with
  | EmptyString => EmptyString
  | String c s' =>
      match rstrip s' with
      | EmptyString => if is_space c then EmptyString else String c EmptyString
      | r => String c r
      end
  end.

(** [s.strip()] for ASCII [s]: the white space trimmed is that of
    [is_space]. *)
Definition strip (s : string) : string := rstrip (lstrip s).

(** [s.startswith(p)] *)
Definition startswith (p s : string) : bool := String.prefix p s.

(** [c in s] for a single character [c] *)
Fixpoint contains (c : ascii) (s : string) : bool :=
  match s with
  | EmptyString => false
  | String a s' => Ascii.eqb a c || contains c s'
  end.

(** [s.split(sep)] for a single-character separator: one more part than
    there are separators, empty parts kept. *)
Fixpoint split (sep : ascii) (s : string) : list string :=
  match s with
  | EmptyString => [EmptyString]
  | String a s' =>
      if Ascii.eqb a sep then EmptyString :: split sep s'
      else match split sep s' with
           | h :: t => String a h :: t
           | [] => [String a EmptyString]
           end
  end.

(** [s.count(c)] for a single character [c] *)
Fixpoint count (c : ascii) (s : string) : nat :=
  match s with
  | EmptyString => O
  | String a s' => if Ascii.eqb a c then S (count c s') else count c s'
  end.

(** [c * n] *)
Fixpoint repeat (c : ascii) (n : nat) : string :=
  match n with
  | O => EmptyString
  | S n' => String c (repeat c n')
  end.

(** [s[:n]] *)
Definition take (n : nat) (s : string) : string := String.substring 0 n s.

End PyStr.

(* ================================================================== *)
(** ** Python values produced by [json.loads] *)

Inductive pyval : Type :=
| PNone
| PBool (b : bool)
| PInt (z : Z)
| PFloat (m e : Z)                       (* the decimal number m * 10^e *)
| PStr (s : string)
| PList (l : list pyval)
| PDict (d : list (string * pyval)).     (* keys in insertion order, no duplicates *)

(** The exceptions the client can meet.  [DependencyTrackAPIError] carries
    which of the source's messages it was raised with. *)
Inductive message : Type :=
| MsgApiRequestFailed                         (* "API request failed: ..." *)
| MsgAdminRequestFailed                       (* "Admin API request failed: ..." *)
| MsgAuthStatus (status : Z) (body : string)  (* "Authentication failed with status ..." *)
| MsgUnexpectedFormat (head : string)         (* "Unexpected response format: ..." *)
| MsgAuthRequestFailed                        (* "Authentication request failed: ..." *)
| MsgNoUsernameForEmail (identifier : string) (* "No username found for email: ..." *)
| MsgUsernameFoundAuthFailed (identifier : string) (username : pyval)
| MsgAuthFailedForIdentifier (identifier : string)
| MsgNoApiKeyReturned.                        (* "No API key returned in response" *)

Inductive exn : Type :=
| DependencyTrackAPIError (m : message)
| AttributeError
| TypeError
| KeyError
| ValueError          (* also binascii.Error, UnicodeDecodeError, JSONDecodeError *)
| OverflowError.      (* also the OSError / ValueError of an out-of-range timestamp *)

Inductive result (A : Type) : Type :=
| Ok (a : A)
| Raise (e : exn).
Arguments Ok {A} a.
Arguments Raise {A} e.

Definition is_api_error (e : exn) : bool :=
  match e with DependencyTrackAPIError _ => true | _ => false end.

Module Py.

(** Truth value of an object ([if x:], [not x]). *)
Definition truthy (v : pyval) : bool :=
  match v with
  | PNone => false
  | PBool b => b
  | PInt z => negb (z =? 0)
  | PFloat m _ => negb (m =? 0)
  | PStr s => negb (String.eqb s EmptyString)
  | PList l => match l with [] => false | _ => true end
  | PDict d => match d with [] => false | _ => true end
  end.

Fixpoint lookup (k : string) (d : list (string * pyval)) : option pyval :=
  match d with
  | [] => None
  | (k', v) :: d' => if String.eqb k' k then Some v else lookup k d'
  end.

(** [d.get(k, default)]; only a dict has [get]. *)
Definition get (v : pyval) (k : string) (default : pyval) : result pyval :=
  match v with
  | PDict d => Ok (match lookup k d with Some x => x | None => default end)
  | _ => Raise AttributeError
  end.

(** [d[k]] as used on the team records. *)
Definition getitem (v : pyval) (k : string) : result pyval :=
  match v with
  | PDict d => match lookup k d with Some x => Ok x | None => Raise KeyError end
  | _ => Raise TypeError   (* not subscriptable, or not indexed by a str *)
  end.

(** [x.lower()]; only a str has [lower]. *)
Definition lower (v : pyval) : result string :=
  match v with
  | PStr s => Ok (PyStr.lower s)
  | _ => Raise AttributeError
  end.

(** [len(x)] *)
Definition len (v : pyval) : result nat :=
  match v with
  | PStr s => Ok (String.length s)
  | PList l => Ok (List.length l)
  | PDict d => Ok (List.length d)
  | _ => Raise TypeError
  end.

Fixpoint chars (s : string) : list pyval :=
  match s with
  | EmptyString => []
  | String c s' => PStr (String c EmptyString) :: chars s'
  end.

(** The items a [for x in v] loop visits. *)
Definition iter (v : pyval) : result (list pyval) :=
  match v with
  | PList l => Ok l
  | PDict d => Ok (map (fun kv => PStr (fst kv)) d)
  | PStr s => Ok (chars s)
  | _ => Raise TypeError
  end.

End Py.

(** Sequencing of a computation that may raise. *)
Definition rbind {A B} (r : result A) (k : A -> result B) : result B :=
  match r with
  | Ok a => k a
  | Raise e => Raise e
  end.

Notation "'let?' x ':=' r 'in' k" := (rbind r (fun x => k))
  (at level 10, x name, r at level 100, k at level 200).

(* ================================================================== *)
(** ** [base64.urlsafe_b64decode] and [bytes.decode('utf-8')] *)

Module Base64.

(** Value of a character of the standard alphabet ([A-Za-z0-9+/]). *)
Definition value (c : ascii) : option N :=
  let n := N_of_ascii c in
  (if (65 <=? n) && (n <=? 90) then Some (n - 65)
   else if (97 <=? n) && (n <=? 122) then Some (n - 71)
   else if (48 <=? n) && (n <=? 57) then Some (n + 4)
   else if n =? 43 then Some 62
   else if n =? 47 then Some 63
   else None)%N.

Definition byte (n : N) : ascii := ascii_of_N (n mod 256)%N.

Definition emit (b : ascii) (r : result string) : result string :=
  match r with
  | Ok s => Ok (String b s)
  | Raise e => Raise e
  end.

(** The non-strict decoding loop of [binascii.a2b_base64]: characters
    outside the alphabet are skipped, a pad sequence that completes a
    quad ends the input, and leftover data characters are an error. *)
Fixpoint a2b_base64 (s : string) (quad_pos : nat) (leftchar : N) (pads : nat)
  : result string :=
  match s with
  | EmptyString =>
      match quad_pos with
      | O => Ok EmptyString
      | _ => Raise ValueError
      end
  | String c s' =>
      if Ascii.eqb c "=" then
        if (2 <=? quad_pos)%nat then
          if (4 <=? quad_pos + S pads)%nat then Ok EmptyString
          else a2b_base64 s' quad_pos leftchar (S pads)
        else a2b_base64 s' quad_pos leftchar pads
      else
        match value c with
        | None => a2b_base64 s' quad_pos leftchar pads
        | Some v =>
            match quad_pos with
            | 0%nat => a2b_base64 s' 1%nat v 0%nat
            | 1%nat =>
                emit (byte (N.lor (N.shiftl leftchar 2) (N.shiftr v 4)))
                     (a2b_base64 s' 2%nat (N.land v 15) 0%nat)
            | 2%nat =>
                emit (byte (N.lor (N.shiftl leftchar 4) (N.shiftr v 2)))
                     (a2b_base64 s' 3%nat (N.land v 3) 0%nat)
            | _ =>
                emit (byte (N.lor (N.shiftl leftchar 6) v))
                     (a2b_base64 s' 0%nat 0%N 0%nat)
            end
        end
  end.

Definition is_ascii (c : ascii) : bool := (N_of_ascii c <? 128)%N.

Fixpoint all_ascii (s : string) : bool :=
  match s with
  | EmptyString => true
  | String c s' => is_ascii c && all_ascii s'
  end.

(** The translation table of the URL-safe variant: [-] to [+], [_] to [/]. *)
Definition urlsafe_char (c : ascii) : ascii :=
  if Ascii.eqb c "-" then "+"%char
  else if Ascii.eqb c "_" then "/"%char
  else c.

Fixpoint translate (s : string) : string :=
  match s with
  | EmptyString => EmptyString
  | String c s' => String (urlsafe_char c) (translate s')
  end.

(** [base64.urlsafe_b64decode(s)] for a [str] argument: the argument is
    encoded as ASCII (a [ValueError] otherwise), translated and decoded. *)
Definition urlsafe_b64decode (s : string) : result string :=
  if all_ascii s then a2b_base64 (translate s) 0 0 0
  else Raise ValueError.

(** The digit of the URL-safe alphabet ([A-Za-z0-9-_]) for a 6-bit value. *)
Definition digit (v : N) : ascii :=
  (if v <? 26 then ascii_of_N (v + 65)
   else if v <? 52 then ascii_of_N (v + 71)
   else if v <? 62 then ascii_of_N (v - 4)
   else if v =? 62 then "-"%char
   else "_"%char)%N.

(** Unpadded base64url encoding (RFC 4648, section 5, padding omitted as
    in a compact token): the encoder a test uses to build a token. *)
Fixpoint urlsafe_b64encode_nopad (s : string) : string :=
  match s with
  | EmptyString => EmptyString
  | String a EmptyString =>
      let a := N_of_ascii a in
      String (digit (N.shiftr a 2))
        (String (digit (N.shiftl (N.land a 3) 4)) EmptyString)
  | String a (String b EmptyString) =>
      let a := N_of_ascii a in
      let b := N_of_ascii b in
      String (digit (N.shiftr a 2))
        (String (digit (N.lor (N.shiftl (N.land a 3) 4) (N.shiftr b 4)))
           (String (digit (N.shiftl (N.land b 15) 2)) EmptyString))
  | String a (String b (String c rest)) =>
      let a := N_of_ascii a in
      let b := N_of_ascii b in
      let c := N_of_ascii c in
      String (digit (N.shiftr a 2))
        (String (digit (N.lor (N.shiftl (N.land a 3) 4) (N.shiftr b 4)))
           (String (digit (N.lor (N.shiftl (N.land b 15) 2) (N.shiftr c 6)))
              (String (digit (N.land c 63)) (urlsafe_b64encode_nopad rest))))
  end.

End Base64.

Module Utf8.

Definition between (lo hi : N) (c : ascii) : bool :=
  let n := N_of_ascii c in ((lo <=? n) && (n <=? hi))%N.

Definition cont : ascii -> bool := between 128 191.

(** Well-formed UTF-8 byte sequences (Unicode, table 3-7): no overlong
    forms, no surrogates, nothing above U+10FFFF. *)
Fixpoint valid (s : string) : bool :=
  match s with
  | EmptyString => true
  | String a s1 =>
      if between 0 127 a then valid s1
      else
        match s1 with
        | EmptyString => false
        | String b s2 =>
            if between 194 223 a then cont b && valid s2
            else
              match s2 with
              | EmptyString => false
              | String c s3 =>
                  if between 224 239 a then
                    (if between 224 224 a then between 160 191 b
                     else if between 237 237 a then between 128 159 b
                     else cont b)
                    && cont c && valid s3
                  else
                    match s3 with
                    | EmptyString => false
                    | String d s4 =>
                        between 240 244 a
                        && (if between 240 240 a then between 144 191 b
                            else if between 244 244 a then between 128 143 b
                            else cont b)
                        && cont c && cont d && valid s4
                    end
              end
        end
  end.

(** [b.decode('utf-8')]: the text, kept in its UTF-8 form. *)
Definition decode (b : string) : result string :=
  if valid b then Ok b else Raise ValueError.

End Utf8.

(* ================================================================== *)
(** ** Token inspection: [decode_jwt_payload] *)

(** [try: body except Exception: handler] for a computation without
    side effects; every exception of [exn] is an [Exception]. *)
Definition try_except_Exception {A} (body : result A) (handler : exn -> result A)
  : result A :=
  match body with
  | Ok a => Ok a
  | Raise e => handler e
  end.

Section TokenInspector.

(** [json.loads] on a [str]. *)
Variable json_loads : string -> result pyval.

(** [decode_jwt_payload] of [dt_user_login.py] and of
    [jwtBasedAuthentication.py] (the two differ only in how the failure
    is reported: a debug log line or a printed line). *)
Definition decode_jwt_payload (token : string) : result pyval :=
  try_except_Exception
    (let parts := PyStr.split "." token in
     if negb (List.length parts =? 3)%nat then Ok PNone
     else
       let payload := nth 1 parts EmptyString in
       let payload :=
         payload ++ PyStr.repeat "=" (4 - String.length payload mod 4)%nat in
       let? decoded_bytes := Base64.urlsafe_b64decode payload in
       let? decoded_text := Utf8.decode decoded_bytes in
       let? payload_data := json_loads decoded_text in
       Ok payload_data)
    (fun _ => Ok PNone).

End TokenInspector.

(* ================================================================== *)
(** ** The remote service and the client's state *)

Record response : Type := { status_code : Z; text : string }.

(** What [requests] gives back for a request: no response at all (a
    connection error or time-out, raised as a [RequestException]) or the
    server's reply. *)
Inductive http_result : Type :=
| NoResponse
| Reply (r : response).

Inductive request : Type :=
| PostLogin (username : pyval) (password : string)   (* POST /v1/user/login *)
| GetManagedUsers                                    (* GET /v1/user/managed *)
| GetTeams                                           (* GET /v1/team *)
| PutTeamKey (team_uuid : pyval).                    (* PUT /v1/team/{uuid}/key *)

(** Lines the scripts print on standard output. *)
Inductive output : Type :=
| OutTeamNotFound (team_name : string)   (* {"error": "Team '...' not found."} *)
| OutWarning                             (* the invalidation warning *)
| OutCancelled                           (* "Operation cancelled." *)
| OutApiKey (api_key : pyval)            (* {"api_key": ...} *)
| OutError (m : message).                (* {"error": str(e)} *)

(** The mutable part of a [DependencyTrackClient] together with what it
    has sent and printed so far (oldest first). *)
Record client : Type :=
  { jwt_token : option string;
    authorization : option string;       (* session header "Authorization: Bearer ..." *)
    sent : list request;
    printed : list output }.

Definition new_client : client :=
  {| jwt_token := None; authorization := None; sent := []; printed := [] |}.

(** Computations of the client: they read and update the client and end
    with a value or an exception. *)
Definition M (A : Type) : Type := client -> result A * client.

Definition ret {A} (a : A) : M A := fun c => (Ok a, c).

Definition raise {A} (e : exn) : M A := fun c => (Raise e, c).

Definition lift {A} (r : result A) : M A := fun c => (r, c).

Definition bind {A B} (m : M A) (k : A -> M B) : M B :=
  fun c =>
    match m c with
    | (Ok a, c') => k a c'
    | (Raise e, c') => (Raise e, c')
    end.

(** [try: m except <catches> as e: handler e] *)
Definition try_except {A} (m : M A) (catches : exn -> bool) (handler : exn -> M A)
  : M A :=
  fun c =>
    match m c with
    | (Ok a, c') => (Ok a, c')
    | (Raise e, c') => if catches e then handler e c' else (Raise e, c')
    end.

Definition any_exception (e : exn) : bool := true.

Notation "x <- m ;; k" := (bind m (fun x => k))
  (at level 61, m at next level, right associativity).
Notation "m ;;; k" := (bind m (fun _ => k))
  (at level 61, right associativity).

Definition store_token (token : string) : M unit :=
  fun c =>
    (Ok tt, {| jwt_token := Some token;
               authorization := Some ("Bearer " ++ token);
               sent := sent c;
               printed := printed c |}).

Definition print (o : output) : M unit :=
  fun c =>
    (Ok tt, {| jwt_token := jwt_token c;
               authorization := authorization c;
               sent := sent c;
               printed := printed c ++ [o] |}).

Definition count_logins (l : list request) : nat :=
  List.length (filter (fun q => match q with PostLogin _ _ => true | _ => false end) l).

Definition is_directory_request (q : request) : bool :=
  match q with
  | GetManagedUsers | GetTeams => true
  | _ => false
  end.

Definition is_rotate_request (q : request) : bool :=
  match q with
  | PutTeamKey _ => true
  | _ => false
  end.

Section Transport.

(** The remote service: what each request is answered with. *)
Variable remote : request -> http_result.

Definition send (q : request) : M http_result :=
  fun c =>
    (Ok (remote q),
     {| jwt_token := jwt_token c;
        authorization := authorization c;
        sent := sent c ++ [q];
        printed := printed c |}).

(** [response.raise_for_status()] raises for a status in 400..599. *)
Definition is_http_error (r : response) : bool :=
  (400 <=? status_code r) && (status_code r <? 600).

(** [_make_request] / [_make_admin_request]: the request is sent, and a
    [RequestException] (no response, or an error status) is re-raised as
    a [DependencyTrackAPIError] with message [failed]. *)
Definition make_request (failed : message) (q : request) : M response :=
  r <- send q ;;
  match r with
  | NoResponse => raise (DependencyTrackAPIError failed)
  | Reply resp =>
      if is_http_error resp then raise (DependencyTrackAPIError failed)
      else ret resp
  end.

End Transport.

(* ================================================================== *)
(** ** [dt_user_login.py] *)

Module UserLogin.

(** The [User] dataclass; the fields hold whatever the record held. *)
Record User : Type :=
  { username : pyval;
    email : pyval;
    fullname : pyval;
    last_login : pyval;
    created : pyval;
    suspended : pyval;
    force_password_change : pyval;
    non_expiry_password : pyval }.

(** The [User(...)] expression of [get_user_by_username_or_email]. *)
Definition make_user (user_data : pyval) : result User :=
  let? username := Py.get user_data "username" (PStr EmptyString) in
  let? email := Py.get user_data "email" (PStr EmptyString) in
  let? fullname := Py.get user_data "fullname" (PStr EmptyString) in
  let? last_login := Py.get user_data "lastLogin" PNone in
  let? created := Py.get user_data "created" PNone in
  let? suspended := Py.get user_data "suspended" (PBool false) in
  let? force_password_change := Py.get user_data "forcePasswordChange" (PBool false) in
  let? non_expiry_password := Py.get user_data "nonExpiryPassword" (PBool false) in
  Ok {| username := username; email := email; fullname := fullname;
        last_login := last_login; created := created; suspended := suspended;
        force_password_change := force_password_change;
        non_expiry_password := non_expiry_password |}.

(** The loop of [get_user_by_username_or_email]. *)
Fixpoint scan_users (identifier_lower : string) (all_users : list pyval)
  : result (option User) :=
  match all_users with
  | [] => Ok None
  | user_data :: rest =>
      let? u := Py.get user_data "username" (PStr EmptyString) in
      let? ul := Py.lower u in
      if String.eqb ul identifier_lower then
        let? user := make_user user_data in Ok (Some user)
      else
        let? e := Py.get user_data "email" (PStr EmptyString) in
        let? el := Py.lower e in
        if String.eqb el identifier_lower then
          let? user := make_user user_data in Ok (Some user)
        else scan_users identifier_lower rest
  end.

(** The loop of [get_username_from_email]. *)
Fixpoint scan_emails (email_lower : string) (all_users : list pyval)
  : result pyval :=
  match all_users with
  | [] => Ok PNone
  | user_data :: rest =>
      let? e := Py.get user_data "email" PNone in
      let? el := Py.lower e in
      if String.eqb el email_lower then Py.get user_data "username" PNone
      else scan_emails email_lower rest
  end.

Section Client.

Variable remote : request -> http_result.
Variable json_loads : string -> result pyval.

(** Whether [datetime.fromtimestamp] accepts a number on this platform. *)
Variable timestamp_in_range : pyval -> bool.

Definition fromtimestamp (v : pyval) : result unit :=
  match v with
  | PBool _ | PInt _ | PFloat _ _ =>
      if timestamp_in_range v then Ok tt else Raise OverflowError
  | _ => Raise TypeError
  end.

(** The three "Token Information" debug lines of [_authenticate]; their
    f-strings are evaluated whatever the log level. *)
Definition log_token_information (payload : pyval) : result unit :=
  let? _ := Py.get payload "sub" (PStr "N/A") in
  let? iat := Py.get payload "iat" (PInt 0) in
  let? _ := fromtimestamp iat in
  let? exp := Py.get payload "exp" (PInt 0) in
  let? _ := fromtimestamp exp in
  Ok tt.

Definition _authenticate (username : pyval) (password : string) : M unit :=
  r <- send remote (PostLogin username password) ;;
  match r with
  | NoResponse => raise (DependencyTrackAPIError MsgAuthRequestFailed)
  | Reply response =>
      if status_code response =? 200 then
        let token := PyStr.strip (text response) in
        if PyStr.startswith "eyJ" token then
          store_token token ;;;
          payload <- lift (decode_jwt_payload json_loads token) ;;
          if Py.truthy payload then lift (log_token_information payload)
          else ret tt
        else
          raise (DependencyTrackAPIError (MsgUnexpectedFormat (PyStr.take 100 token)))
      else
        raise (DependencyTrackAPIError
                 (MsgAuthStatus (status_code response) (text response)))
  end.

Definition _make_admin_request (q : request) : M response :=
  make_request remote MsgAdminRequestFailed q.

Definition get_username_from_email (email : string) : M pyval :=
  try_except
    (response <- _make_admin_request GetManagedUsers ;;
     all_users <- lift (json_loads (text response)) ;;
     let email_lower := PyStr.strip (PyStr.lower email) in
     users <- lift (Py.iter all_users) ;;
     lift (scan_emails email_lower users))
    any_exception
    (fun _ => ret PNone).

Definition authenticate_with_identifier (identifier password : string) : M pyval :=
  direct <-
    try_except
      (_authenticate (PStr identifier) password ;;; ret (Some (PStr identifier)))
      is_api_error
      (fun _ => ret None) ;;
  match direct with
  | Some found => ret found
  | None =>
      if PyStr.contains "@" identifier then
        username <- get_username_from_email identifier ;;
        if Py.truthy username then
          try_except
            (_authenticate username password ;;; ret username)
            is_api_error
            (fun _ => raise (DependencyTrackAPIError
                               (MsgUsernameFoundAuthFailed identifier username)))
        else
          raise (DependencyTrackAPIError (MsgNoUsernameForEmail identifier))
      else
        raise (DependencyTrackAPIError (MsgAuthFailedForIdentifier identifier))
  end.

Definition get_all_users : M pyval :=
  response <- _make_admin_request GetManagedUsers ;;
  lift (json_loads (text response)).

Definition get_user_by_username_or_email (identifier : string) : M (option User) :=
  all_users <- get_all_users ;;
  let identifier_lower := PyStr.strip (PyStr.lower identifier) in
  users <- lift (Py.iter all_users) ;;
  lift (scan_users identifier_lower users).

End Client.

End UserLogin.

(* ================================================================== *)
(** ** [dt_fetch_teams_for_user.py] *)

Module FetchTeams.

Record User : Type :=
  { username : pyval;
    email : pyval;
    fullname : pyval;
    last_login : pyval;
    created : pyval;
    suspended : pyval;
    force_password_change : pyval;
    non_expiry_password : pyval;
    teams : list pyval;
    permissions : pyval }.

(** [[t.get('name', '') for t in ...]] *)
Fixpoint team_names (ts : list pyval) : result (list pyval) :=
  match ts with
  | [] => Ok []
  | t :: rest =>
      let? n := Py.get t "name" (PStr EmptyString) in
      let? ns := team_names rest in
      Ok (n :: ns)
  end.

Definition make_user (user_data : pyval) : result User :=
  let? username := Py.get user_data "username" (PStr EmptyString) in
  let? email := Py.get user_data "email" (PStr EmptyString) in
  let? fullname := Py.get user_data "fullname" (PStr EmptyString) in
  let? last_login := Py.get user_data "lastLogin" PNone in
  let? created := Py.get user_data "created" PNone in
  let? suspended := Py.get user_data "suspended" (PBool false) in
  let? force_password_change := Py.get user_data "forcePasswordChange" (PBool false) in
  let? non_expiry_password := Py.get user_data "nonExpiryPassword" (PBool false) in
  let? ts := Py.get user_data "teams" (PList []) in
  let? ts := Py.iter ts in
  let? teams := team_names ts in
  let? permissions := Py.get user_data "permissions" (PList []) in
  (* __post_init__: a [None] for [permissions] becomes the empty list;
     [teams], built by the comprehension, is never [None]. *)
  let permissions := match permissions with PNone => PList [] | _ => permissions end in
  Ok {| username := username; email := email; fullname := fullname;
        last_login := last_login; created := created; suspended := suspended;
        force_password_change := force_password_change;
        non_expiry_password := non_expiry_password;
        teams := teams; permissions := permissions |}.

(** The loop of [get_all_users]. *)
Fixpoint make_users (users_data : list pyval) : result (list User) :=
  match users_data with
  | [] => Ok []
  | user_data :: rest =>
      let? user := make_user user_data in
      let? users := make_users rest in
      Ok (user :: users)
  end.

(** [v and v.lower() == identifier_lower] as a condition. *)
Definition field_matches (v : pyval) (identifier_lower : string) : result bool :=
  if Py.truthy v then
    let? l := Py.lower v in Ok (String.eqb l identifier_lower)
  else Ok false.

(** The loop of [get_user_by_username_or_email]. *)
Fixpoint scan_users (identifier_lower : string) (all_users : list User)
  : result (option User) :=
  match all_users with
  | [] => Ok None
  | user :: rest =>
      let? by_username := field_matches (username user) identifier_lower in
      if by_username then Ok (Some user)
      else
        let? by_email := field_matches (email user) identifier_lower in
        if by_email then Ok (Some user)
        else scan_users identifier_lower rest
  end.

Section Client.

Variable remote : request -> http_result.
Variable json_loads : string -> result pyval.

Definition _make_request (q : request) : M response :=
  make_request remote MsgApiRequestFailed q.

Definition get_all_users : M (list User) :=
  response <- _make_request GetManagedUsers ;;
  users_data <- lift (json_loads (text response)) ;;
  users_data <- lift (Py.iter users_data) ;;
  lift (make_users users_data).

Definition get_user_by_username_or_email (identifier : string) : M (option User) :=
  all_users <- get_all_users ;;
  let identifier_lower := PyStr.strip (PyStr.lower identifier) in
  lift (scan_users identifier_lower all_users).

End Client.

End FetchTeams.

(* ================================================================== *)
(** ** [dt_generate_api_key.py] *)

Module GenerateApiKey.

(** The loop of [find_team_by_name]. *)
Fixpoint scan_teams (team_name : string) (teams : list pyval) : result pyval :=
  match teams with
  | [] => Ok PNone
  | team :: rest =>
      let? n := Py.get team "name" (PStr EmptyString) in
      let? nl := Py.lower n in
      if String.eqb nl (PyStr.lower team_name) then Ok team
      else scan_teams team_name rest
  end.

(** [response not in ['yes', 'y']] *)
Definition declined (answer : string) : bool :=
  negb (String.eqb answer "yes" || String.eqb answer "y").

Section Client.

Variable remote : request -> http_result.
Variable json_loads : string -> result pyval.

(** [str(x)] as an f-string interpolates it, and the rendering of
    [datetime.now().timestamp()] at the time of the call. *)
Variable str_of : pyval -> string.
Variable now_timestamp : string.

(** What the operator types at the confirmation prompt. *)
Variable typed_answer : string.

Definition _make_request (q : request) : M response :=
  make_request remote MsgApiRequestFailed q.

Definition get_teams : M pyval :=
  response <- _make_request GetTeams ;;
  lift (json_loads (text response)).

Definition find_team_by_name (team_name : string) : M pyval :=
  teams <- get_teams ;;
  teams <- lift (Py.iter teams) ;;
  lift (scan_teams team_name teams).

(** The default of [api_key_data.get('key', ...)]. *)
Definition placeholder_key (team_uuid : pyval) : pyval :=
  PStr ("DT-Token-" ++ str_of team_uuid ++ "-" ++ now_timestamp).

Definition generate_api_key (team_uuid : pyval) : M pyval :=
  response <- _make_request (PutTeamKey team_uuid) ;;
  if negb (String.eqb (text response) EmptyString) then
    api_key_data <- lift (json_loads (text response)) ;;
    lift (Py.get api_key_data "key" (placeholder_key team_uuid))
  else
    raise (DependencyTrackAPIError MsgNoApiKeyReturned).

(** [generate_api_key_for_team].  Two things are left out: writing the
    result file ([save_response_to_json], which sends no request and runs
    after the key is printed), and the end of input at the prompt. *)
Definition generate_api_key_for_team (team_name : string) (auto_confirm : bool)
  : M bool :=
  team <- find_team_by_name team_name ;;
  if negb (Py.truthy team) then
    print (OutTeamNotFound team_name) ;;; ret false
  else
    _ <- lift (Py.getitem team "name") ;;
    _ <- lift (Py.getitem team "uuid") ;;
    perms <- lift (Py.get team "permissions" (PList [])) ;;
    _ <- lift (Py.len perms) ;;
    cancelled <-
      (if negb auto_confirm then
         _ <- lift (Py.getitem team "name") ;;
         _ <- lift (Py.getitem team "uuid") ;;
         print OutWarning ;;;
         let response := PyStr.lower (PyStr.strip typed_answer) in
         if declined response then print OutCancelled ;;; ret true
         else ret false
       else ret false) ;;
    if (cancelled : bool) then ret false
    else
      try_except
        (uuid <- lift (Py.getitem team "uuid") ;;
         new_api_key <- generate_api_key uuid ;;
         _ <- lift (Py.getitem team "name") ;;
         print (OutApiKey new_api_key) ;;;
         ret true)
        is_api_error
        (fun e =>
           match e with
           | DependencyTrackAPIError m => print (OutError m) ;;; ret false
           | _ => ret false
           end).

End Client.

End GenerateApiKey.

(* ================================================================== *)
(** ** [Dependency-Track_generate_api_key.py] *)

Module GenerateApiKeyScript.

Section Client.

Variable remote : request -> http_result.
Variable json_loads : string -> result pyval.

Definition _make_request (q : request) : M response :=
  make_request remote MsgApiRequestFailed q.

Definition generate_api_key (team_uuid : pyval) : M pyval :=
  response <- _make_request (PutTeamKey team_uuid) ;;
  if negb (String.eqb (text response) EmptyString) then
    api_key_data <- lift (json_loads (text response)) ;;
    lift (Py.get api_key_data "key" (PStr "No key field found"))
  else
    raise (DependencyTrackAPIError MsgNoApiKeyReturned).

End Client.

End GenerateApiKeyScript.

(* ================================================================== *)
(** ** A JSON reader for running the client on concrete bodies

    The reader covers objects, arrays, strings with the two-character
    escapes, numbers, [true], [false] and [null]; on such a text it gives
    the value [json.loads] gives.  [\u] escapes and the constants [NaN] and
    [Infinity] are not covered and are reported as errors. *)

Module JsonReader.

Definition is_ws (c : ascii) : bool :=
  Ascii.eqb c " " || Ascii.eqb c "009" || Ascii.eqb c "010" || Ascii.eqb c "013".

Fixpoint skip_ws (s : string) : string :=
  match s with
  | EmptyString => EmptyString
  | String c s' => if is_ws c then skip_ws s' else s
  end.

Definition digit_value (c : ascii) : option Z :=
  let n := Z.of_N (N_of_ascii c) in
  if (48 <=? n) && (n <=? 57) then Some (n - 48) else None.

(** Reads a maximal run of digits: the number read so far, how many
    digits were read, and the rest. *)
Fixpoint digits (s : string) (acc : Z) (count : Z) : Z * Z * string :=
  match s with
  | EmptyString => (acc, count, s)
  | String c s' =>
      match digit_value c with
      | Some d => digits s' (acc * 10 + d) (count + 1)
      | None => (acc, count, s)
      end
  end.

Definition starts_with_digit (s : string) : bool :=
  match s with
  | String c _ => match digit_value c with Some _ => true | None => false end
  | EmptyString => false
  end.

(** A number: an optional minus sign, an integer part without leading
    zeros, an optional fraction and an optional exponent. *)
Definition number (s : string) : option (pyval * string) :=
  let (negative, s0) :=
    match s with
    | String c r => if Ascii.eqb c "-" then (true, r) else (false, s)
    | EmptyString => (false, s)
    end in
  let sign := if negative then (-1) else 1 in
  let int_part :=
    match s0 with
    | String c r =>
        if Ascii.eqb c "0" then Some (0, r)
        else if starts_with_digit s0 then
               let '(n, _, r') := digits s0 0 0 in Some (n, r')
             else None
    | EmptyString => None
    end in
  match int_part with
  | None => None
  | Some (n, s1) =>
      let frac :=
        match s1 with
        | String c r =>
            if Ascii.eqb c "." && starts_with_digit r then
              let '(m, k, r') := digits r n 0 in Some (m, k, r')
            else None
        | EmptyString => None
        end in
      let '(m, k, s2, is_float) :=
        match frac with
        | Some (m, k, r) => (m, k, r, true)
        | None => (n, 0, s1, false)
        end in
      let expo :=
        match s2 with
        | String c r =>
            if Ascii.eqb c "e" || Ascii.eqb c "E" then
              match r with
              | String d r' =>
                  if Ascii.eqb d "-" && starts_with_digit r' then
                    let '(x, _, r'') := digits r' 0 0 in Some (- x, r'')
                  else if Ascii.eqb d "+" && starts_with_digit r' then
                    let '(x, _, r'') := digits r' 0 0 in Some (x, r'')
                  else if starts_with_digit r then
                    let '(x, _, r'') := digits r 0 0 in Some (x, r'')
                  else None
              | EmptyString => None
              end
            else None
        | EmptyString => None
        end in
      match expo with
      | Some (x, s3) => Some (PFloat (sign * m) (x - k), s3)
      | None =>
          if is_float then Some (PFloat (sign * m) (- k), s2)
          else Some (PInt (sign * n), s2)
      end
  end.

Definition escape (c : ascii) : option ascii :=
  if Ascii.eqb c "034" then Some "034"%char
  else if Ascii.eqb c "\" then Some "\"%char
  else if Ascii.eqb c "/" then Some "/"%char
  else if Ascii.eqb c "b" then Some "008"%char
  else if Ascii.eqb c "f" then Some "012"%char
  else if Ascii.eqb c "n" then Some "010"%char
  else if Ascii.eqb c "r" then Some "013"%char
  else if Ascii.eqb c "t" then Some "009"%char
  else None.

(** The characters after an opening quote, up to the closing one. *)
Fixpoint chars (s : string) : option (string * string) :=
  match s with
  | EmptyString => None
  | String c r =>
      if Ascii.eqb c "034" then Some (EmptyString, r)
      else if Ascii.eqb c "\" then
        match r with
        | String e r' =>
            match escape e, chars r' with
            | Some x, Some (t, rest) => Some (String x t, rest)
            | _, _ => None
            end
        | EmptyString => None
        end
      else if (N_of_ascii c <? 32)%N then None
      else
        match chars r with
        | Some (t, rest) => Some (String c t, rest)
        | None => None
        end
  end.

(** [d[k] = v] on a dict under construction. *)
Fixpoint dict_set (k : string) (v : pyval) (d : list (string * pyval))
  : list (string * pyval) :=
  match d with
  | [] => [(k, v)]
  | (k', v') :: d' =>
      if String.eqb k' k then (k', v) :: d' else (k', v') :: dict_set k v d'
  end.

Definition literal (word : string) (v : pyval) (s : string) : option (pyval * string) :=
  if String.prefix word s
  then Some (v, String.substring (String.length word)
                  (String.length s - String.length word) s)
  else None.

Fixpoint value (fuel : nat) (s : string) : option (pyval * string) :=
  match fuel with
  | O => None
  | S fuel' =>
      match skip_ws s with
      | EmptyString => None
      | String c r =>
          if Ascii.eqb c "{" then
            match skip_ws r with
            | String c' r' =>
                if Ascii.eqb c' "}" then Some (PDict [], r')
                else members fuel' (String c' r') []
            | EmptyString => None
            end
          else if Ascii.eqb c "[" then
            match skip_ws r with
            | String c' r' =>
                if Ascii.eqb c' "]" then Some (PList [], r')
                else elements fuel' (String c' r') []
            | EmptyString => None
            end
          else if Ascii.eqb c "034" then
            match chars r with
            | Some (t, rest) => Some (PStr t, rest)
            | None => None
            end
          else if Ascii.eqb c "t" then literal "true" (PBool true) (String c r)
          else if Ascii.eqb c "f" then literal "false" (PBool false) (String c r)
          else if Ascii.eqb c "n" then literal "null" PNone (String c r)
          else number (String c r)
      end
  end

with members (fuel : nat) (s : string) (acc : list (string * pyval))
  : option (pyval * string) :=
  match fuel with
  | O => None
  | S fuel' =>
      match skip_ws s with
      | String q r =>
          if Ascii.eqb q "034" then
            match chars r with
            | Some (k, r1) =>
                match skip_ws r1 with
                | String colon r2 =>
                    if Ascii.eqb colon ":" then
                      match value fuel' r2 with
                      | Some (v, r3) =>
                          match skip_ws r3 with
                          | String sep r4 =>
                              if Ascii.eqb sep "," then members fuel' r4 (dict_set k v acc)
                              else if Ascii.eqb sep "}" then Some (PDict (dict_set k v acc), r4)
                              else None
                          | EmptyString => None
                          end
                      | None => None
                      end
                    else None
                | EmptyString => None
                end
            | None => None
            end
          else None
      | EmptyString => None
      end
  end

with elements (fuel : nat) (s : string) (acc : list pyval)
  : option (pyval * string) :=
  match fuel with
  | O => None
  | S fuel' =>
      match value fuel' s with
      | Some (v, r) =>
          match skip_ws r with
          | String sep r' =>
              if Ascii.eqb sep "," then elements fuel' r' (acc ++ [v])
              else if Ascii.eqb sep "]" then Some (PList (acc ++ [v]), r')
              else None
          | EmptyString => None
          end
      | None => None
      end
  end.

Definition json_loads (s : string) : result pyval :=
  match value (2 * String.length s + 2) s with
  | Some (v, rest) =>
      match skip_ws rest with
      | EmptyString => Ok v
      | _ => Raise ValueError
      end
  | None => Raise ValueError
  end.

End JsonReader.

(* ================================================================== *)
(** ** The directory as the client sees it, and sample services *)

Section Directory.

Variable remote : request -> http_result.
Variable json_loads : string -> result pyval.

(** The records a listing request yields when the Directory Client call
    succeeds: the reply is not an error status and its body is a JSON
    collection. *)
Definition directory_listing (q : request) : option (list pyval) :=
  match remote q with
  | NoResponse => None
  | Reply r =>
      if is_http_error r then None
      else match json_loads (text r) with
           | Ok v => match Py.iter v with Ok l => Some l | Raise _ => None end
           | Raise _ => None
           end
  end.

(** The Directory Client call fails: no response, or an error status. *)
Definition directory_fails (q : request) : bool :=
  match remote q with
  | NoResponse => true
  | Reply r => is_http_error r
  end.

End Directory.

(** *** ASCII text

    The text on which [PyStr.lower] and [PyStr.strip] are Python's
    [str.lower] and [str.strip]: every byte is below 128. *)
Definition ascii_text (s : string) : bool := Base64.all_ascii s.

(** Field [key] of record [u], when it is a string, is ASCII text. *)
Definition ascii_field (key : string) (u : pyval) : bool :=
  match Py.get u key PNone with
  | Ok (PStr s) => ascii_text s
  | _ => true
  end.

(** The strings an identity record is compared by are ASCII text. *)
Definition ascii_identity (u : pyval) : bool :=
  ascii_field "username" u && ascii_field "email" u.

(** The name a team record is compared by is ASCII text. *)
Definition ascii_team (t : pyval) : bool := ascii_field "name" t.

(** [e] is the [email] of record [u] and equals [address] up to case. *)
Definition email_is (address : string) (u : pyval) : bool :=
  match Py.get u "email" PNone with
  | Ok (PStr e) => String.eqb (PyStr.lower e) (PyStr.lower address)
  | _ => false
  end.

(** The record has no [email]: the field is absent or [None]. *)
Definition lacks_email (u : pyval) : bool :=
  match Py.get u "email" PNone with
  | Ok PNone => true
  | _ => false
  end.

(** Field [key] of record [u] (the empty string when absent) is a string
    whose lower-cased form is [wanted]. *)
Definition field_is (key wanted : string) (u : pyval) : bool :=
  match Py.get u key (PStr EmptyString) with
  | Ok (PStr v) => String.eqb (PyStr.lower v) wanted
  | _ => false
  end.

(** Record [u] matches the normalized identifier by username or by e-mail. *)
Definition matches_identifier (wanted : string) (u : pyval) : bool :=
  field_is "username" wanted u || field_is "email" wanted u.

Definition is_dict (v : pyval) : bool :=
  match v with PDict _ => true | _ => false end.

Definition absent_or_str (v : option pyval) : bool :=
  match v with
  | None | Some (PStr _) => true
  | _ => false
  end.

(** An identity record as the data model has it: a map whose [username]
    and [email], when present, are strings and whose [teams], when present,
    is a list of maps. *)
Definition well_formed_identity (u : pyval) : bool :=
  match u with
  | PDict d =>
      absent_or_str (Py.lookup "username" d)
      && absent_or_str (Py.lookup "email" d)
      && match Py.lookup "teams" d with
         | None => true
         | Some (PList ts) => forallb is_dict ts
         | _ => false
         end
  | _ => false
  end.

(** The [name] of team record [t] equals [team_name] up to case. *)
Definition team_named (team_name : string) (t : pyval) : bool :=
  match Py.get t "name" (PStr EmptyString) with
  | Ok (PStr n) => String.eqb (PyStr.lower n) (PyStr.lower team_name)
  | _ => false
  end.

(** A team record as the data model has it: a map with a string [name],
    a [uuid], and [permissions] (when present) a sequence. *)
Definition well_formed_team (t : pyval) : bool :=
  match t with
  | PDict d =>
      match Py.lookup "name" d, Py.lookup "uuid" d with
      | Some (PStr _), Some _ =>
          match Py.lookup "permissions" d with
          | None | Some (PList _) => true
          | _ => false
          end
      | _, _ => false
      end
  | _ => false
  end.

Definition uuid_of (t : pyval) : pyval :=
  match Py.getitem t "uuid" with
  | Ok u => u
  | Raise _ => PNone
  end.

(** The operation goes ahead: auto-confirm is set, or the operator's
    answer is [yes] or [y] once trimmed and lower-cased. *)
Definition confirmed (auto_confirm : bool) (typed_answer : string) : bool :=
  auto_confirm
  || negb (GenerateApiKey.declined (PyStr.lower (PyStr.strip typed_answer))).

Module Samples.

Definition dq : string := String "034" EmptyString.

(** A JSON string literal (no characters that need escaping). *)
Definition jstr (s : string) : string := dq ++ s ++ dq.

Definition reply (status : Z) (body : string) : http_result :=
  Reply {| status_code := status; text := body |}.

Definition any_timestamp (v : pyval) : bool := true.

Definition str_of (v : pyval) : string :=
  match v with PStr s => s | _ => "?" end.

(** A service that cannot be reached. *)
Definition unreachable (q : request) : http_result := NoResponse.

Definition is_login_of (name : string) (q : request) : bool :=
  match q with
  | PostLogin (PStr u) _ => String.eqb u name
  | _ => false
  end.

(** [[{"username": "bob", "email": "bob@x.com"}]] *)
Definition bob_listing : string :=
  "[{" ++ jstr "username" ++ ":" ++ jstr "bob" ++ ","
       ++ jstr "email" ++ ":" ++ jstr "bob@x.com" ++ "}]".

(** The login endpoint accepts [bob] only; the directory lists [bob]. *)
Definition bob_service (q : request) : http_result :=
  match q with
  | PostLogin _ _ =>
      if is_login_of "bob" q then reply 200 "eyJ.e30.sig" else reply 401 "Unauthorized"
  | GetManagedUsers => reply 200 bob_listing
  | _ => NoResponse
  end.

(** A service that answers listing requests with [body] and nothing else. *)
Definition directory_only (body : string) (q : request) : http_result :=
  match q with
  | GetManagedUsers | GetTeams => reply 200 body
  | _ => NoResponse
  end.

Definition jdoe : pyval :=
  PDict [("username", PStr "jdoe"); ("email", PStr "jane@x.com")].

(** A record without the [email] field. *)
Definition ghost : pyval := PDict [("username", PStr "ghost")].

Definition jdoe_json : string :=
  "{" ++ jstr "username" ++ ":" ++ jstr "jdoe" ++ ","
      ++ jstr "email" ++ ":" ++ jstr "jane@x.com" ++ "}".

Definition ghost_json : string :=
  "{" ++ jstr "username" ++ ":" ++ jstr "ghost" ++ "}".

(** A service that refuses every request. *)
Definition forbidden (q : request) : http_result := reply 403 "Forbidden".

(** [[{"name": "Security", "uuid": "u1"}]] *)
Definition security_listing : string :=
  "[{" ++ jstr "name" ++ ":" ++ jstr "Security" ++ ","
       ++ jstr "uuid" ++ ":" ++ jstr "u1" ++ "}]".

Definition security_team : pyval :=
  PDict [("name", PStr "Security"); ("uuid", PStr "u1")].

(** One team, whose key rotation answers [{"key": "K1"}]. *)
Definition security_service (q : request) : http_result :=
  match q with
  | GetTeams => reply 200 security_listing
  | PutTeamKey (PStr u) =>
      if String.eqb u "u1" then reply 200 ("{" ++ jstr "key" ++ ":" ++ jstr "K1" ++ "}")
      else reply 404 "Not Found"
  | _ => NoResponse
  end.


(** [alice] has the e-mail [bob] and is listed before the user [bob]. *)
Definition alice_bob_listing : string :=
  "[{" ++ jstr "username" ++ ":" ++ jstr "alice" ++ ","
       ++ jstr "email" ++ ":" ++ jstr "bob" ++ "},{"
       ++ jstr "username" ++ ":" ++ jstr "bob" ++ ","
       ++ jstr "email" ++ ":" ++ jstr "bob@x.com" ++ "}]".

Definition alice : pyval :=
  PDict [("username", PStr "alice"); ("email", PStr "bob")].

Definition bob : pyval :=
  PDict [("username", PStr "bob"); ("email", PStr "bob@x.com")].

(** A token whose payload is [{"sub":"alice","iat":"soon"}]: the
    issued-at claim is a string. *)
Definition odd_token : string :=
  "eyJhbGciOiJIUzI1NiJ9.eyJzdWIiOiJhbGljZSIsImlhdCI6InNvb24ifQ.sig".

(** The login endpoint answers 200 with [odd_token]. *)
Definition odd_token_service (q : request) : http_result :=
  match q with
  | PostLogin _ _ => reply 200 odd_token
  | _ => NoResponse
  end.

(** [{"sub":"alice","iat":1700000000,"exp":1700003600}] *)
Definition claims_json : string :=
  "{" ++ jstr "sub" ++ ":" ++ jstr "alice" ++ ","
      ++ jstr "iat" ++ ":1700000000,"
      ++ jstr "exp" ++ ":1700003600}".

Definition claims : pyval :=
  PDict [("sub", PStr "alice"); ("iat", PInt 1700000000); ("exp", PInt 1700003600)].

(** [{"sub":"al"}], twelve bytes: its encoding is sixteen digits long, a
    multiple of four. *)
Definition short_claims_json : string :=
  "{" ++ jstr "sub" ++ ":" ++ jstr "al" ++ "}".

End Samples.

(* ================================================================== *)
(** ** Byte-level checks behind the base64 round trip

    Each check is a boolean function of one or two bytes, decided by
    running it on all of them. *)

Module ByteChecks.

Definition all_bytes : list ascii := map ascii_of_nat (seq 0 256).

(** [v] has a digit that the decoder reads back as [v]; the digit is ASCII
    and is neither the pad character nor the segment separator. *)
Definition good (v : N) : bool :=
  let c := Base64.digit v in
  negb (Ascii.eqb (Base64.urlsafe_char c) "=")
  && match Base64.value (Base64.urlsafe_char c) with
     | Some w => N.eqb w v
     | None => false
     end
  && negb (Ascii.eqb c ".")
  && Base64.is_ascii c.

Definition first (a : ascii) : bool :=
  good (N.shiftr (N_of_ascii a) 2).

Definition second (a b : ascii) : bool :=
  let x := N_of_ascii a in
  let y := N_of_ascii b in
  let v := N.lor (N.shiftl (N.land x 3) 4) (N.shiftr y 4) in
  good v
  && Ascii.eqb (Base64.byte (N.lor (N.shiftl (N.shiftr x 2) 2) (N.shiftr v 4))) a
  && N.eqb (N.land v 15) (N.shiftr y 4).

Definition third (b c : ascii) : bool :=
  let y := N_of_ascii b in
  let z := N_of_ascii c in
  let v := N.lor (N.shiftl (N.land y 15) 2) (N.shiftr z 6) in
  good v
  && Ascii.eqb (Base64.byte (N.lor (N.shiftl (N.shiftr y 4) 4) (N.shiftr v 2))) b
  && N.eqb (N.land v 3) (N.shiftr z 6).

Definition fourth (c : ascii) : bool :=
  let z := N_of_ascii c in
  let v := N.land z 63 in
  good v
  && Ascii.eqb (Base64.byte (N.lor (N.shiftl (N.shiftr z 6) 6) v)) c.

(** The last digit when one byte is left over, and when two are. *)
Definition last_of_one (a : ascii) : bool :=
  let x := N_of_ascii a in
  let v := N.shiftl (N.land x 3) 4 in
  good v
  && Ascii.eqb (Base64.byte (N.lor (N.shiftl (N.shiftr x 2) 2) (N.shiftr v 4))) a.

Definition last_of_two (b : ascii) : bool :=
  let y := N_of_ascii b in
  let v := N.shiftl (N.land y 15) 2 in
  good v
  && Ascii.eqb (Base64.byte (N.lor (N.shiftl (N.shiftr y 4) 4) (N.shiftr v 2))) b.

End ByteChecks.

(* ================================================================== *)
(** ** The entry points of the plug-in scripts

    [main] of each script once the command line is parsed and the client is
    built: what it prints as its JSON document and the status it exits
    with.  [sys.exit] raises [SystemExit], which the handlers for
    [Exception] do not catch, so a status chosen inside the [try] block is
    the status of the process. *)

Module UserLoginMain.

(** The JSON document [main] of [dt_user_login.py] prints. *)
Inductive report : Type :=
| Verified (username email fullname authenticated_as : pyval)
                                    (* {"success": true, ...} *)
| UserNotFound (identifier : string)(* {"success": false, "message": "User ... not found."} *)
| Failed (e : exn).                 (* {"success": false, "message": str(e)} *)

Definition is_verified (r : report) : bool :=
  match r with Verified _ _ _ _ => true | _ => false end.

Section Script.

Variable remote : request -> http_result.
Variable json_loads : string -> result pyval.
Variable timestamp_in_range : pyval -> bool.

Definition main (user password : string) : M (Z * report) :=
  try_except
    (actual_username <-
       UserLogin.authenticate_with_identifier remote json_loads timestamp_in_range
         user password ;;
     found <- UserLogin.get_user_by_username_or_email remote json_loads user ;;
     match found with
     | None => ret (1, UserNotFound user)
     | Some u =>
         ret (0, Verified (UserLogin.username u) (UserLogin.email u)
                   (UserLogin.fullname u) actual_username)
     end)
    any_exception
    (fun e => ret (1, Failed e)).

End Script.

End UserLoginMain.

Module FetchTeamsMain.

(** The JSON document [main] of [dt_fetch_teams_for_user.py] prints. *)
Inductive report : Type :=
| Found (username email fullname : pyval) (teams : list pyval) (found_by : string)
| UserNotFound (identifier : string)   (* {"error": "User ... not found."} *)
| Failed (e : exn).                    (* {"error": str(e)} *)

Section Script.

Variable remote : request -> http_result.
Variable json_loads : string -> result pyval.

Definition main (user : string) : M (Z * report) :=
  try_except
    (found <- FetchTeams.get_user_by_username_or_email remote json_loads user ;;
     match found with
     | None => ret (1, UserNotFound user)
     | Some u =>
         l <- lift (Py.lower (FetchTeams.username u)) ;;
         let found_by :=
           if String.eqb l (PyStr.strip (PyStr.lower user)) then "username"
           else "email" in
         ret (0, Found (FetchTeams.username u) (FetchTeams.email u)
                   (FetchTeams.fullname u) (FetchTeams.teams u) found_by)
     end)
    any_exception
    (fun e => ret (1, Failed e)).

End Script.

End FetchTeamsMain.

Module GenerateApiKeyMain.

Section Script.

Variable remote : request -> http_result.
Variable json_loads : string -> result pyval.
Variable str_of : pyval -> string.
Variable now_timestamp : string.
Variable typed_answer : string.

(** [main] of [dt_generate_api_key.py]: the exit status; its handlers log
    the error and print nothing. *)
Definition main (team : string) (yes : bool) : M Z :=
  try_except
    (success <-
       GenerateApiKey.generate_api_key_for_team
         remote json_loads str_of now_timestamp typed_answer team yes ;;
     ret (if (success : bool) then 0 else 1))
    any_exception
    (fun _ => ret 1).

End Script.

End GenerateApiKeyMain.

(* ================================================================== *)
(** ** [Dependency-Track_generate_api_key.py]: teams and confirmation *)

Module ScriptTeams.

(** The [Team] dataclass. *)
Record Team : Type :=
  { uuid : pyval;
    name : pyval;
    permissions : pyval }.

(** The [Team(...)] expression of [get_teams]: [uuid] and [name] are
    indexed, [permissions] has a default. *)
Definition make_team (team_data : pyval) : result Team :=
  let? uuid := Py.getitem team_data "uuid" in
  let? name := Py.getitem team_data "name" in
  let? permissions := Py.get team_data "permissions" (PList []) in
  Ok {| uuid := uuid; name := name; permissions := permissions |}.

(** The loop of [get_teams]. *)
Fixpoint make_teams (teams_data : list pyval) : result (list Team) :=
  match teams_data with
  | [] => Ok []
  | team_data :: rest =>
      let? team := make_team team_data in
      let? teams := make_teams rest in
      Ok (team :: teams)
  end.

(** The loop of [find_team_by_name]. *)
Fixpoint scan_teams (team_name : string) (teams : list Team) : result (option Team) :=
  match teams with
  | [] => Ok None
  | team :: rest =>
      let? nl := Py.lower (name team) in
      if String.eqb nl (PyStr.lower team_name) then Ok (Some team)
      else scan_teams team_name rest
  end.

(** The loop of [confirm_action] over the lines the operator types, in
    order; [None] when the input ends before an answer is recognised
    ([input] then raises [EOFError]).  The result comes with the number of
    times "Please enter 'yes' or 'no'" was printed. *)
Fixpoint confirm_action (typed : list string) : option (bool * nat) :=
  match typed with
  | [] => None
  | line :: rest =>
      let response := PyStr.lower (PyStr.strip line) in
      if String.eqb response "yes" || String.eqb response "y" then Some (true, O)
      else if String.eqb response "no" || String.eqb response "n" then Some (false, O)
      else match confirm_action rest with
           | Some (answer, asked) => Some (answer, S asked)
           | None => None
           end
  end.

Definition recognised (line : string) : bool :=
  let response := PyStr.lower (PyStr.strip line) in
  String.eqb response "yes" || String.eqb response "y"
  || String.eqb response "no" || String.eqb response "n".

Section Client.

Variable remote : request -> http_result.
Variable json_loads : string -> result pyval.

Definition get_teams : M (list Team) :=
  response <- GenerateApiKeyScript._make_request remote GetTeams ;;
  teams_data <- lift (json_loads (text response)) ;;
  teams_data <- lift (Py.iter teams_data) ;;
  lift (make_teams teams_data).

Definition find_team_by_name (team_name : string) : M (option Team) :=
  teams <- get_teams ;;
  lift (scan_teams team_name teams).

End Client.

End ScriptTeams.

(* ================================================================== *)
(** ** [app.py]: running a script and answering a request *)

Module App.

(** What [subprocess.run] gives back: the process could not be started,
    or it finished with a status, its standard output and its standard
    error. *)
Inductive process : Type :=
| CannotRun
| Finished (returncode : Z) (stdout stderr : string).

(** What [run_script] and the routes can raise. *)
Inductive failure : Type :=
| CannotStart                       (* the exception of [subprocess.run] *)
| ScriptFailed (stderr : string)    (* Exception(result.stderr) *)
| PythonError (e : exn).

Inductive attempt (A : Type) : Type :=
| Done (a : A)
| Gave_up (why : failure).
Arguments Done {A} a.
Arguments Gave_up {A} why.

(** The JSON bodies the routes answer with. *)
Inductive body : Type :=
| ErrorMessage (m : string)         (* {"error": m} or {"success": false, "message": m} *)
| ErrorOf (why : failure)           (* {"error": str(e)} / {"success": false, "message": str(e)} *)
| Echo (data : pyval)               (* jsonify(data) *)
| LoginRefused (message : pyval)    (* {"success": false, "message": data['error']} *)
| Token (api_key : pyval)           (* {"token": api_key} *)
| LoggedIn (form_username : string) (username email fullname : pyval).

Record session : Type :=
  { logged_in : bool;
    session_username : option string }.

(** [needle in hay] for two strings. *)
Fixpoint is_substring (needle hay : string) : bool :=
  String.prefix needle hay
  || match hay with
     | EmptyString => false
     | String _ rest => is_substring needle rest
     end.

Definition is_str (s : string) (v : pyval) : bool :=
  match v with
  | PStr x => String.eqb x s
  | _ => false
  end.

(** ['error' in data] *)
Definition contains_key (key : string) (data : pyval) : result bool :=
  match data with
  | PDict d => Ok (match Py.lookup key d with Some _ => true | None => false end)
  | PList l => Ok (existsb (is_str key) l)
  | PStr s => Ok (is_substring key s)
  | _ => Raise TypeError
  end.

(** [not x] for a request parameter that may be absent. *)
Definition missing (x : option string) : bool :=
  match x with
  | None => true
  | Some s => String.eqb s EmptyString
  end.

Definition is_none (v : pyval) : bool :=
  match v with PNone => true | _ => false end.

Section Routes.

Variable json_loads : string -> result pyval.

(** The process a script and its arguments run as. *)
Variable execute : string -> list string -> process.

Definition run_script (script_name : string) (args : list string) : attempt pyval :=
  match execute script_name args with
  | CannotRun => Gave_up CannotStart
  | Finished returncode stdout stderr =>
      if negb (returncode =? 0) then Gave_up (ScriptFailed stderr)
      else
        match json_loads stdout with
        | Ok data => Done data
        | Raise ValueError => Done (PDict [("output", PStr (PyStr.strip stdout))])
        | Raise e => Gave_up (PythonError e)
        end
  end.

(** The route [/api/generate_token]. *)
Definition generate_token (team : option string) : Z * body :=
  match team with
  | Some t =>
      if String.eqb t EmptyString then (400, ErrorMessage "Team is required")
      else
        match run_script "dt_generate_api_key.py" ["--team"; t; "--yes"; "--verbose"] with
        | Gave_up why => (500, ErrorOf why)
        | Done data =>
            match contains_key "error" data with
            | Raise e => (500, ErrorOf (PythonError e))
            | Ok true => (404, Echo data)
            | Ok false =>
                match Py.get data "api_key" PNone with
                | Raise e => (500, ErrorOf (PythonError e))
                | Ok api_key =>
                    if is_none api_key
                    then (500, ErrorMessage "Token generation failed")
                    else (200, Token api_key)
                end
            end
        end
  | None => (400, ErrorMessage "Team is required")
  end.

(** The route [/login]: the answer and the session afterwards. *)
Definition login (username password : option string) (s : session)
  : (Z * body) * session :=
  match username, password with
  | Some u, Some p =>
      if String.eqb u EmptyString || String.eqb p EmptyString
      then ((400, ErrorMessage "Username and password are required"), s)
      else
        match run_script "dt_user_login.py"
                ["--user"; u; "--password"; p; "--verbose"] with
        | Gave_up why => ((500, ErrorOf why), s)
        | Done data =>
            match contains_key "error" data with
            | Raise e => ((500, ErrorOf (PythonError e)), s)
            | Ok true =>
                match Py.getitem data "error" with
                | Ok message => ((404, LoginRefused message), s)
                | Raise e => ((500, ErrorOf (PythonError e)), s)
                end
            | Ok false =>
                let s' := {| logged_in := true; session_username := Some u |} in
                match Py.get data "email" PNone with
                | Raise e => ((500, ErrorOf (PythonError e)), s')
                | Ok email =>
                    match Py.get data "username" PNone,
                          Py.get data "fullname" PNone with
                    | Ok name, Ok fullname => ((200, LoggedIn u name email fullname), s')
                    | Raise e, _ => ((500, ErrorOf (PythonError e)), s')
                    | _, Raise e => ((500, ErrorOf (PythonError e)), s')
                    end
                end
            end
        end
  | _, _ => ((400, ErrorMessage "Username and password are required"), s)
  end.

End Routes.

End App.

(* ================================================================== *)
(** ** Predicates on directory records used by the further properties *)

(** Record [v] has a string [email], and it differs from [address] even
    up to case. *)
Definition has_other_email (address : string) (v : pyval) : bool :=
  match Py.get v "email" PNone with
  | Ok (PStr e) => negb (String.eqb (PyStr.lower e) (PyStr.lower address))
  | _ => false
  end.

Definition is_login_request (q : request) : bool :=
  match q with PostLogin _ _ => true | _ => false end.

(* ================================================================== *)
(** ** Standard base64 padding *)

(** The number of pad characters RFC 4648 puts after [n] digits. *)
Definition missing_pads (n : nat) : nat :=
  match (n mod 4)%nat with
  | 2%nat => 2%nat
  | 3%nat => 1%nat
  | _ => 0%nat
  end.

(* ================================================================== *)
(** ** Further sample services *)

Module Scenarios.

(** A client that already holds a token. *)
Definition logged_in : client :=
  {| jwt_token := Some "eyJ.e30.old";
     authorization := Some "Bearer eyJ.e30.old";
     sent := [];
     printed := [] |}.

(** The login endpoint answers 200 with a token of a single segment. *)
Definition opaque_token_service (q : request) : http_result :=
  match q with
  | PostLogin _ _ => Samples.reply 200 "eyJhbGciOiJIUzI1NiJ9"
  | _ => NoResponse
  end.

(** The directory lists [bob], and every login is refused. *)
Definition locked_service (q : request) : http_result :=
  match q with
  | PostLogin _ _ => Samples.reply 401 "Unauthorized"
  | GetManagedUsers => Samples.reply 200 Samples.bob_listing
  | _ => NoResponse
  end.

(** The team list holds [Security]; every rotation is answered with 500. *)
Definition rotation_down_service (q : request) : http_result :=
  match q with
  | GetTeams => Samples.reply 200 Samples.security_listing
  | PutTeamKey _ => Samples.reply 500 "Internal Server Error"
  | _ => NoResponse
  end.

(** [[{"name": "Security", "uuid": "u1"}, {"name": "Orphan"}]]: the
    second record has no [uuid]. *)
Definition orphan_listing : string :=
  "[{" ++ Samples.jstr "name" ++ ":" ++ Samples.jstr "Security" ++ ","
       ++ Samples.jstr "uuid" ++ ":" ++ Samples.jstr "u1" ++ "},{"
       ++ Samples.jstr "name" ++ ":" ++ Samples.jstr "Orphan" ++ "}]".

Definition orphan_team : pyval := PDict [("name", PStr "Orphan")].

(** The key script exits with 1 and an empty standard output; the
    login script exits with 0 and prints a success document. *)
Definition sample_execute (script_name : string) (args : list string) : App.process :=
  if String.eqb script_name "dt_generate_api_key.py"
  then App.Finished 1 EmptyString "Traceback"
  else App.Finished 0
         ("{" ++ Samples.jstr "success" ++ ":true,"
              ++ Samples.jstr "username" ++ ":" ++ Samples.jstr "bob" ++ "}")
         EmptyString.

(** The key script exits with 0 and prints [{"api_key": "K1"}]. *)
Definition key_execute (script_name : string) (args : list string) : App.process :=
  App.Finished 0 ("{" ++ Samples.jstr "api_key" ++ ":" ++ Samples.jstr "K1" ++ "}")
    EmptyString.

(** [{"username": "bob", "email": "bob@x.com"}] *)
Definition bob_json : string :=
  "{" ++ Samples.jstr "username" ++ ":" ++ Samples.jstr "bob" ++ ","
      ++ Samples.jstr "email" ++ ":" ++ Samples.jstr "bob@x.com" ++ "}".

Definition bob_record : pyval :=
  PDict [("username", PStr "bob"); ("email", PStr "bob@x.com")].

Definition anonymous : App.session :=
  {| App.logged_in := false; App.session_username := None |}.

End Scenarios.

(* ================================================================== *)
(** * Properties *)

Open Scope list_scope.

(** ** The client monad *)

Lemma bind_ok {A B} (m : M A) (k : A -> M B) c a c' :
  m c = (Ok a, c') -> bind m k c = k a c'.
Proof. intros H. unfold bind. now rewrite H. Qed.

Lemma bind_raise {A B} (m : M A) (k : A -> M B) c e c' :
  m c = (Raise e, c') -> bind m k c = (Raise e, c').
Proof. intros H. unfold bind. now rewrite H. Qed.

Lemma try_except_ok {A} (m : M A) catches handler c a c' :
  m c = (Ok a, c') -> try_except m catches handler c = (Ok a, c').
Proof. intros H. unfold try_except. now rewrite H. Qed.

Lemma try_except_caught {A} (m : M A) catches handler c e c' :
  m c = (Raise e, c') -> catches e = true ->
  try_except m catches handler c = handler e c'.
Proof. intros H Hc. unfold try_except. now rewrite H, Hc. Qed.

Lemma try_except_passed {A} (m : M A) catches handler c e c' :
  m c = (Raise e, c') -> catches e = false ->
  try_except m catches handler c = (Raise e, c').
Proof. intros H Hc. unfold try_except. now rewrite H, Hc. Qed.

Lemma make_request_sent remote failed q c :
  sent (snd (make_request remote failed q c)) = sent c ++ [q].
Proof.
  unfold make_request, bind, send; simpl.
  destruct (remote q) as [|r]; simpl; [reflexivity|].
  destruct (is_http_error r); reflexivity.
Qed.

Lemma make_request_fails remote failed q c :
  directory_fails remote q = true ->
  exists c', make_request remote failed q c = (Raise (DependencyTrackAPIError failed), c')
             /\ sent c' = sent c ++ [q] /\ printed c' = printed c
             /\ jwt_token c' = jwt_token c.
Proof.
  unfold directory_fails, make_request, bind, send, raise; simpl.
  destruct (remote q) as [|r]; intros H.
  - eexists; split; [reflexivity|]. simpl. auto.
  - rewrite H. eexists; split; [reflexivity|]. simpl. auto.
Qed.

(** ** Strings: trimming and lower-casing commute *)

Lemma lower_char_space c : PyStr.is_space (PyStr.lower_char c) = PyStr.is_space c.
Proof.
  destruct c as [[] [] [] [] [] [] [] []]; reflexivity.
Qed.

Lemma lower_lstrip s : PyStr.lower (PyStr.lstrip s) = PyStr.lstrip (PyStr.lower s).
Proof.
  induction s as [|c s IH]; simpl; [reflexivity|].
  rewrite lower_char_space.
  destruct (PyStr.is_space c); [exact IH | reflexivity].
Qed.

Lemma lower_rstrip s : PyStr.lower (PyStr.rstrip s) = PyStr.rstrip (PyStr.lower s).
Proof.
  induction s as [|c s IH]; simpl; [reflexivity|].
  rewrite <- IH, lower_char_space.
  destruct (PyStr.rstrip s); simpl.
  - destruct (PyStr.is_space c); reflexivity.
  - reflexivity.
Qed.

Lemma lower_strip s : PyStr.lower (PyStr.strip s) = PyStr.strip (PyStr.lower s).
Proof.
  unfold PyStr.strip. now rewrite lower_rstrip, lower_lstrip.
Qed.

(** ** Login: [_authenticate], [get_username_from_email],
       [authenticate_with_identifier] *)

Section LoginFacts.

Variable remote : request -> http_result.
Variable json_loads : string -> result pyval.
Variable timestamp_in_range : pyval -> bool.

Local Abbreviation _authenticate :=
  (UserLogin._authenticate remote json_loads timestamp_in_range).
Local Abbreviation get_username_from_email :=
  (UserLogin.get_username_from_email remote json_loads).
Local Abbreviation authenticate_with_identifier :=
  (UserLogin.authenticate_with_identifier remote json_loads timestamp_in_range).

Lemma authenticate_sent u p c :
  sent (snd (_authenticate u p c)) = sent c ++ [PostLogin u p].
Proof.
  unfold UserLogin._authenticate, bind, send, raise, lift, ret, store_token; simpl.
  destruct (remote (PostLogin u p)) as [|r]; simpl; [reflexivity|].
  destruct (status_code r =? 200); simpl; [|reflexivity].
  destruct (PyStr.startswith "eyJ" (PyStr.strip (text r))); simpl; [|reflexivity].
  destruct (decode_jwt_payload json_loads (PyStr.strip (text r))) as [v|e]; simpl;
    [|reflexivity].
  destruct (Py.truthy v); reflexivity.
Qed.

Lemma scan_emails_without_match address users :
  forallb (fun u => negb (email_is (PyStr.strip address) u)) users = true ->
  UserLogin.scan_emails (PyStr.strip (PyStr.lower address)) users = Ok PNone
  \/ exists e, UserLogin.scan_emails (PyStr.strip (PyStr.lower address)) users = Raise e.
Proof.
  induction users as [|u users IH]; simpl; intros H; [now left|].
  apply andb_true_iff in H as [Hu Hrest].
  unfold email_is in Hu.
  destruct (Py.get u "email" PNone) as [v|e]; simpl; [|right; now exists e].
  destruct v; simpl; try (right; now eexists).
  rewrite lower_strip in Hu.
  apply negb_true_iff in Hu. rewrite Hu. now apply IH.
Qed.

Lemma scan_emails_aborts address pre u post :
  lacks_email u = true ->
  forallb (fun v => negb (email_is (PyStr.strip address) v)) pre = true ->
  exists e,
    UserLogin.scan_emails (PyStr.strip (PyStr.lower address)) (pre ++ u :: post)
    = Raise e.
Proof.
  intros Hu.
  induction pre as [|v pre IH]; simpl; intros H.
  - unfold lacks_email in Hu.
    destruct (Py.get u "email" PNone) as [x|e]; [|discriminate].
    destruct x; try discriminate. simpl. now eexists.
  - apply andb_true_iff in H as [Hv Hrest].
    unfold email_is in Hv.
    destruct (Py.get v "email" PNone) as [x|e]; simpl; [|now exists e].
    destruct x; simpl; try now eexists.
    rewrite lower_strip in Hv.
    apply negb_true_iff in Hv. rewrite Hv. now apply IH.
Qed.

(** Whatever happens inside the lookup, it answers, and it has asked the
    directory once. *)
Lemma get_username_from_email_answers address c :
  exists v c',
    get_username_from_email address c = (Ok v, c')
    /\ sent c' = sent c ++ [GetManagedUsers]
    /\ (v = PNone
        \/ exists users,
             directory_listing remote json_loads GetManagedUsers = Some users
             /\ UserLogin.scan_emails (PyStr.strip (PyStr.lower address)) users = Ok v).
Proof.
  unfold UserLogin.get_username_from_email, UserLogin._make_admin_request,
    directory_listing, make_request, try_except, bind, send, raise, lift, ret,
    any_exception; simpl.
  destruct (remote GetManagedUsers) as [|r]; simpl.
  { do 2 eexists; split; [reflexivity|]. simpl. auto. }
  destruct (is_http_error r); simpl.
  { do 2 eexists; split; [reflexivity|]. simpl. auto. }
  destruct (json_loads (text r)) as [v|e]; simpl.
  2:{ do 2 eexists; split; [reflexivity|]. simpl. auto. }
  destruct (Py.iter v) as [users|e]; simpl.
  2:{ do 2 eexists; split; [reflexivity|]. simpl. auto. }
  destruct (UserLogin.scan_emails (PyStr.strip (PyStr.lower address)) users)
    as [w|e] eqn:Hscan; simpl.
  - do 2 eexists; split; [reflexivity|]. simpl. split; [reflexivity|].
    right. exists users. auto.
  - do 2 eexists; split; [reflexivity|]. simpl. auto.
Qed.

Lemma get_username_from_email_none address c :
  (forall users,
      directory_listing remote json_loads GetManagedUsers = Some users ->
      forallb (fun u => negb (email_is (PyStr.strip address) u)) users = true) ->
  exists c',
    get_username_from_email address c = (Ok PNone, c')
    /\ sent c' = sent c ++ [GetManagedUsers].
Proof.
  intros H.
  destruct (get_username_from_email_answers address c)
    as (v & c' & Hrun & Hsent & [-> | (users & Hlist & Hscan)]).
  - now exists c'.
  - destruct (scan_emails_without_match address users (H users Hlist))
      as [Hnone | [e He]]; rewrite Hscan in *.
    + injection Hnone as ->. now exists c'.
    + discriminate.
Qed.

Lemma direct_attempt_fails identifier password c m c1 :
  _authenticate (PStr identifier) password c
  = (Raise (DependencyTrackAPIError m), c1) ->
  try_except
    (_authenticate (PStr identifier) password ;;; ret (Some (PStr identifier)))
    is_api_error (fun _ => ret None) c
  = (Ok None, c1)
  /\ sent c1 = sent c ++ [PostLogin (PStr identifier) password].
Proof.
  intros H. split.
  - erewrite try_except_caught; [reflexivity | apply bind_raise; exact H | reflexivity].
  - pose proof (authenticate_sent (PStr identifier) password c) as Hs.
    now rewrite H in Hs.
Qed.

Lemma count_logins_app l l' :
  count_logins (l ++ l') = (count_logins l + count_logins l')%nat.
Proof. unfold count_logins. now rewrite filter_app, length_app. Qed.

(** C5.  When the identifier holds no [@] and the direct attempt is
    rejected, [authenticate_with_identifier] fails with the
    "Authentication failed for identifier" error, and the only request it
    has sent is the direct login: the directory is never asked. *)
Theorem bare_username_no_resolution identifier password c m c1 :
  PyStr.contains "@" identifier = false ->
  _authenticate (PStr identifier) password c
  = (Raise (DependencyTrackAPIError m), c1) ->
  authenticate_with_identifier identifier password c
  = (Raise (DependencyTrackAPIError (MsgAuthFailedForIdentifier identifier)), c1)
  /\ sent c1 = sent c ++ [PostLogin (PStr identifier) password]
  /\ filter is_directory_request (sent c1) = filter is_directory_request (sent c).
Proof.
  intros Hat H.
  destruct (direct_attempt_fails identifier password c m c1 H) as [Hdirect Hsent].
  split; [|split].
  - unfold UserLogin.authenticate_with_identifier.
    rewrite (bind_ok _ _ _ _ _ Hdirect), Hat. reflexivity.
  - exact Hsent.
  - rewrite Hsent, filter_app. simpl. now rewrite app_nil_r.
Qed.

(** C4 (amended).  For an ASCII identifier and listed e-mails that are
    ASCII text: when the identifier holds an [@], the direct attempt is
    rejected and no listed identity has an e-mail equal, up to case, to the
    identifier with its surrounding whitespace removed, the login fails with
    "No username found for email"; the requests sent are the direct login
    with the literal identifier and one directory listing, so exactly one
    raw login call is made. *)
Theorem unknown_email_identity_not_found identifier password c m c1 :
  ascii_text identifier = true ->
  PyStr.contains "@" identifier = true ->
  _authenticate (PStr identifier) password c
  = (Raise (DependencyTrackAPIError m), c1) ->
  (forall users,
      directory_listing remote json_loads GetManagedUsers = Some users ->
      forallb (ascii_field "email") users = true
      /\ forallb (fun u => negb (email_is (PyStr.strip identifier) u)) users = true) ->
  exists c2,
    authenticate_with_identifier identifier password c
    = (Raise (DependencyTrackAPIError (MsgNoUsernameForEmail identifier)), c2)
    /\ sent c2 = sent c ++ [PostLogin (PStr identifier) password; GetManagedUsers]
    /\ count_logins (sent c2) = S (count_logins (sent c)).
Proof.
  intros _ Hat H Hlisted.
  assert (Hnone : forall users,
             directory_listing remote json_loads GetManagedUsers = Some users ->
             forallb (fun u => negb (email_is (PyStr.strip identifier) u)) users = true)
    by (intros users Hl; exact (proj2 (Hlisted users Hl))).
  destruct (direct_attempt_fails identifier password c m c1 H) as [Hdirect Hsent].
  destruct (get_username_from_email_none identifier c1 Hnone) as (c2 & Hlookup & Hsent2).
  exists c2. split; [|split].
  - unfold UserLogin.authenticate_with_identifier.
    rewrite (bind_ok _ _ _ _ _ Hdirect), Hat.
    rewrite (bind_ok _ _ _ _ _ Hlookup). reflexivity.
  - rewrite Hsent2, Hsent, <- app_assoc. reflexivity.
  - rewrite Hsent2, Hsent, !count_logins_app. cbn. lia.
Qed.

(** C10 (amended).  For an ASCII address and listed e-mails that are
    ASCII text: when some record of the identity list has no [email]
    (absent or [None]) and no record before it has an e-mail equal, up to
    case, to the queried address with its surrounding whitespace removed,
    [get_username_from_email] returns [None] whatever follows that record,
    and it does not raise. *)
Theorem missing_email_aborts_lookup address c pre u post :
  ascii_text address = true ->
  forallb (ascii_field "email") pre = true ->
  directory_listing remote json_loads GetManagedUsers = Some (pre ++ u :: post) ->
  lacks_email u = true ->
  forallb (fun v => negb (email_is (PyStr.strip address) v)) pre = true ->
  exists c',
    get_username_from_email address c = (Ok PNone, c')
    /\ sent c' = sent c ++ [GetManagedUsers].
Proof.
  intros _ _ Hlist Hu Hpre.
  destruct (get_username_from_email_answers address c)
    as (v & c' & Hrun & Hsent & [-> | (users & Hlist' & Hscan)]).
  - now exists c'.
  - rewrite Hlist in Hlist'. injection Hlist' as <-.
    destruct (scan_emails_aborts address pre u post Hu Hpre) as [e He].
    rewrite He in Hscan. discriminate.
Qed.

End LoginFacts.

(** C5, at a concrete service: [alice] is rejected and the directory is
    not asked. *)
Lemma bare_username_no_resolution_witness :
  PyStr.contains "@" "alice" = false
  /\ UserLogin.authenticate_with_identifier
       Samples.bob_service JsonReader.json_loads Samples.any_timestamp
       "alice" "secret" new_client
     = (Raise (DependencyTrackAPIError (MsgAuthFailedForIdentifier "alice")),
        {| jwt_token := None; authorization := None;
           sent := [PostLogin (PStr "alice") "secret"]; printed := [] |}).
Proof.
  split; [reflexivity|].
  apply (bare_username_no_resolution
           Samples.bob_service JsonReader.json_loads Samples.any_timestamp
           "alice" "secret" new_client (MsgAuthStatus 401 "Unauthorized")).
  - reflexivity.
  - reflexivity.
Defined.

(** C4 (amended), at a concrete service: nobody has the e-mail
    [carol@x.com]. *)
Lemma unknown_email_identity_not_found_witness :
  ascii_text "carol@x.com" = true
  /\ exists c2,
    UserLogin.authenticate_with_identifier
      Samples.bob_service JsonReader.json_loads Samples.any_timestamp
      "carol@x.com" "secret" new_client
    = (Raise (DependencyTrackAPIError (MsgNoUsernameForEmail "carol@x.com")), c2)
    /\ sent c2 = sent new_client ++ [PostLogin (PStr "carol@x.com") "secret"; GetManagedUsers]
    /\ count_logins (sent c2) = S (count_logins (sent new_client)).
Proof.
  split; [reflexivity|].
  apply (unknown_email_identity_not_found
           Samples.bob_service JsonReader.json_loads Samples.any_timestamp
           "carol@x.com" "secret" new_client (MsgAuthStatus 401 "Unauthorized")
           {| jwt_token := None; authorization := None;
              sent := [PostLogin (PStr "carol@x.com") "secret"]; printed := [] |}).
  - reflexivity.
  - reflexivity.
  - reflexivity.
  - intros users H. vm_compute in H. injection H as <-. split; reflexivity.
Defined.

(** C4 as stated fails when the identifier carries surrounding whitespace:
    no listed e-mail equals [" bob@x.com"] up to case and the direct attempt
    is rejected, yet the lookup trims the identifier, finds [bob], makes a
    second raw login call and the login succeeds. *)
Lemma padded_email_login_counterexample :
  PyStr.contains "@" " bob@x.com" = true
  /\ fst (UserLogin._authenticate
            Samples.bob_service JsonReader.json_loads Samples.any_timestamp
            (PStr " bob@x.com") "secret" new_client)
     = Raise (DependencyTrackAPIError (MsgAuthStatus 401 "Unauthorized"))
  /\ directory_listing Samples.bob_service JsonReader.json_loads GetManagedUsers
     = Some [PDict [("username", PStr "bob"); ("email", PStr "bob@x.com")]]
  /\ email_is " bob@x.com"
       (PDict [("username", PStr "bob"); ("email", PStr "bob@x.com")]) = false
  /\ UserLogin.authenticate_with_identifier
       Samples.bob_service JsonReader.json_loads Samples.any_timestamp
       " bob@x.com" "secret" new_client
     = (Ok (PStr "bob"),
        {| jwt_token := Some "eyJ.e30.sig";
           authorization := Some "Bearer eyJ.e30.sig";
           sent := [PostLogin (PStr " bob@x.com") "secret"; GetManagedUsers;
                    PostLogin (PStr "bob") "secret"];
           printed := [] |})
  /\ count_logins [PostLogin (PStr " bob@x.com") "secret"; GetManagedUsers;
                   PostLogin (PStr "bob") "secret"] = 2%nat.
Proof.
  repeat split; vm_compute; reflexivity.
Qed.

(** C10 (amended), at a concrete directory: the record without e-mail
    comes first and hides the matching record behind it. *)
Lemma missing_email_aborts_lookup_witness :
  ascii_text "jane@x.com" = true
  /\ exists c',
    UserLogin.get_username_from_email
      (Samples.directory_only ("[" ++ Samples.ghost_json ++ "," ++ Samples.jdoe_json ++ "]")%string)
      JsonReader.json_loads "jane@x.com" new_client
    = (Ok PNone, c')
    /\ sent c' = sent new_client ++ [GetManagedUsers].
Proof.
  split; [reflexivity|].
  apply (missing_email_aborts_lookup
           (Samples.directory_only ("[" ++ Samples.ghost_json ++ "," ++ Samples.jdoe_json ++ "]")%string)
           JsonReader.json_loads "jane@x.com" new_client
           [] Samples.ghost [Samples.jdoe]).
  - reflexivity.
  - reflexivity.
  - reflexivity.
  - reflexivity.
  - reflexivity.
Defined.

(** C10 as stated fails when the queried address carries surrounding
    whitespace: the record without e-mail precedes every record whose
    e-mail equals ["jane@x.com "] up to case (there is none), yet the lookup
    trims the address and returns [jdoe]. *)
Lemma padded_address_lookup_counterexample :
  directory_listing
    (Samples.directory_only ("[" ++ Samples.jdoe_json ++ "," ++ Samples.ghost_json ++ "]")%string)
    JsonReader.json_loads GetManagedUsers
  = Some [Samples.jdoe; Samples.ghost]
  /\ lacks_email Samples.ghost = true
  /\ forallb (fun v => negb (email_is "jane@x.com " v)) [Samples.jdoe; Samples.ghost] = true
  /\ fst (UserLogin.get_username_from_email
            (Samples.directory_only ("[" ++ Samples.jdoe_json ++ "," ++ Samples.ghost_json ++ "]")%string)
            JsonReader.json_loads "jane@x.com " new_client)
     = Ok (PStr "jdoe").
Proof.
  repeat split; vm_compute; reflexivity.
Qed.

(** ** Key issuance: [find_team_by_name], [generate_api_key],
       [generate_api_key_for_team] *)

Section KeyFacts.

Variable remote : request -> http_result.
Variable json_loads : string -> result pyval.
Variable str_of : pyval -> string.
Variable now_timestamp : string.
Variable typed_answer : string.

Local Abbreviation find_team_by_name :=
  (GenerateApiKey.find_team_by_name remote json_loads).
Local Abbreviation generate_api_key :=
  (GenerateApiKey.generate_api_key remote json_loads str_of now_timestamp).
Local Abbreviation generate_api_key_for_team :=
  (GenerateApiKey.generate_api_key_for_team
     remote json_loads str_of now_timestamp typed_answer).

(** C3 (amended).  A failure of the Directory Client call (no response, or
    an error status) while the team list is fetched leaves
    [find_team_by_name] as the very error the call raised; the same failure
    while the identity list is fetched is caught by
    [get_username_from_email], which answers [None]. *)
Theorem directory_failure_handling team_name address c :
  (directory_fails remote GetTeams = true ->
   exists c',
     find_team_by_name team_name c
     = (Raise (DependencyTrackAPIError MsgApiRequestFailed), c')
     /\ GenerateApiKey._make_request remote GetTeams c
        = (Raise (DependencyTrackAPIError MsgApiRequestFailed), c'))
  /\ (directory_fails remote GetManagedUsers = true ->
      exists c',
        UserLogin.get_username_from_email remote json_loads address c = (Ok PNone, c')
        /\ UserLogin._make_admin_request remote GetManagedUsers c
           = (Raise (DependencyTrackAPIError MsgAdminRequestFailed), c')).
Proof.
  split; intros H.
  - destruct (make_request_fails remote MsgApiRequestFailed GetTeams c H)
      as (c' & Hreq & _).
    exists c'. split; [|exact Hreq].
    unfold GenerateApiKey.find_team_by_name, GenerateApiKey.get_teams.
    apply bind_raise. apply bind_raise. exact Hreq.
  - destruct (make_request_fails remote MsgAdminRequestFailed GetManagedUsers c H)
      as (c' & Hreq & _).
    exists c'. split; [|exact Hreq].
    unfold UserLogin.get_username_from_email.
    erewrite try_except_caught; [reflexivity | | reflexivity].
    apply bind_raise. exact Hreq.
Qed.


End KeyFacts.

(** C3 (amended), at concrete services: unreachable, and refusing with 403. *)
Lemma directory_failure_handling_witness :
  (exists c',
     GenerateApiKey.find_team_by_name Samples.forbidden JsonReader.json_loads
       "Security" new_client
     = (Raise (DependencyTrackAPIError MsgApiRequestFailed), c'))
  /\ (exists c',
        UserLogin.get_username_from_email Samples.unreachable JsonReader.json_loads
          "jane@x.com" new_client
        = (Ok PNone, c')).
Proof.
  split.
  - destruct (directory_failure_handling Samples.forbidden JsonReader.json_loads
                "Security" "jane@x.com" new_client) as [H _].
    destruct (H eq_refl) as (c' & Hc & _). exists c'. exact Hc.
  - destruct (directory_failure_handling Samples.unreachable JsonReader.json_loads
                "Security" "jane@x.com" new_client) as [_ H].
    destruct (H eq_refl) as (c' & Hc & _). exists c'. exact Hc.
Defined.

(** C3 as stated fails for the e-mail lookup: when the directory cannot be
    reached, or refuses with 403, the Directory Client call raises and
    [get_username_from_email] turns that into [None]. *)
Lemma swallowed_directory_failure_counterexample :
  fst (UserLogin._make_admin_request Samples.unreachable GetManagedUsers new_client)
  = Raise (DependencyTrackAPIError MsgAdminRequestFailed)
  /\ fst (UserLogin.get_username_from_email Samples.unreachable JsonReader.json_loads
            "jane@x.com" new_client)
     = Ok PNone
  /\ fst (UserLogin._make_admin_request Samples.forbidden GetManagedUsers new_client)
     = Raise (DependencyTrackAPIError MsgAdminRequestFailed)
  /\ fst (UserLogin.get_username_from_email Samples.forbidden JsonReader.json_loads
            "jane@x.com" new_client)
     = Ok PNone.
Proof.
  repeat split.
Qed.



Section IssueFacts.

Variable remote : request -> http_result.
Variable json_loads : string -> result pyval.
Variable str_of : pyval -> string.
Variable now_timestamp : string.
Variable typed_answer : string.

Local Abbreviation find_team_by_name :=
  (GenerateApiKey.find_team_by_name remote json_loads).
Local Abbreviation generate_api_key :=
  (GenerateApiKey.generate_api_key remote json_loads str_of now_timestamp).
Local Abbreviation generate_api_key_for_team :=
  (GenerateApiKey.generate_api_key_for_team
     remote json_loads str_of now_timestamp typed_answer).

Lemma well_formed_team_inv t :
  well_formed_team t = true ->
  exists d n u,
    t = PDict d
    /\ Py.lookup "name" d = Some (PStr n)
    /\ Py.lookup "uuid" d = Some u
    /\ (exists k, Py.get t "permissions" (PList []) = Ok (PList k))
    /\ Py.truthy t = true.
Proof.
  destruct t as [| | | | |l|d]; simpl; try discriminate.
  destruct (Py.lookup "name" d) as [[| | | |n| |]|] eqn:Hn; try discriminate.
  destruct (Py.lookup "uuid" d) as [u|] eqn:Hu; try discriminate.
  intros Hp. exists d, n, u. repeat split; trivial.
  - destruct (Py.lookup "permissions" d) as [[| | | | |k|]|]; try discriminate;
      eexists; reflexivity.
  - destruct d; [discriminate | reflexivity].
Qed.

(** On well-formed records the loop of [find_team_by_name] is a search for
    the first record with the requested name. *)
Lemma scan_teams_first team_name teams :
  forallb well_formed_team teams = true ->
  GenerateApiKey.scan_teams team_name teams
  = Ok (match find (team_named team_name) teams with
        | Some t => t
        | None => PNone
        end).
Proof.
  induction teams as [|t teams IH]; simpl; intros H; [reflexivity|].
  apply andb_true_iff in H as [Ht Hrest].
  destruct (well_formed_team_inv t Ht) as (d & n & u & -> & Hn & _).
  unfold team_named. simpl. rewrite Hn. simpl.
  destruct (String.eqb (PyStr.lower n) (PyStr.lower team_name)); [reflexivity|].
  now apply IH.
Qed.

Lemma find_team_by_name_first team_name teams c :
  directory_listing remote json_loads GetTeams = Some teams ->
  forallb well_formed_team teams = true ->
  exists c1,
    find_team_by_name team_name c
    = (Ok (match find (team_named team_name) teams with
           | Some t => t
           | None => PNone
           end), c1)
    /\ sent c1 = sent c ++ [GetTeams]
    /\ printed c1 = printed c.
Proof.
  unfold directory_listing, GenerateApiKey.find_team_by_name, GenerateApiKey.get_teams,
    GenerateApiKey._make_request, make_request, bind, send, raise, lift, ret; simpl.
  destruct (remote GetTeams) as [|r]; [discriminate|].
  destruct (is_http_error r); [discriminate|]. simpl.
  destruct (json_loads (text r)) as [v|e]; [|discriminate]. simpl.
  destruct (Py.iter v) as [l|e]; [|discriminate]. simpl.
  intros H Hwf. injection H as ->.
  rewrite (scan_teams_first team_name teams Hwf).
  eexists. split; [reflexivity|]. simpl. auto.
Qed.

Lemma generate_api_key_sent team_uuid c :
  sent (snd (generate_api_key team_uuid c)) = sent c ++ [PutTeamKey team_uuid]
  /\ printed (snd (generate_api_key team_uuid c)) = printed c.
Proof.
  unfold GenerateApiKey.generate_api_key, GenerateApiKey._make_request, make_request,
    bind, send, raise, lift, ret; simpl.
  destruct (remote (PutTeamKey team_uuid)) as [|r]; simpl; [auto|].
  destruct (is_http_error r); simpl; [auto|].
  destruct (String.eqb (text r) EmptyString); simpl; [auto|].
  destruct (json_loads (text r)); simpl; auto.
Qed.

(** C9 (amended).  For an ASCII team name, an ASCII answer of the
    operator and a list of well-formed team records whose names are ASCII
    text, [generate_api_key_for_team] looks for the first record in list order
    whose name equals the requested name up to case.  When there is one and
    the operation is confirmed, the only rotation request sent is the one
    for that record's [uuid]; when the operator declines, the function
    returns [False] and sends no rotation request; when there is none, it
    prints the "not found" error, returns [False] and sends no rotation
    request. *)
Theorem key_issued_for_first_matching_team team_name auto_confirm teams c :
  ascii_text team_name = true ->
  ascii_text typed_answer = true ->
  forallb ascii_team teams = true ->
  directory_listing remote json_loads GetTeams = Some teams ->
  forallb well_formed_team teams = true ->
  match find (team_named team_name) teams with
  | Some team =>
      if confirmed auto_confirm typed_answer then
        sent (snd (generate_api_key_for_team team_name auto_confirm c))
        = sent c ++ [GetTeams; PutTeamKey (uuid_of team)]
      else
        fst (generate_api_key_for_team team_name auto_confirm c) = Ok false
        /\ sent (snd (generate_api_key_for_team team_name auto_confirm c))
           = sent c ++ [GetTeams]
  | None =>
      fst (generate_api_key_for_team team_name auto_confirm c) = Ok false
      /\ sent (snd (generate_api_key_for_team team_name auto_confirm c))
         = sent c ++ [GetTeams]
      /\ printed (snd (generate_api_key_for_team team_name auto_confirm c))
         = printed c ++ [OutTeamNotFound team_name]
  end.
Proof.
  intros _ _ _ Hlist Hwf.
  destruct (find_team_by_name_first team_name teams c Hlist Hwf)
    as (c1 & Hfind & Hsent & Hprinted).
  unfold GenerateApiKey.generate_api_key_for_team.
  rewrite (bind_ok _ _ _ _ _ Hfind).
  destruct (find (team_named team_name) teams) as [team|] eqn:Hfound.
  - apply find_some in Hfound as [Hin _].
    assert (Ht : well_formed_team team = true)
      by (eapply forallb_forall in Hwf; eauto).
    destruct (well_formed_team_inv team Ht)
      as (d & n & u & -> & Hn & Hu & [k Hk] & Htruthy).
    rewrite Htruthy. cbn [negb].
    unfold uuid_of, confirmed.
    unfold bind at 1. unfold lift at 1. cbn [Py.getitem]. rewrite Hn.
    unfold bind at 1. unfold lift at 1. cbn [Py.getitem]. rewrite Hu.
    unfold bind at 1. unfold lift at 1. rewrite Hk.
    unfold bind at 1. unfold lift at 1. cbn [Py.len].
    destruct auto_confirm; cbn [negb orb].
    + unfold bind at 1. unfold ret at 1.
      unfold try_except, bind, lift, ret, print.
      destruct (generate_api_key_sent u c1) as [Hs Hp].
      destruct (generate_api_key u c1) as [[key|e] c2]; simpl in *.
      * rewrite Hs, Hsent, <- app_assoc. reflexivity.
      * destruct e; simpl; rewrite Hs, Hsent, <- app_assoc; reflexivity.
    + unfold bind at 1. unfold bind at 1. unfold lift at 1.
      unfold bind at 1. unfold lift at 1.
      unfold bind at 1. unfold print at 1.
      destruct (GenerateApiKey.declined (PyStr.lower (PyStr.strip typed_answer)));
        cbn [negb].
      * unfold bind, print, ret. simpl. auto.
      * unfold ret at 1.
        unfold try_except, bind, lift, ret, print.
        cbn [sent printed jwt_token authorization].
        match goal with
        | |- context [generate_api_key u ?c2] =>
            destruct (generate_api_key_sent u c2) as [Hs Hp];
            destruct (generate_api_key u c2) as [[key|e] c3]
        end; simpl in *.
        -- rewrite Hs, Hsent, <- app_assoc. reflexivity.
        -- destruct e; simpl; rewrite Hs, Hsent, <- app_assoc; reflexivity.
  - simpl. unfold bind, print, ret. simpl.
    rewrite Hsent, Hprinted. auto.
Qed.

End IssueFacts.

(** C9 (amended), at the scenario of the design document: the team list
    holds [Security] with uuid [u1], the request is for [security] and is
    auto-confirmed. *)
Lemma key_issued_for_first_matching_team_witness :
  ascii_text "security" = true
  /\ forallb ascii_team [Samples.security_team] = true
  /\ sent (snd (GenerateApiKey.generate_api_key_for_team
                  Samples.security_service JsonReader.json_loads Samples.str_of
                  "1700000000.5" EmptyString "security" true new_client))
     = sent new_client ++ [GetTeams; PutTeamKey (PStr "u1")].
Proof.
  split; [reflexivity|]. split; [reflexivity|].
  exact (key_issued_for_first_matching_team
           Samples.security_service JsonReader.json_loads Samples.str_of
           "1700000000.5" EmptyString "security" true [Samples.security_team] new_client
           eq_refl eq_refl eq_refl eq_refl eq_refl).
Defined.

(** The same scenario, run to its end: the key of the reply is printed. *)
Example issue_key_security_scenario :
  GenerateApiKey.generate_api_key_for_team
    Samples.security_service JsonReader.json_loads Samples.str_of
    "1700000000.5" EmptyString "security" true new_client
  = (Ok true,
     {| jwt_token := None; authorization := None;
        sent := [GetTeams; PutTeamKey (PStr "u1")];
        printed := [OutApiKey (PStr "K1")] |}).
Proof. reflexivity. Qed.

(** C9 as stated fails when the script is run without auto-confirm and the
    operator answers [no]: the team [Security] matches the request for
    [security], yet no rotation request is sent. *)
Lemma declined_rotation_counterexample :
  directory_listing Samples.security_service JsonReader.json_loads GetTeams
  = Some [Samples.security_team]
  /\ find (team_named "security") [Samples.security_team] = Some Samples.security_team
  /\ GenerateApiKey.generate_api_key_for_team
       Samples.security_service JsonReader.json_loads Samples.str_of
       "1700000000.5" "no" "security" false new_client
     = (Ok false,
        {| jwt_token := None; authorization := None;
           sent := [GetTeams];
           printed := [OutWarning; OutCancelled] |})
  /\ filter is_rotate_request [GetTeams] = [].
Proof.
  repeat split.
Qed.

(** ** Identity resolution: [get_user_by_username_or_email] *)

Section ResolverFacts.

Variable remote : request -> http_result.
Variable json_loads : string -> result pyval.

Lemma get_absent_or_str d key :
  absent_or_str (Py.lookup key d) = true ->
  exists v, Py.get (PDict d) key (PStr EmptyString) = Ok (PStr v).
Proof.
  simpl. destruct (Py.lookup key d) as [[| | | |v| |]|]; simpl; try discriminate;
    intros _; eexists; reflexivity.
Qed.

Lemma login_make_user_ok d : exists user, UserLogin.make_user (PDict d) = Ok user.
Proof. unfold UserLogin.make_user. simpl. eexists. reflexivity. Qed.

(** On well-formed records the loop of [dt_user_login.py] returns the
    first record that matches by username or by e-mail. *)
Lemma login_scan_users_first wanted users :
  forallb well_formed_identity users = true ->
  UserLogin.scan_users wanted users
  = match find (matches_identifier wanted) users with
    | Some u =>
        match UserLogin.make_user u with
        | Ok user => Ok (Some user)
        | Raise e => Raise e
        end
    | None => Ok None
    end.
Proof.
  induction users as [|u users IH]; simpl; intros H; [reflexivity|].
  apply andb_true_iff in H as [Hu Hrest].
  destruct u as [| | | | | |d]; try discriminate.
  unfold well_formed_identity in Hu.
  apply andb_true_iff in Hu as [Hu _]. apply andb_true_iff in Hu as [Hname Hmail].
  destruct (get_absent_or_str d "username" Hname) as (n & Hn).
  destruct (get_absent_or_str d "email" Hmail) as (e & He).
  unfold matches_identifier, field_is. rewrite Hn, He. simpl.
  destruct (String.eqb (PyStr.lower n) wanted); simpl.
  - destruct (UserLogin.make_user (PDict d)); reflexivity.
  - destruct (String.eqb (PyStr.lower e) wanted); simpl.
    + destruct (UserLogin.make_user (PDict d)); reflexivity.
    + now apply IH.
Qed.

Lemma team_names_ok ts :
  forallb is_dict ts = true -> exists ns, FetchTeams.team_names ts = Ok ns.
Proof.
  induction ts as [|t ts IH]; simpl; intros H; [now eexists|].
  apply andb_true_iff in H as [Ht Hrest].
  destruct t; try discriminate. simpl.
  destruct (IH Hrest) as [ns ->]. simpl. now eexists.
Qed.

Lemma teams_make_user_ok u :
  well_formed_identity u = true ->
  exists user n e,
    FetchTeams.make_user u = Ok user
    /\ FetchTeams.username user = PStr n
    /\ FetchTeams.email user = PStr e
    /\ Py.get u "username" (PStr EmptyString) = Ok (PStr n)
    /\ Py.get u "email" (PStr EmptyString) = Ok (PStr e).
Proof.
  destruct u as [| | | | | |d]; try discriminate.
  unfold well_formed_identity.
  intros H. apply andb_true_iff in H as [H Hteams].
  apply andb_true_iff in H as [Hname Hmail].
  destruct (get_absent_or_str d "username" Hname) as (n & Hn).
  destruct (get_absent_or_str d "email" Hmail) as (e & He).
  unfold FetchTeams.make_user. rewrite Hn, He.
  cbn [rbind Py.get].
  destruct (Py.lookup "teams" d) as [[| | | | |ts|]|]; try discriminate.
  - cbn [Py.iter rbind].
    destruct (team_names_ok ts Hteams) as [ns ->]. cbn [rbind].
    eexists _, n, e. repeat split; reflexivity.
  - cbn [Py.iter rbind FetchTeams.team_names].
    eexists _, n, e. repeat split; reflexivity.
Qed.

Lemma field_matches_str v wanted :
  FetchTeams.field_matches (PStr v) wanted
  = Ok (negb (String.eqb wanted EmptyString) && String.eqb (PyStr.lower v) wanted).
Proof.
  unfold FetchTeams.field_matches.
  destruct v as [|a v], wanted as [|b w]; reflexivity.
Qed.

(** On well-formed records the two loops of [dt_fetch_teams_for_user.py]
    return the first record that matches a non-empty identifier by username
    or by e-mail. *)
Lemma teams_scan_users_first wanted users :
  forallb well_formed_identity users = true ->
  exists all_users,
    FetchTeams.make_users users = Ok all_users
    /\ match find (fun u => negb (String.eqb wanted EmptyString)
                            && matches_identifier wanted u) users with
       | Some u =>
           exists user, FetchTeams.make_user u = Ok user
                        /\ FetchTeams.scan_users wanted all_users = Ok (Some user)
       | None => FetchTeams.scan_users wanted all_users = Ok None
       end.
Proof.
  induction users as [|u users IH]; simpl; intros H.
  - eexists. split; reflexivity.
  - apply andb_true_iff in H as [Hu Hrest].
    destruct (teams_make_user_ok u Hu) as (user & n & e & Hmk & Hn & He & Hgn & Hge).
    destruct (IH Hrest) as (rest & Hrest_ok & Hfind).
    rewrite Hmk, Hrest_ok. simpl.
    exists (user :: rest). split; [reflexivity|].
    unfold matches_identifier, field_is. rewrite Hgn, Hge.
    simpl. rewrite Hn, He, !field_matches_str. simpl.
    destruct (negb (String.eqb wanted EmptyString)); simpl.
    + destruct (String.eqb (PyStr.lower n) wanted); simpl; [now exists user|].
      destruct (String.eqb (PyStr.lower e) wanted); simpl; [now exists user|].
      exact Hfind.
    + exact Hfind.
Qed.

(** C1 (amended).  For an ASCII identifier and a list of well-formed
    identity records whose usernames and e-mails are ASCII text, both
    copies of [get_user_by_username_or_email] return the first identity in
    list order that matches the normalized identifier (lower-cased, then
    trimmed) by username or by e-mail, and [None] when no identity matches;
    the copy of [dt_fetch_teams_for_user.py] never matches an empty
    identifier. *)
Theorem first_matching_identity_returned identifier users c :
  ascii_text identifier = true ->
  forallb ascii_identity users = true ->
  directory_listing remote json_loads GetManagedUsers = Some users ->
  forallb well_formed_identity users = true ->
  match find (matches_identifier (PyStr.strip (PyStr.lower identifier))) users with
  | Some u =>
      exists user,
        UserLogin.make_user u = Ok user
        /\ fst (UserLogin.get_user_by_username_or_email remote json_loads identifier c)
           = Ok (Some user)
  | None =>
      fst (UserLogin.get_user_by_username_or_email remote json_loads identifier c)
      = Ok None
  end
  /\ match find (fun u =>
                   negb (String.eqb (PyStr.strip (PyStr.lower identifier)) EmptyString)
                   && matches_identifier (PyStr.strip (PyStr.lower identifier)) u)
                users with
     | Some u =>
         exists user,
           FetchTeams.make_user u = Ok user
           /\ fst (FetchTeams.get_user_by_username_or_email remote json_loads identifier c)
              = Ok (Some user)
     | None =>
         fst (FetchTeams.get_user_by_username_or_email remote json_loads identifier c)
         = Ok None
     end.
Proof.
  intros _ _ Hlist Hwf.
  unfold directory_listing in Hlist.
  unfold UserLogin.get_user_by_username_or_email, UserLogin.get_all_users,
    UserLogin._make_admin_request,
    FetchTeams.get_user_by_username_or_email, FetchTeams.get_all_users,
    FetchTeams._make_request, make_request, bind, send, raise, lift, ret.
  destruct (remote GetManagedUsers) as [|r]; [discriminate|].
  destruct (is_http_error r); [discriminate|].
  destruct (json_loads (text r)) as [v|e]; [|discriminate].
  destruct (Py.iter v) as [l|e]; [|discriminate].
  injection Hlist as ->. cbn [fst].
  split.
  - rewrite (login_scan_users_first _ users Hwf).
    destruct (find (matches_identifier (PyStr.strip (PyStr.lower identifier))) users)
      as [u|] eqn:Hfound; [|reflexivity].
    apply find_some in Hfound as [Hin _].
    assert (Hu : well_formed_identity u = true)
      by (eapply forallb_forall in Hwf; eauto).
    destruct u as [| | | | | |d]; try discriminate.
    destruct (login_make_user_ok d) as [user Hmk].
    exists user. rewrite Hmk. split; reflexivity.
  - destruct (teams_scan_users_first (PyStr.strip (PyStr.lower identifier)) users Hwf)
      as (all_users & -> & Hfind).
    cbn [fst].
    destruct (find _ users) as [u|].
    + destruct Hfind as (user & Hmk & ->). now exists user.
    + now rewrite Hfind.
Qed.

End ResolverFacts.

(** C1 (amended), at the scenario of the design document: the only
    identity is [jdoe] with e-mail [jane@x.com], and [JANE@X.COM] resolves
    to it in both scripts. *)
Lemma first_matching_identity_returned_witness :
  ascii_text "JANE@X.COM" = true
  /\ forallb ascii_identity [Samples.jdoe] = true
  /\ (exists user,
      UserLogin.make_user Samples.jdoe = Ok user
      /\ fst (UserLogin.get_user_by_username_or_email
                (Samples.directory_only ("[" ++ Samples.jdoe_json ++ "]")%string)
                JsonReader.json_loads "JANE@X.COM" new_client)
         = Ok (Some user))
  /\ (exists user,
         FetchTeams.make_user Samples.jdoe = Ok user
         /\ fst (FetchTeams.get_user_by_username_or_email
                   (Samples.directory_only ("[" ++ Samples.jdoe_json ++ "]")%string)
                   JsonReader.json_loads "JANE@X.COM" new_client)
            = Ok (Some user)).
Proof.
  split; [reflexivity|]. split; [reflexivity|].
  exact (first_matching_identity_returned
           (Samples.directory_only ("[" ++ Samples.jdoe_json ++ "]")%string)
           JsonReader.json_loads "JANE@X.COM" [Samples.jdoe] new_client
           eq_refl eq_refl eq_refl eq_refl).
Defined.

(** C1 as stated fails: [alice], whose e-mail is [bob], is listed before
    the user [bob]; resolving [bob] returns [alice] in both scripts, although
    an identity with the username [bob] is in the list. *)
Lemma earlier_email_match_counterexample :
  directory_listing (Samples.directory_only Samples.alice_bob_listing)
    JsonReader.json_loads GetManagedUsers
  = Some [Samples.alice; Samples.bob]
  /\ field_is "username" (PyStr.strip (PyStr.lower "bob")) Samples.bob = true
  /\ field_is "username" (PyStr.strip (PyStr.lower "bob")) Samples.alice = false
  /\ fst (UserLogin.get_user_by_username_or_email
            (Samples.directory_only Samples.alice_bob_listing)
            JsonReader.json_loads "bob" new_client)
     = Ok (Some {| UserLogin.username := PStr "alice";
                   UserLogin.email := PStr "bob";
                   UserLogin.fullname := PStr EmptyString;
                   UserLogin.last_login := PNone;
                   UserLogin.created := PNone;
                   UserLogin.suspended := PBool false;
                   UserLogin.force_password_change := PBool false;
                   UserLogin.non_expiry_password := PBool false |})
  /\ fst (FetchTeams.get_user_by_username_or_email
            (Samples.directory_only Samples.alice_bob_listing)
            JsonReader.json_loads "bob" new_client)
     = Ok (Some {| FetchTeams.username := PStr "alice";
                   FetchTeams.email := PStr "bob";
                   FetchTeams.fullname := PStr EmptyString;
                   FetchTeams.last_login := PNone;
                   FetchTeams.created := PNone;
                   FetchTeams.suspended := PBool false;
                   FetchTeams.force_password_change := PBool false;
                   FetchTeams.non_expiry_password := PBool false;
                   FetchTeams.teams := [];
                   FetchTeams.permissions := PList [] |}).
Proof.
  repeat split.
Qed.

(** ** The raw authentication call [_authenticate] *)

Section AuthenticateFacts.

Variable remote : request -> http_result.
Variable json_loads : string -> result pyval.
Variable timestamp_in_range : pyval -> bool.

Local Abbreviation _authenticate :=
  (UserLogin._authenticate remote json_loads timestamp_in_range).

(** Any reply other than a 200 whose trimmed body begins with [eyJ] is
    rejected with a [DependencyTrackAPIError], and no token is stored. *)
Lemma authenticate_rejects u p c r :
  remote (PostLogin u p) = Reply r ->
  (status_code r =? 200) && PyStr.startswith "eyJ" (PyStr.strip (text r)) = false ->
  (exists m, fst (_authenticate u p c) = Raise (DependencyTrackAPIError m))
  /\ jwt_token (snd (_authenticate u p c)) = jwt_token c.
Proof.
  intros Hr H.
  unfold UserLogin._authenticate, bind, send, raise; simpl. rewrite Hr.
  destruct (status_code r =? 200); simpl in *.
  - rewrite H. simpl. split; [now eexists | reflexivity].
  - split; [now eexists | reflexivity].
Qed.

(** A 200 whose trimmed body begins with [eyJ] stores that body as the
    token; the call then ends as the token-information log lines end: it
    returns, or it raises what they raise. *)
Lemma authenticate_accepts u p c r :
  remote (PostLogin u p) = Reply r ->
  status_code r = 200 ->
  PyStr.startswith "eyJ" (PyStr.strip (text r)) = true ->
  jwt_token (snd (_authenticate u p c)) = Some (PyStr.strip (text r))
  /\ fst (_authenticate u p c)
     = match decode_jwt_payload json_loads (PyStr.strip (text r)) with
       | Ok payload =>
           if Py.truthy payload
           then UserLogin.log_token_information timestamp_in_range payload
           else Ok tt
       | Raise e => Raise e
       end.
Proof.
  intros Hr Hs Hp.
  unfold UserLogin._authenticate, bind, send, raise, lift, ret, store_token; simpl.
  rewrite Hr, Hs, Hp. simpl.
  destruct (decode_jwt_payload json_loads (PyStr.strip (text r))) as [v|e]; simpl;
    [|split; reflexivity].
  destruct (Py.truthy v); split; reflexivity.
Qed.

End AuthenticateFacts.

(** C6, at the failing input: the reply is a 200 whose body begins with
    [eyJ]; the body is stored as the token, and the call then raises a
    [TypeError] from the "Issued at" log line, because the decoded payload
    holds a string under [iat]. *)
Theorem authenticate_raises_after_storing_token :
  UserLogin._authenticate Samples.odd_token_service JsonReader.json_loads
    Samples.any_timestamp (PStr "alice") "secret" new_client
  = (Raise TypeError,
     {| jwt_token := Some Samples.odd_token;
        authorization := Some ("Bearer " ++ Samples.odd_token)%string;
        sent := [PostLogin (PStr "alice") "secret"];
        printed := [] |})
  /\ decode_jwt_payload JsonReader.json_loads Samples.odd_token
     = Ok (PDict [("sub", PStr "alice"); ("iat", PStr "soon")]).
Proof.
  split; vm_compute; reflexivity.
Qed.

(** ** Token inspection: [decode_jwt_payload] *)

Lemma in_all_bytes a : In a ByteChecks.all_bytes.
Proof.
  unfold ByteChecks.all_bytes.
  rewrite <- (ascii_nat_embedding a).
  apply in_map, in_seq.
  pose proof (nat_ascii_bounded a). lia.
Qed.

Lemma for_all_bytes (P : ascii -> bool) :
  forallb P ByteChecks.all_bytes = true -> forall a, P a = true.
Proof.
  intros H a. rewrite forallb_forall in H. apply H, in_all_bytes.
Qed.

Lemma for_all_byte_pairs (P : ascii -> ascii -> bool) :
  forallb (fun a => forallb (P a) ByteChecks.all_bytes) ByteChecks.all_bytes = true ->
  forall a b, P a b = true.
Proof.
  intros H a b.
  apply (for_all_bytes (P a)).
  exact (for_all_bytes (fun a => forallb (P a) ByteChecks.all_bytes) H a).
Qed.

Lemma check_first a : ByteChecks.first a = true.
Proof. apply for_all_bytes. vm_compute. reflexivity. Qed.

Lemma check_second a b : ByteChecks.second a b = true.
Proof. apply for_all_byte_pairs. vm_compute. reflexivity. Qed.

Lemma check_third b c : ByteChecks.third b c = true.
Proof. apply for_all_byte_pairs. vm_compute. reflexivity. Qed.

Lemma check_fourth c : ByteChecks.fourth c = true.
Proof. apply for_all_bytes. vm_compute. reflexivity. Qed.

Lemma check_last_of_one a : ByteChecks.last_of_one a = true.
Proof. apply for_all_bytes. vm_compute. reflexivity. Qed.

Lemma check_last_of_two b : ByteChecks.last_of_two b = true.
Proof. apply for_all_bytes. vm_compute. reflexivity. Qed.

Lemma good_digit v :
  ByteChecks.good v = true ->
  Ascii.eqb (Base64.urlsafe_char (Base64.digit v)) "=" = false
  /\ Base64.value (Base64.urlsafe_char (Base64.digit v)) = Some v
  /\ Ascii.eqb (Base64.digit v) "." = false
  /\ Base64.is_ascii (Base64.digit v) = true.
Proof.
  unfold ByteChecks.good. intros H.
  apply andb_true_iff in H as [H Hascii].
  apply andb_true_iff in H as [H Hdot].
  apply andb_true_iff in H as [Hpad Hvalue].
  apply negb_true_iff in Hpad, Hdot.
  destruct (Base64.value (Base64.urlsafe_char (Base64.digit v))) as [w|];
    [|discriminate].
  apply N.eqb_eq in Hvalue. subst w. auto.
Qed.

(** One step of the decoding loop on the digit of [v]. *)
Lemma a2b_base64_digit v s quad_pos leftchar pads :
  ByteChecks.good v = true ->
  Base64.a2b_base64 (String (Base64.urlsafe_char (Base64.digit v)) s)
    quad_pos leftchar pads
  = match quad_pos with
    | 0%nat => Base64.a2b_base64 s 1%nat v 0%nat
    | 1%nat =>
        Base64.emit (Base64.byte (N.lor (N.shiftl leftchar 2) (N.shiftr v 4)))
          (Base64.a2b_base64 s 2%nat (N.land v 15) 0%nat)
    | 2%nat =>
        Base64.emit (Base64.byte (N.lor (N.shiftl leftchar 4) (N.shiftr v 2)))
          (Base64.a2b_base64 s 3%nat (N.land v 3) 0%nat)
    | _ =>
        Base64.emit (Base64.byte (N.lor (N.shiftl leftchar 6) v))
          (Base64.a2b_base64 s 0%nat 0%N 0%nat)
    end.
Proof.
  intros H. destruct (good_digit v H) as (Hpad & Hvalue & _).
  cbn [Base64.a2b_base64]. rewrite Hpad, Hvalue. reflexivity.
Qed.

(** Three bytes, encoded as four digits, are read back by the loop. *)
Lemma a2b_base64_group a b c s leftchar :
  Base64.a2b_base64
    (Base64.translate
       (String (Base64.digit (N.shiftr (N_of_ascii a) 2))
          (String (Base64.digit
                     (N.lor (N.shiftl (N.land (N_of_ascii a) 3) 4)
                        (N.shiftr (N_of_ascii b) 4)))
             (String (Base64.digit
                        (N.lor (N.shiftl (N.land (N_of_ascii b) 15) 2)
                           (N.shiftr (N_of_ascii c) 6)))
                (String (Base64.digit (N.land (N_of_ascii c) 63)) s)))))
    0 leftchar 0
  = Base64.emit a
      (Base64.emit b
         (Base64.emit c (Base64.a2b_base64 (Base64.translate s) 0 0 0))).
Proof.
  pose proof (check_first a) as H1.
  pose proof (check_second a b) as H2.
  pose proof (check_third b c) as H3.
  pose proof (check_fourth c) as H4.
  unfold ByteChecks.first in H1.
  unfold ByteChecks.second in H2. cbv zeta in H2.
  unfold ByteChecks.third in H3. cbv zeta in H3.
  unfold ByteChecks.fourth in H4. cbv zeta in H4.
  apply andb_true_iff in H2 as [H2 H2l]. apply andb_true_iff in H2 as [H2g H2b].
  apply andb_true_iff in H3 as [H3 H3l]. apply andb_true_iff in H3 as [H3g H3b].
  apply andb_true_iff in H4 as [H4g H4b].
  apply Ascii.eqb_eq in H2b, H3b, H4b. apply N.eqb_eq in H2l, H3l.
  cbn [Base64.translate].
  rewrite (a2b_base64_digit _ _ _ _ _ H1).
  rewrite (a2b_base64_digit _ _ _ _ _ H2g).
  rewrite (a2b_base64_digit _ _ _ _ _ H3g).
  rewrite (a2b_base64_digit _ _ _ _ _ H4g).
  rewrite H2l, H3l, H2b, H3b, H4b. reflexivity.
Qed.

(** Induction on a string three characters at a time. *)
Lemma string_by_threes (P : string -> Prop) :
  P EmptyString ->
  (forall a, P (String a EmptyString)) ->
  (forall a b, P (String a (String b EmptyString))) ->
  (forall a b c s, P s -> P (String a (String b (String c s)))) ->
  forall s, P s.
Proof.
  intros H0 H1 H2 H3.
  assert (H : forall s, P s /\ (forall a, P (String a s))
                        /\ (forall a b, P (String a (String b s)))).
  { induction s as [|c s (IH0 & IH1 & IH2)].
    - auto.
    - repeat split; auto. }
  intros s. apply H.
Qed.

Lemma translate_app s t :
  Base64.translate (s ++ t) = (Base64.translate s ++ Base64.translate t)%string.
Proof. induction s as [|c s IH]; simpl; [reflexivity | now rewrite IH]. Qed.

Lemma length_mod4_group a b c d t :
  (String.length (String a (String b (String c (String d t)))) mod 4
   = String.length t mod 4)%nat.
Proof.
  change (String.length (String a (String b (String c (String d t)))))
    with (4 + String.length t)%nat.
  replace (4 + String.length t)%nat with (String.length t + 1 * 4)%nat by lia.
  apply Nat.Div0.mod_add.
Qed.

(** The decoding loop reads back what the encoder wrote, once the
    segment is padded the way [decode_jwt_payload] pads it: with four pad
    characters when its length is a multiple of four, with two or one
    otherwise. *)
Lemma a2b_base64_encoded s :
  forall leftchar,
    Base64.a2b_base64
      (Base64.translate
         (Base64.urlsafe_b64encode_nopad s
          ++ PyStr.repeat "="
               (4 - String.length (Base64.urlsafe_b64encode_nopad s) mod 4)%nat))
      0 leftchar 0
    = Ok s.
Proof.
  induction s as [|a|a b|a b c s IH] using string_by_threes; intros leftchar.
  - reflexivity.
  - pose proof (check_first a) as H1. pose proof (check_last_of_one a) as H2.
    unfold ByteChecks.first in H1.
    unfold ByteChecks.last_of_one in H2. cbv zeta in H2.
    apply andb_true_iff in H2 as [H2g H2b]. apply Ascii.eqb_eq in H2b.
    cbn [Base64.urlsafe_b64encode_nopad String.length Nat.modulo Nat.divmod
           fst snd Nat.sub PyStr.repeat String.append Base64.translate].
    rewrite (a2b_base64_digit _ _ _ _ _ H1).
    rewrite (a2b_base64_digit _ _ _ _ _ H2g).
    rewrite H2b. reflexivity.
  - pose proof (check_first a) as H1. pose proof (check_second a b) as H2.
    pose proof (check_last_of_two b) as H3.
    unfold ByteChecks.first in H1.
    unfold ByteChecks.second in H2. cbv zeta in H2.
    unfold ByteChecks.last_of_two in H3. cbv zeta in H3.
    apply andb_true_iff in H2 as [H2 H2l]. apply andb_true_iff in H2 as [H2g H2b].
    apply andb_true_iff in H3 as [H3g H3b].
    apply Ascii.eqb_eq in H2b, H3b. apply N.eqb_eq in H2l.
    cbn [Base64.urlsafe_b64encode_nopad String.length Nat.modulo Nat.divmod
           fst snd Nat.sub PyStr.repeat String.append Base64.translate].
    rewrite (a2b_base64_digit _ _ _ _ _ H1).
    rewrite (a2b_base64_digit _ _ _ _ _ H2g).
    rewrite (a2b_base64_digit _ _ _ _ _ H3g).
    rewrite H2l, H2b, H3b. reflexivity.
  - cbn [Base64.urlsafe_b64encode_nopad].
    rewrite length_mod4_group.
    cbn [String.append].
    rewrite a2b_base64_group, IH. reflexivity.
Qed.

(** The digits of an encoded segment are ASCII and none is a dot. *)
Lemma encoded_digits s :
  Base64.all_ascii (Base64.urlsafe_b64encode_nopad s) = true
  /\ PyStr.contains "." (Base64.urlsafe_b64encode_nopad s) = false.
Proof.
  induction s as [|a|a b|a b c s [IHa IHd]] using string_by_threes.
  - split; reflexivity.
  - pose proof (check_first a) as H1. pose proof (check_last_of_one a) as H2.
    unfold ByteChecks.first in H1.
    unfold ByteChecks.last_of_one in H2. cbv zeta in H2.
    apply andb_true_iff in H2 as [H2 _].
    destruct (good_digit _ H1) as (_ & _ & D1 & A1).
    destruct (good_digit _ H2) as (_ & _ & D2 & A2).
    cbn [Base64.urlsafe_b64encode_nopad Base64.all_ascii PyStr.contains].
    rewrite A1, A2, D1, D2. split; reflexivity.
  - pose proof (check_first a) as H1. pose proof (check_second a b) as H2.
    pose proof (check_last_of_two b) as H3.
    unfold ByteChecks.first in H1.
    unfold ByteChecks.second in H2. cbv zeta in H2.
    unfold ByteChecks.last_of_two in H3. cbv zeta in H3.
    apply andb_true_iff in H2 as [H2 _]. apply andb_true_iff in H2 as [H2 _].
    apply andb_true_iff in H3 as [H3 _].
    destruct (good_digit _ H1) as (_ & _ & D1 & A1).
    destruct (good_digit _ H2) as (_ & _ & D2 & A2).
    destruct (good_digit _ H3) as (_ & _ & D3 & A3).
    cbn [Base64.urlsafe_b64encode_nopad Base64.all_ascii PyStr.contains].
    rewrite A1, A2, A3, D1, D2, D3. split; reflexivity.
  - pose proof (check_first a) as H1. pose proof (check_second a b) as H2.
    pose proof (check_third b c) as H3. pose proof (check_fourth c) as H4.
    unfold ByteChecks.first in H1.
    unfold ByteChecks.second in H2. cbv zeta in H2.
    unfold ByteChecks.third in H3. cbv zeta in H3.
    unfold ByteChecks.fourth in H4. cbv zeta in H4.
    apply andb_true_iff in H2 as [H2 _]. apply andb_true_iff in H2 as [H2 _].
    apply andb_true_iff in H3 as [H3 _]. apply andb_true_iff in H3 as [H3 _].
    apply andb_true_iff in H4 as [H4 _].
    destruct (good_digit _ H1) as (_ & _ & D1 & A1).
    destruct (good_digit _ H2) as (_ & _ & D2 & A2).
    destruct (good_digit _ H3) as (_ & _ & D3 & A3).
    destruct (good_digit _ H4) as (_ & _ & D4 & A4).
    cbn [Base64.urlsafe_b64encode_nopad Base64.all_ascii PyStr.contains].
    rewrite A1, A2, A3, A4, D1, D2, D3, D4, IHa, IHd. split; reflexivity.
Qed.

Lemma all_ascii_app s t :
  Base64.all_ascii (s ++ t) = Base64.all_ascii s && Base64.all_ascii t.
Proof.
  induction s as [|c s IH]; simpl; [reflexivity|].
  now rewrite IH, andb_assoc.
Qed.

Lemma all_ascii_pads n : Base64.all_ascii (PyStr.repeat "=" n) = true.
Proof. induction n as [|n IH]; simpl; [reflexivity | exact IH]. Qed.

(** [urlsafe_b64decode] undoes the unpadded encoder on a segment padded
    by the decoder's rule. *)
Lemma urlsafe_b64decode_encoded s :
  Base64.urlsafe_b64decode
    (Base64.urlsafe_b64encode_nopad s
     ++ PyStr.repeat "="
          (4 - String.length (Base64.urlsafe_b64encode_nopad s) mod 4)%nat)
  = Ok s.
Proof.
  unfold Base64.urlsafe_b64decode.
  rewrite all_ascii_app, all_ascii_pads, (proj1 (encoded_digits s)). simpl.
  apply a2b_base64_encoded.
Qed.

(** ** Splitting on the separator *)

Lemma split_length sep s :
  List.length (PyStr.split sep s) = S (PyStr.count sep s).
Proof.
  induction s as [|a s IH]; simpl; [reflexivity|].
  destruct (Ascii.eqb a sep); simpl; [now rewrite IH|].
  destruct (PyStr.split sep s) as [|h t]; [discriminate | exact IH].
Qed.

Lemma split_without_separator sep s :
  PyStr.contains sep s = false -> PyStr.split sep s = [s].
Proof.
  induction s as [|a s IH]; simpl; [reflexivity|].
  destruct (Ascii.eqb a sep); simpl; [discriminate|].
  intros H. now rewrite (IH H).
Qed.

Lemma split_at_separator sep s t :
  PyStr.contains sep s = false ->
  PyStr.split sep (s ++ String sep t) = s :: PyStr.split sep t.
Proof.
  induction s as [|a s IH]; simpl.
  - now rewrite Ascii.eqb_refl.
  - destruct (Ascii.eqb a sep); simpl; [discriminate|].
    intros H. now rewrite (IH H).
Qed.

Section TokenFacts.

Variable json_loads : string -> result pyval.

(** C7 (amended).  [decode_jwt_payload] never raises.  It returns [None]
    when the string does not hold exactly two dots, and, on three
    segments, when base64 decoding of the padded second segment fails,
    when the bytes are not UTF-8 or when [json.loads] rejects them;
    otherwise it returns the value [json.loads] gives, of whatever type. *)
Theorem decode_jwt_payload_total token :
  (exists v, decode_jwt_payload json_loads token = Ok v)
  /\ (PyStr.count "." token <> 2%nat ->
      decode_jwt_payload json_loads token = Ok PNone)
  /\ (forall header payload signature,
         PyStr.split "." token = [header; payload; signature] ->
         decode_jwt_payload json_loads token
         = Ok match
                Base64.urlsafe_b64decode
                  (payload ++ PyStr.repeat "=" (4 - String.length payload mod 4)%nat)
              with
              | Ok decoded_bytes =>
                  if Utf8.valid decoded_bytes then
                    match json_loads decoded_bytes with
                    | Ok payload_data => payload_data
                    | Raise _ => PNone
                    end
                  else PNone
              | Raise _ => PNone
              end).
Proof.
  unfold decode_jwt_payload, try_except_Exception.
  repeat split.
  - destruct (negb (List.length (PyStr.split "." token) =? 3)%nat);
      [now eexists|].
    match goal with
    | |- exists v, match ?body with Ok a => Ok a | Raise e => Ok PNone end = Ok v =>
        destruct body; now eexists
    end.
  - intros H. rewrite split_length.
    destruct (Nat.eqb_spec (S (PyStr.count "." token)) 3) as [E|_]; simpl;
      [|reflexivity].
    exfalso. apply H. lia.
  - intros header payload signature ->.
    cbn [List.length Nat.eqb negb nth].
    destruct (Base64.urlsafe_b64decode _) as [decoded_bytes|e];
      cbn [rbind]; [|reflexivity].
    unfold Utf8.decode.
    destruct (Utf8.valid decoded_bytes); cbn [rbind]; [|reflexivity].
    destruct (json_loads decoded_bytes); reflexivity.
Qed.

(** C8.  A token of three segments whose second segment is the unpadded
    base64url encoding of a serialization of [payload] decodes to
    [payload], whatever the length of that segment. *)
Theorem decode_jwt_payload_roundtrip header signature serialized payload :
  PyStr.contains "." header = false ->
  PyStr.contains "." signature = false ->
  Utf8.valid serialized = true ->
  json_loads serialized = Ok payload ->
  decode_jwt_payload json_loads
    (header ++ "." ++ Base64.urlsafe_b64encode_nopad serialized ++ "." ++ signature)%string
  = Ok payload.
Proof.
  intros Hheader Hsignature Hutf8 Hjson.
  unfold decode_jwt_payload.
  change (header ++ "." ++ Base64.urlsafe_b64encode_nopad serialized ++ "." ++ signature)%string
    with (header ++ String "." (Base64.urlsafe_b64encode_nopad serialized
                                ++ String "." signature))%string.
  rewrite (split_at_separator _ _ _ Hheader).
  rewrite (split_at_separator _ _ _ (proj2 (encoded_digits serialized))).
  rewrite (split_without_separator _ _ Hsignature).
  cbn [List.length Nat.eqb negb nth].
  rewrite urlsafe_b64decode_encoded. cbn [rbind].
  unfold Utf8.decode. rewrite Hutf8. cbn [rbind].
  rewrite Hjson. reflexivity.
Qed.

End TokenFacts.

(** C7 (amended), at a string of two segments. *)
Lemma decode_jwt_payload_total_witness :
  PyStr.count "." "eyJhbGciOiJIUzI1NiJ9.e30" <> 2%nat
  /\ decode_jwt_payload JsonReader.json_loads "eyJhbGciOiJIUzI1NiJ9.e30" = Ok PNone.
Proof.
  split; [discriminate|].
  apply (proj1 (proj2 (decode_jwt_payload_total JsonReader.json_loads
                         "eyJhbGciOiJIUzI1NiJ9.e30"))).
  discriminate.
Defined.

(** C7 as stated fails twice: the second segment [eyJh!IjoxMn0] holds a
    character outside the base64url alphabet, which the decoder skips, and
    the map [{"a": 12}] is returned; the second segment [MQ] decodes to the
    JSON text [1], which is not a key-value map, and the number is
    returned. *)
Lemma lenient_decoding_counterexample :
  Base64.value (Base64.urlsafe_char "!") = None
  /\ decode_jwt_payload JsonReader.json_loads "x.eyJh!IjoxMn0.y"
     = Ok (PDict [("a", PInt 12)])
  /\ decode_jwt_payload JsonReader.json_loads "x.MQ.y" = Ok (PInt 1).
Proof.
  repeat split.
Qed.

(** C8, at a payload with [sub], [iat] and [exp], and at a payload whose
    segment length is a multiple of four (four pad characters are then
    appended). *)
Lemma decode_jwt_payload_roundtrip_witness :
  decode_jwt_payload JsonReader.json_loads
    ("eyJhbGciOiJIUzI1NiJ9" ++ "."
     ++ Base64.urlsafe_b64encode_nopad Samples.claims_json ++ "." ++ "sig")%string
  = Ok Samples.claims
  /\ (String.length (Base64.urlsafe_b64encode_nopad Samples.short_claims_json) mod 4
      = 0)%nat
  /\ decode_jwt_payload JsonReader.json_loads
       ("eyJhbGciOiJIUzI1NiJ9" ++ "."
        ++ Base64.urlsafe_b64encode_nopad Samples.short_claims_json ++ "." ++ "sig")%string
     = Ok (PDict [("sub", PStr "al")]).
Proof.
  split; [|split].
  - apply (decode_jwt_payload_roundtrip JsonReader.json_loads
             "eyJhbGciOiJIUzI1NiJ9" "sig" Samples.claims_json Samples.claims);
      reflexivity.
  - reflexivity.
  - apply (decode_jwt_payload_roundtrip JsonReader.json_loads
             "eyJhbGciOiJIUzI1NiJ9" "sig" Samples.short_claims_json
             (PDict [("sub", PStr "al")]));
      reflexivity.
Defined.

(* ================================================================== *)
(** * Further properties of the scripts *)

(** ** [_authenticate]: what a failure and a success leave behind *)

Lemma decode_jwt_payload_returns json_loads token :
  exists v, decode_jwt_payload json_loads token = Ok v.
Proof.
  unfold decode_jwt_payload, try_except_Exception.
  match goal with
  | |- exists v, match ?body with Ok a => Ok a | Raise e => Ok PNone end = Ok v =>
      destruct body; now eexists
  end.
Qed.

Lemma get_raises v k default e :
  Py.get v k default = Raise e -> e = AttributeError.
Proof. destruct v; simpl; intros H; try discriminate; now injection H. Qed.

Lemma fromtimestamp_raises timestamp_in_range v e :
  UserLogin.fromtimestamp timestamp_in_range v = Raise e -> is_api_error e = false.
Proof.
  unfold UserLogin.fromtimestamp.
  destruct v; try destruct (timestamp_in_range _); intros H;
    try discriminate; injection H as <-; reflexivity.
Qed.

Lemma log_token_information_raises timestamp_in_range payload e :
  UserLogin.log_token_information timestamp_in_range payload = Raise e ->
  is_api_error e = false.
Proof.
  unfold UserLogin.log_token_information.
  destruct (Py.get payload "sub" (PStr "N/A")) as [x|e1] eqn:H1; simpl;
    [|intros H; injection H as <-; now rewrite (get_raises _ _ _ _ H1)].
  destruct (Py.get payload "iat" (PInt 0)) as [iat|e2] eqn:H2; simpl;
    [|intros H; injection H as <-; now rewrite (get_raises _ _ _ _ H2)].
  destruct (UserLogin.fromtimestamp timestamp_in_range iat) as [[]|e3] eqn:H3; simpl;
    [|intros H; injection H as <-; exact (fromtimestamp_raises _ _ _ H3)].
  destruct (Py.get payload "exp" (PInt 0)) as [exp|e4] eqn:H4; simpl;
    [|intros H; injection H as <-; now rewrite (get_raises _ _ _ _ H4)].
  destruct (UserLogin.fromtimestamp timestamp_in_range exp) as [[]|e5] eqn:H5; simpl;
    [discriminate|intros H; injection H as <-; exact (fromtimestamp_raises _ _ _ H5)].
Qed.

Section AuthenticateOutcomes.

Variable remote : request -> http_result.
Variable json_loads : string -> result pyval.
Variable timestamp_in_range : pyval -> bool.

Local Abbreviation _authenticate :=
  (UserLogin._authenticate remote json_loads timestamp_in_range).

(** X1.  A login that is rejected with a [DependencyTrackAPIError] leaves
    the client's token and its [Authorization] header as they were. *)
Theorem rejected_login_keeps_token u p c m :
  fst (_authenticate u p c) = Raise (DependencyTrackAPIError m) ->
  jwt_token (snd (_authenticate u p c)) = jwt_token c
  /\ authorization (snd (_authenticate u p c)) = authorization c.
Proof.
  unfold UserLogin._authenticate, bind, send, raise, lift, ret, store_token; simpl.
  destruct (remote (PostLogin u p)) as [|r]; simpl; [auto|].
  destruct (status_code r =? 200); simpl; [|auto].
  destruct (PyStr.startswith "eyJ" (PyStr.strip (text r))); simpl; [|auto].
  destruct (decode_jwt_payload_returns json_loads (PyStr.strip (text r))) as [v ->].
  simpl. destruct (Py.truthy v); simpl; [|discriminate].
  destruct (UserLogin.log_token_information timestamp_in_range v) as [[]|e] eqn:Hlog;
    simpl; [discriminate|].
  intros H. injection H as ->.
  apply log_token_information_raises in Hlog. discriminate.
Qed.

(** X2.  At a login endpoint whose reply is ASCII text, a login that
    returns has received a 200 whose trimmed body begins with [eyJ]; that
    body is the stored token and the session's [Authorization] header is
    [Bearer] followed by it. *)
Theorem accepted_login_stores_token u p c :
  (forall r, remote (PostLogin u p) = Reply r -> ascii_text (text r) = true) ->
  fst (_authenticate u p c) = Ok tt ->
  exists r,
    remote (PostLogin u p) = Reply r
    /\ status_code r = 200
    /\ PyStr.startswith "eyJ" (PyStr.strip (text r)) = true
    /\ jwt_token (snd (_authenticate u p c)) = Some (PyStr.strip (text r))
    /\ authorization (snd (_authenticate u p c))
       = Some ("Bearer " ++ PyStr.strip (text r))%string.
Proof.
  intros _.
  unfold UserLogin._authenticate, bind, send, raise, lift, ret, store_token; simpl.
  destruct (remote (PostLogin u p)) as [|r]; simpl; [discriminate|].
  destruct (Z.eqb_spec (status_code r) 200) as [Hs|_]; simpl; [|discriminate].
  destruct (PyStr.startswith "eyJ" (PyStr.strip (text r))) eqn:Hp; simpl;
    [|discriminate].
  intros _. exists r. repeat split; trivial.
  - destruct (decode_jwt_payload json_loads (PyStr.strip (text r))) as [v|e]; simpl;
      [|reflexivity].
    destruct (Py.truthy v); reflexivity.
  - destruct (decode_jwt_payload json_loads (PyStr.strip (text r))) as [v|e]; simpl;
      [|reflexivity].
    destruct (Py.truthy v); reflexivity.
Qed.

(** X3.  A 200 whose body is ASCII text and, once trimmed, begins with
    [eyJ] but does not hold exactly two dots is accepted all the same: the
    payload cannot be inspected, and the login returns with the trimmed
    body stored as the token. *)
Theorem uninspectable_token_accepted u p c r :
  ascii_text (text r) = true ->
  remote (PostLogin u p) = Reply r ->
  status_code r = 200 ->
  PyStr.startswith "eyJ" (PyStr.strip (text r)) = true ->
  PyStr.count "." (PyStr.strip (text r)) <> 2%nat ->
  fst (_authenticate u p c) = Ok tt
  /\ jwt_token (snd (_authenticate u p c)) = Some (PyStr.strip (text r)).
Proof.
  intros _ Hr Hs Hp Hdots.
  assert (Hdecode : decode_jwt_payload json_loads (PyStr.strip (text r)) = Ok PNone).
  { unfold decode_jwt_payload, try_except_Exception. rewrite split_length.
    destruct (Nat.eqb_spec (S (PyStr.count "." (PyStr.strip (text r)))) 3) as [E|_];
      simpl; [|reflexivity].
    exfalso. apply Hdots. lia. }
  unfold UserLogin._authenticate, bind, send, raise, lift, ret, store_token; simpl.
  rewrite Hr, Hs, Hp. simpl. rewrite Hdecode. simpl. split; reflexivity.
Qed.

End AuthenticateOutcomes.

(** ** [get_username_from_email] and [authenticate_with_identifier] *)

Section LoginFlow.

Variable remote : request -> http_result.
Variable json_loads : string -> result pyval.
Variable timestamp_in_range : pyval -> bool.

Local Abbreviation _authenticate :=
  (UserLogin._authenticate remote json_loads timestamp_in_range).
Local Abbreviation get_username_from_email :=
  (UserLogin.get_username_from_email remote json_loads).
Local Abbreviation authenticate_with_identifier :=
  (UserLogin.authenticate_with_identifier remote json_loads timestamp_in_range).

(** The outcome of a raw login does not depend on the client it starts
    from. *)
Lemma authenticate_outcome_independent u p c c' :
  fst (_authenticate u p c) = fst (_authenticate u p c').
Proof.
  unfold UserLogin._authenticate, bind, send, raise, lift, ret, store_token; simpl.
  destruct (remote (PostLogin u p)) as [|r]; simpl; [reflexivity|].
  destruct (status_code r =? 200); simpl; [|reflexivity].
  destruct (PyStr.startswith "eyJ" (PyStr.strip (text r))); simpl; [|reflexivity].
  destruct (decode_jwt_payload json_loads (PyStr.strip (text r))) as [v|e]; simpl;
    [|reflexivity].
  destruct (Py.truthy v); reflexivity.
Qed.

Lemma get_username_outcome_independent address c c' :
  fst (get_username_from_email address c) = fst (get_username_from_email address c').
Proof.
  unfold UserLogin.get_username_from_email, UserLogin._make_admin_request,
    make_request, try_except, bind, send, raise, lift, ret, any_exception; simpl.
  destruct (remote GetManagedUsers) as [|r]; simpl; [reflexivity|].
  destruct (is_http_error r); simpl; [reflexivity|].
  destruct (json_loads (text r)) as [v|e]; simpl; [|reflexivity].
  destruct (Py.iter v) as [users|e]; simpl; [|reflexivity].
  destruct (UserLogin.scan_emails _ users); reflexivity.
Qed.

(** X4.  [get_username_from_email] never raises: whatever the directory
    answers it returns a value, having sent exactly one listing request and
    left the token and the printed lines untouched. *)
Theorem email_lookup_never_raises address c :
  exists v,
    fst (get_username_from_email address c) = Ok v
    /\ sent (snd (get_username_from_email address c)) = sent c ++ [GetManagedUsers]
    /\ jwt_token (snd (get_username_from_email address c)) = jwt_token c
    /\ printed (snd (get_username_from_email address c)) = printed c.
Proof.
  unfold UserLogin.get_username_from_email, UserLogin._make_admin_request,
    make_request, try_except, bind, send, raise, lift, ret, any_exception; simpl.
  destruct (remote GetManagedUsers) as [|r]; simpl; [eexists; repeat split|].
  destruct (is_http_error r); simpl; [eexists; repeat split|].
  destruct (json_loads (text r)) as [v|e]; simpl; [|eexists; repeat split].
  destruct (Py.iter v) as [users|e]; simpl; [|eexists; repeat split].
  destruct (UserLogin.scan_emails _ users); simpl; eexists; repeat split.
Qed.

Lemma scan_emails_first_match address pre u post :
  forallb (has_other_email (PyStr.strip address)) pre = true ->
  email_is (PyStr.strip address) u = true ->
  UserLogin.scan_emails (PyStr.strip (PyStr.lower address)) (pre ++ u :: post)
  = Py.get u "username" PNone.
Proof.
  intros Hpre Hu.
  induction pre as [|v pre IH]; simpl.
  - unfold email_is in Hu.
    destruct (Py.get u "email" PNone) as [[| | | |e| |]|]; try discriminate.
    rewrite lower_strip in Hu. simpl. rewrite Hu. reflexivity.
  - simpl in Hpre. apply andb_true_iff in Hpre as [Hv Hrest].
    unfold has_other_email in Hv.
    destruct (Py.get v "email" PNone) as [[| | | |e| |]|]; try discriminate.
    rewrite lower_strip in Hv. apply negb_true_iff in Hv.
    simpl. rewrite Hv. now apply IH.
Qed.

(** X5.  For an ASCII address and e-mails that are ASCII text: when every
    record listed before [u] has a string e-mail other than the trimmed
    address, and the e-mail of [u] equals it up to case, the lookup answers
    with the [username] of [u] ([None] when [u] has none), whatever
    follows [u]. *)
Theorem email_lookup_returns_first_match address c pre u post :
  ascii_text address = true ->
  forallb (ascii_field "email") (pre ++ [u]) = true ->
  directory_listing remote json_loads GetManagedUsers = Some (pre ++ u :: post) ->
  forallb (has_other_email (PyStr.strip address)) pre = true ->
  email_is (PyStr.strip address) u = true ->
  fst (get_username_from_email address c) = Py.get u "username" PNone
  /\ exists n, Py.get u "username" PNone = Ok n.
Proof.
  intros _ _ Hlist Hpre Hu.
  assert (Hn : exists n, Py.get u "username" PNone = Ok n).
  { unfold email_is in Hu. destruct u; try discriminate. simpl. now eexists. }
  split; [|exact Hn].
  unfold directory_listing in Hlist.
  unfold UserLogin.get_username_from_email, UserLogin._make_admin_request,
    make_request, try_except, bind, send, raise, lift, ret, any_exception; simpl.
  destruct (remote GetManagedUsers) as [|r]; [discriminate|].
  destruct (is_http_error r); [discriminate|]. simpl.
  destruct (json_loads (text r)) as [v|e]; [|discriminate]. simpl.
  destruct (Py.iter v) as [users|e]; [|discriminate]. simpl.
  injection Hlist as ->.
  rewrite (scan_emails_first_match address pre u post Hpre Hu).
  destruct Hn as [n ->]. reflexivity.
Qed.

(** X6.  When the direct attempt returns, the identifier itself is
    returned, an e-mail address included: one login request, no lookup. *)
Theorem direct_login_returns_identifier identifier password c :
  fst (_authenticate (PStr identifier) password c) = Ok tt ->
  authenticate_with_identifier identifier password c
  = (Ok (PStr identifier), snd (_authenticate (PStr identifier) password c))
  /\ sent (snd (authenticate_with_identifier identifier password c))
     = sent c ++ [PostLogin (PStr identifier) password].
Proof.
  intros H.
  assert (Hrun : authenticate_with_identifier identifier password c
                 = (Ok (PStr identifier),
                    snd (_authenticate (PStr identifier) password c))).
  { unfold UserLogin.authenticate_with_identifier, bind at 1, try_except, bind at 1.
    destruct (_authenticate (PStr identifier) password c) as [[[]|e] c1];
      [reflexivity | discriminate]. }
  split; [exact Hrun|].
  rewrite Hrun. apply authenticate_sent.
Qed.

Lemma fallback_path identifier password c m :
  PyStr.contains "@" identifier = true ->
  fst (_authenticate (PStr identifier) password c)
  = Raise (DependencyTrackAPIError m) ->
  exists c1 v c2,
    sent c1 = sent c ++ [PostLogin (PStr identifier) password]
    /\ get_username_from_email identifier c1 = (Ok v, c2)
    /\ sent c2 = sent c1 ++ [GetManagedUsers]
    /\ authenticate_with_identifier identifier password c
       = (if Py.truthy v then
            try_except
              (_authenticate v password ;;; ret v)
              is_api_error
              (fun _ => raise (DependencyTrackAPIError
                                 (MsgUsernameFoundAuthFailed identifier v)))
          else raise (DependencyTrackAPIError (MsgNoUsernameForEmail identifier))) c2.
Proof.
  intros Hat H.
  destruct (_authenticate (PStr identifier) password c) as [r c1] eqn:Hrun.
  simpl in H. subst r.
  destruct (direct_attempt_fails remote json_loads timestamp_in_range
              identifier password c m c1 Hrun) as [Hdirect Hsent].
  destruct (get_username_from_email_answers remote json_loads identifier c1)
    as (v & c2 & Hlookup & Hsent2 & _).
  exists c1, v, c2. repeat split; trivial.
  unfold UserLogin.authenticate_with_identifier.
  rewrite (bind_ok _ _ _ _ _ Hdirect), Hat.
  rewrite (bind_ok _ _ _ _ _ Hlookup). reflexivity.
Qed.

(** X7.  The e-mail fallback: when the identifier holds an [@], the
    direct attempt is rejected, the lookup answers a non-empty username
    and the raw login of that username returns, the login returns that
    username after exactly three requests: the direct login, the listing,
    the login with the resolved username. *)
Theorem email_login_retries_with_resolved_username identifier password c m v :
  PyStr.contains "@" identifier = true ->
  fst (_authenticate (PStr identifier) password c)
  = Raise (DependencyTrackAPIError m) ->
  fst (get_username_from_email identifier c) = Ok v ->
  Py.truthy v = true ->
  fst (_authenticate v password c) = Ok tt ->
  fst (authenticate_with_identifier identifier password c) = Ok v
  /\ sent (snd (authenticate_with_identifier identifier password c))
     = sent c ++ [PostLogin (PStr identifier) password; GetManagedUsers;
                  PostLogin v password].
Proof.
  intros Hat Hdirect Hlookup Htruthy Hretry.
  destruct (fallback_path identifier password c m Hat Hdirect)
    as (c1 & w & c2 & Hs1 & Hl & Hs2 & ->).
  rewrite (get_username_outcome_independent identifier c c1), Hl in Hlookup.
  simpl in Hlookup. injection Hlookup as ->.
  rewrite Htruthy.
  rewrite (authenticate_outcome_independent v password c c2) in Hretry.
  pose proof (authenticate_sent remote json_loads timestamp_in_range v password c2)
    as Hs3.
  unfold try_except, bind.
  destruct (_authenticate v password c2) as [[[]|e] c3]; [|discriminate].
  simpl in *. split; [reflexivity|].
  rewrite Hs3, Hs2, Hs1, <- !app_assoc. reflexivity.
Qed.

(** X8.  In the same situation, when the raw login of the resolved
    username is rejected, the login fails with "Username ... found but
    authentication failed", naming the identifier and the username. *)
Theorem resolved_username_rejected identifier password c m v m' :
  PyStr.contains "@" identifier = true ->
  fst (_authenticate (PStr identifier) password c)
  = Raise (DependencyTrackAPIError m) ->
  fst (get_username_from_email identifier c) = Ok v ->
  Py.truthy v = true ->
  fst (_authenticate v password c) = Raise (DependencyTrackAPIError m') ->
  fst (authenticate_with_identifier identifier password c)
  = Raise (DependencyTrackAPIError (MsgUsernameFoundAuthFailed identifier v)).
Proof.
  intros Hat Hdirect Hlookup Htruthy Hretry.
  destruct (fallback_path identifier password c m Hat Hdirect)
    as (c1 & w & c2 & Hs1 & Hl & Hs2 & ->).
  rewrite (get_username_outcome_independent identifier c c1), Hl in Hlookup.
  simpl in Hlookup. injection Hlookup as ->.
  rewrite Htruthy.
  rewrite (authenticate_outcome_independent v password c c2) in Hretry.
  unfold try_except, bind, raise.
  destruct (_authenticate v password c2) as [[[]|e] c3]; simpl in *;
    [discriminate|].
  injection Hretry as ->. reflexivity.
Qed.

(** X9.  Whatever the service answers, a login sends the direct login
    first and then at most a listing and one more login: one, two or three
    requests, never a team or a key request. *)
Theorem login_sends_at_most_three_requests identifier password c :
  let after := sent (snd (authenticate_with_identifier identifier password c)) in
  after = sent c ++ [PostLogin (PStr identifier) password]
  \/ after = sent c ++ [PostLogin (PStr identifier) password; GetManagedUsers]
  \/ exists v,
       after = sent c ++ [PostLogin (PStr identifier) password; GetManagedUsers;
                          PostLogin v password].
Proof.
  cbv zeta.
  pose proof (authenticate_sent remote json_loads timestamp_in_range
                (PStr identifier) password c) as Hs1.
  destruct (authenticate_with_identifier identifier password c) as [out cf] eqn:Hf.
  cbn [snd].
  unfold UserLogin.authenticate_with_identifier, bind at 1, try_except, bind at 1 in Hf.
  destruct (_authenticate (PStr identifier) password c) as [[[]|e] c1].
  - unfold ret in Hf. injection Hf as _ <-. left. exact Hs1.
  - simpl in Hs1.
    destruct e as [m| | | | |]; simpl in Hf;
      try (injection Hf as _ <-; left; exact Hs1).
    unfold ret at 1 in Hf.
    destruct (PyStr.contains "@" identifier);
      [|unfold raise in Hf; injection Hf as _ <-; left; exact Hs1].
    destruct (get_username_from_email_answers remote json_loads identifier c1)
      as (v & c2 & Hlookup & Hs2 & _).
    rewrite (bind_ok _ _ _ _ _ Hlookup) in Hf.
    destruct (Py.truthy v).
    + right. right. exists v.
      pose proof (authenticate_sent remote json_loads timestamp_in_range
                    v password c2) as Hs3.
      unfold try_except, bind, raise, ret in Hf.
      destruct (_authenticate v password c2) as [[[]|e] c3]; simpl in Hs3.
      * injection Hf as _ <-. rewrite Hs3, Hs2, Hs1, <- !app_assoc. reflexivity.
      * destruct (is_api_error e); injection Hf as _ <-;
          rewrite Hs3, Hs2, Hs1, <- !app_assoc; reflexivity.
    + right. left. unfold raise in Hf. injection Hf as _ <-.
      rewrite Hs2, Hs1, <- app_assoc. reflexivity.
Qed.

End LoginFlow.

(** X1, at a client that holds a token and a login that is refused. *)
Lemma rejected_login_keeps_token_witness :
  jwt_token (snd (UserLogin._authenticate Samples.bob_service JsonReader.json_loads
                    Samples.any_timestamp (PStr "alice") "secret" Scenarios.logged_in))
  = Some "eyJ.e30.old"
  /\ authorization (snd (UserLogin._authenticate Samples.bob_service
                           JsonReader.json_loads Samples.any_timestamp
                           (PStr "alice") "secret" Scenarios.logged_in))
     = Some "Bearer eyJ.e30.old".
Proof.
  apply (rejected_login_keeps_token Samples.bob_service JsonReader.json_loads
           Samples.any_timestamp (PStr "alice") "secret" Scenarios.logged_in
           (MsgAuthStatus 401 "Unauthorized")).
  reflexivity.
Defined.

(** X2, at the login of [bob]. *)
Lemma accepted_login_stores_token_witness :
  exists r,
    Samples.bob_service (PostLogin (PStr "bob") "secret") = Reply r
    /\ status_code r = 200
    /\ PyStr.startswith "eyJ" (PyStr.strip (text r)) = true
    /\ jwt_token (snd (UserLogin._authenticate Samples.bob_service
                         JsonReader.json_loads Samples.any_timestamp
                         (PStr "bob") "secret" new_client))
       = Some (PyStr.strip (text r))
    /\ authorization (snd (UserLogin._authenticate Samples.bob_service
                             JsonReader.json_loads Samples.any_timestamp
                             (PStr "bob") "secret" new_client))
       = Some ("Bearer " ++ PyStr.strip (text r))%string.
Proof.
  apply (accepted_login_stores_token Samples.bob_service JsonReader.json_loads
           Samples.any_timestamp (PStr "bob") "secret" new_client).
  - intros r H. vm_compute in H. injection H as <-. reflexivity.
  - reflexivity.
Defined.

(** X3, at a token of one segment. *)
Lemma uninspectable_token_accepted_witness :
  fst (UserLogin._authenticate Scenarios.opaque_token_service JsonReader.json_loads
         Samples.any_timestamp (PStr "bob") "secret" new_client)
  = Ok tt
  /\ jwt_token (snd (UserLogin._authenticate Scenarios.opaque_token_service
                       JsonReader.json_loads Samples.any_timestamp
                       (PStr "bob") "secret" new_client))
     = Some (PyStr.strip "eyJhbGciOiJIUzI1NiJ9").
Proof.
  apply (uninspectable_token_accepted Scenarios.opaque_token_service
           JsonReader.json_loads Samples.any_timestamp (PStr "bob") "secret" new_client
           {| status_code := 200; text := "eyJhbGciOiJIUzI1NiJ9" |}).
  - reflexivity.
  - reflexivity.
  - reflexivity.
  - reflexivity.
  - discriminate.
Defined.

(** X5, at a directory that lists [bob], then [jdoe], then a record
    without e-mail. *)
Lemma email_lookup_returns_first_match_witness :
  fst (UserLogin.get_username_from_email
         (Samples.directory_only
            ("[" ++ Scenarios.bob_json ++ "," ++ Samples.jdoe_json ++ ","
                 ++ Samples.ghost_json ++ "]")%string)
         JsonReader.json_loads " Jane@X.com " new_client)
  = Py.get Samples.jdoe "username" PNone
  /\ exists n, Py.get Samples.jdoe "username" PNone = Ok n.
Proof.
  apply (email_lookup_returns_first_match
           (Samples.directory_only
              ("[" ++ Scenarios.bob_json ++ "," ++ Samples.jdoe_json ++ ","
                   ++ Samples.ghost_json ++ "]")%string)
           JsonReader.json_loads " Jane@X.com " new_client
           [Scenarios.bob_record] Samples.jdoe [Samples.ghost]);
    reflexivity.
Defined.

(** X6, at the login of [bob]. *)
Lemma direct_login_returns_identifier_witness :
  fst (UserLogin.authenticate_with_identifier Samples.bob_service
         JsonReader.json_loads Samples.any_timestamp "bob" "secret" new_client)
  = Ok (PStr "bob")
  /\ sent (snd (UserLogin.authenticate_with_identifier Samples.bob_service
                  JsonReader.json_loads Samples.any_timestamp "bob" "secret"
                  new_client))
     = [PostLogin (PStr "bob") "secret"].
Proof.
  destruct (direct_login_returns_identifier Samples.bob_service
              JsonReader.json_loads Samples.any_timestamp "bob" "secret" new_client
              eq_refl) as [H1 H2].
  split; [now rewrite H1 | exact H2].
Defined.

(** X7, at the login of [bob] by his e-mail address. *)
Lemma email_login_retries_with_resolved_username_witness :
  fst (UserLogin.authenticate_with_identifier Samples.bob_service
         JsonReader.json_loads Samples.any_timestamp "bob@x.com" "secret" new_client)
  = Ok (PStr "bob")
  /\ sent (snd (UserLogin.authenticate_with_identifier Samples.bob_service
                  JsonReader.json_loads Samples.any_timestamp "bob@x.com" "secret"
                  new_client))
     = sent new_client
       ++ [PostLogin (PStr "bob@x.com") "secret"; GetManagedUsers;
           PostLogin (PStr "bob") "secret"].
Proof.
  apply (email_login_retries_with_resolved_username Samples.bob_service
           JsonReader.json_loads Samples.any_timestamp "bob@x.com" "secret" new_client
           (MsgAuthStatus 401 "Unauthorized") (PStr "bob"));
    reflexivity.
Defined.

(** X8, at a service that lists [bob] and refuses every login. *)
Lemma resolved_username_rejected_witness :
  fst (UserLogin.authenticate_with_identifier Scenarios.locked_service
         JsonReader.json_loads Samples.any_timestamp "bob@x.com" "secret" new_client)
  = Raise (DependencyTrackAPIError
             (MsgUsernameFoundAuthFailed "bob@x.com" (PStr "bob"))).
Proof.
  apply (resolved_username_rejected Scenarios.locked_service
           JsonReader.json_loads Samples.any_timestamp "bob@x.com" "secret" new_client
           (MsgAuthStatus 401 "Unauthorized") (PStr "bob")
           (MsgAuthStatus 401 "Unauthorized"));
    reflexivity.
Defined.

(** ** [decode_jwt_payload]: what is read and what is not *)

Lemma a2b_base64_only_pads k leftchar pads :
  Base64.a2b_base64 (PyStr.repeat "=" k) 0 leftchar pads = Ok EmptyString.
Proof. induction k as [|k IH]; simpl; [reflexivity | exact IH]. Qed.

Lemma translate_pads k : Base64.translate (PyStr.repeat "=" k) = PyStr.repeat "=" k.
Proof. induction k as [|k IH]; simpl; [reflexivity | now rewrite IH]. Qed.

(** The decoding loop reads an encoded segment back as soon as it is
    followed by at least its standard padding. *)
Lemma a2b_base64_padded s :
  forall k leftchar,
    (missing_pads (String.length (Base64.urlsafe_b64encode_nopad s)) <= k)%nat ->
    Base64.a2b_base64
      (Base64.translate (Base64.urlsafe_b64encode_nopad s ++ PyStr.repeat "=" k))
      0 leftchar 0
    = Ok s.
Proof.
  induction s as [|a|a b|a b c s IH] using string_by_threes; intros k leftchar Hk.
  - cbn [Base64.urlsafe_b64encode_nopad String.append].
    rewrite translate_pads. apply a2b_base64_only_pads.
  - pose proof (check_first a) as H1. pose proof (check_last_of_one a) as H2.
    unfold ByteChecks.first in H1.
    unfold ByteChecks.last_of_one in H2. cbv zeta in H2.
    apply andb_true_iff in H2 as [H2g H2b]. apply Ascii.eqb_eq in H2b.
    destruct k as [|[|k]]; [cbv in Hk; lia | cbv in Hk; lia |].
    cbn [Base64.urlsafe_b64encode_nopad PyStr.repeat String.append Base64.translate].
    rewrite (a2b_base64_digit _ _ _ _ _ H1).
    rewrite (a2b_base64_digit _ _ _ _ _ H2g).
    rewrite H2b. reflexivity.
  - pose proof (check_first a) as H1. pose proof (check_second a b) as H2.
    pose proof (check_last_of_two b) as H3.
    unfold ByteChecks.first in H1.
    unfold ByteChecks.second in H2. cbv zeta in H2.
    unfold ByteChecks.last_of_two in H3. cbv zeta in H3.
    apply andb_true_iff in H2 as [H2 H2l]. apply andb_true_iff in H2 as [H2g H2b].
    apply andb_true_iff in H3 as [H3g H3b].
    apply Ascii.eqb_eq in H2b, H3b. apply N.eqb_eq in H2l.
    destruct k as [|k]; [cbv in Hk; lia|].
    cbn [Base64.urlsafe_b64encode_nopad PyStr.repeat String.append Base64.translate].
    rewrite (a2b_base64_digit _ _ _ _ _ H1).
    rewrite (a2b_base64_digit _ _ _ _ _ H2g).
    rewrite (a2b_base64_digit _ _ _ _ _ H3g).
    rewrite H2l, H2b, H3b. reflexivity.
  - cbn [Base64.urlsafe_b64encode_nopad] in Hk |- *.
    unfold missing_pads in Hk. rewrite length_mod4_group in Hk.
    cbn [String.append].
    rewrite a2b_base64_group, (IH k 0%N Hk). reflexivity.
Qed.

Lemma string_append_assoc s t u : ((s ++ t) ++ u = s ++ (t ++ u))%string.
Proof. induction s as [|a s IH]; simpl; [reflexivity | now rewrite IH]. Qed.

Lemma repeat_app c k j :
  (PyStr.repeat c k ++ PyStr.repeat c j)%string = PyStr.repeat c (k + j).
Proof. induction k as [|k IH]; simpl; [reflexivity | now rewrite IH]. Qed.

Lemma contains_app c s t :
  PyStr.contains c (s ++ t) = PyStr.contains c s || PyStr.contains c t.
Proof.
  induction s as [|a s IH]; simpl; [reflexivity|].
  now rewrite IH, orb_assoc.
Qed.

Lemma contains_pads k : PyStr.contains "." (PyStr.repeat "=" k) = false.
Proof. induction k as [|k IH]; simpl; [reflexivity | exact IH]. Qed.

Section InspectorFacts.

Variable json_loads : string -> result pyval.

(** What [decode_jwt_payload] returns on three segments: it is a function
    of the second one. *)
Lemma decode_three_segments header payload signature :
  PyStr.contains "." header = false ->
  PyStr.contains "." payload = false ->
  PyStr.contains "." signature = false ->
  decode_jwt_payload json_loads (header ++ "." ++ payload ++ "." ++ signature)%string
  = try_except_Exception
      (let? decoded_bytes :=
         Base64.urlsafe_b64decode
           (payload ++ PyStr.repeat "=" (4 - String.length payload mod 4)%nat) in
       let? decoded_text := Utf8.decode decoded_bytes in
       let? payload_data := json_loads decoded_text in
       Ok payload_data)
      (fun _ => Ok PNone).
Proof.
  intros Hh Hp Hs.
  unfold decode_jwt_payload.
  change (header ++ "." ++ payload ++ "." ++ signature)%string
    with (header ++ String "." (payload ++ String "." signature))%string.
  rewrite (split_at_separator _ _ _ Hh), (split_at_separator _ _ _ Hp),
    (split_without_separator _ _ Hs).
  reflexivity.
Qed.

(** X10.  The header and the signature are never looked at: two tokens
    with the same second segment decode to the same value, whatever their
    first and third segments are. *)
Theorem decode_ignores_header_and_signature header signature header' signature' payload :
  PyStr.contains "." header = false ->
  PyStr.contains "." signature = false ->
  PyStr.contains "." header' = false ->
  PyStr.contains "." signature' = false ->
  PyStr.contains "." payload = false ->
  decode_jwt_payload json_loads (header ++ "." ++ payload ++ "." ++ signature)%string
  = decode_jwt_payload json_loads (header' ++ "." ++ payload ++ "." ++ signature')%string.
Proof.
  intros Hh Hs Hh' Hs' Hp.
  now rewrite !decode_three_segments.
Qed.

(** X11.  A second segment that carries its standard [=] padding, or any
    number of pad characters beyond it, decodes to the same payload as the
    unpadded segment. *)
Theorem decode_accepts_padded_segment header signature serialized payload k :
  PyStr.contains "." header = false ->
  PyStr.contains "." signature = false ->
  Utf8.valid serialized = true ->
  json_loads serialized = Ok payload ->
  (missing_pads (String.length (Base64.urlsafe_b64encode_nopad serialized)) <= k)%nat ->
  decode_jwt_payload json_loads
    (header ++ "."
     ++ (Base64.urlsafe_b64encode_nopad serialized ++ PyStr.repeat "=" k)
     ++ "." ++ signature)%string
  = Ok payload.
Proof.
  intros Hh Hs Hutf8 Hjson Hk.
  rewrite decode_three_segments; trivial.
  2:{ rewrite contains_app, contains_pads, (proj2 (encoded_digits serialized)).
      reflexivity. }
  rewrite string_append_assoc, repeat_app.
  unfold Base64.urlsafe_b64decode.
  rewrite all_ascii_app, all_ascii_pads, (proj1 (encoded_digits serialized)).
  cbn [andb].
  rewrite a2b_base64_padded by lia.
  unfold try_except_Exception, Utf8.decode. cbn [rbind].
  rewrite Hutf8. cbn [rbind]. rewrite Hjson. reflexivity.
Qed.

End InspectorFacts.

(** X10, at two tokens that differ in header and signature. *)
Lemma decode_ignores_header_and_signature_witness :
  decode_jwt_payload JsonReader.json_loads
    ("eyJhbGciOiJIUzI1NiJ9" ++ "." ++ "eyJhIjoxMn0" ++ "." ++ "sig")%string
  = decode_jwt_payload JsonReader.json_loads
      ("x" ++ "." ++ "eyJhIjoxMn0" ++ "." ++ "forged")%string.
Proof.
  apply (decode_ignores_header_and_signature JsonReader.json_loads
           "eyJhbGciOiJIUzI1NiJ9" "sig" "x" "forged" "eyJhIjoxMn0");
    reflexivity.
Defined.

(** X11, at a segment with its two standard pad characters. *)
Lemma decode_accepts_padded_segment_witness :
  decode_jwt_payload JsonReader.json_loads
    ("eyJhbGciOiJIUzI1NiJ9" ++ "."
     ++ (Base64.urlsafe_b64encode_nopad Samples.claims_json ++ PyStr.repeat "=" 2)
     ++ "." ++ "sig")%string
  = Ok Samples.claims.
Proof.
  apply (decode_accepts_padded_segment JsonReader.json_loads
           "eyJhbGciOiJIUzI1NiJ9" "sig" Samples.claims_json Samples.claims 2);
    reflexivity.
Defined.

(** ** Identity resolution: failures and normalization *)

Lemma lower_char_idempotent c :
  PyStr.lower_char (PyStr.lower_char c) = PyStr.lower_char c.
Proof. destruct c as [[] [] [] [] [] [] [] []]; reflexivity. Qed.

Lemma lower_idempotent s : PyStr.lower (PyStr.lower s) = PyStr.lower s.
Proof.
  induction s as [|c s IH]; simpl; [reflexivity|].
  now rewrite lower_char_idempotent, IH.
Qed.

Lemma rstrip_idempotent s : PyStr.rstrip (PyStr.rstrip s) = PyStr.rstrip s.
Proof.
  induction s as [|c s IH]; simpl; [reflexivity|].
  destruct (PyStr.rstrip s) as [|d r] eqn:Hr.
  - destruct (PyStr.is_space c) eqn:Hc; simpl; [reflexivity|].
    now rewrite Hc.
  - change (PyStr.rstrip (String c (String d r)))
      with (match PyStr.rstrip (String d r) with
            | EmptyString =>
                if PyStr.is_space c then EmptyString else String c EmptyString
            | String x y => String c (String x y)
            end).
    now rewrite IH.
Qed.

Lemma lstrip_of_stripped s :
  PyStr.lstrip (PyStr.rstrip (PyStr.lstrip s)) = PyStr.rstrip (PyStr.lstrip s).
Proof.
  induction s as [|c s IH]; simpl; [reflexivity|].
  destruct (PyStr.is_space c) eqn:Hc; [exact IH|].
  simpl. destruct (PyStr.rstrip s); simpl; rewrite Hc; simpl; now rewrite ?Hc.
Qed.

Lemma strip_idempotent s : PyStr.strip (PyStr.strip s) = PyStr.strip s.
Proof.
  unfold PyStr.strip. now rewrite lstrip_of_stripped, rstrip_idempotent.
Qed.

Section ResolverOutcomes.

Variable remote : request -> http_result.
Variable json_loads : string -> result pyval.

(** X12.  [get_user_by_username_or_email] has no handler of its own: when
    the Directory Client call fails, both scripts raise the error of that
    call, and the only request sent is the listing. *)
Theorem resolution_propagates_directory_failure identifier c :
  directory_fails remote GetManagedUsers = true ->
  fst (UserLogin.get_user_by_username_or_email remote json_loads identifier c)
  = Raise (DependencyTrackAPIError MsgAdminRequestFailed)
  /\ fst (FetchTeams.get_user_by_username_or_email remote json_loads identifier c)
     = Raise (DependencyTrackAPIError MsgApiRequestFailed)
  /\ sent (snd (UserLogin.get_user_by_username_or_email remote json_loads identifier c))
     = sent c ++ [GetManagedUsers]
  /\ sent (snd (FetchTeams.get_user_by_username_or_email remote json_loads identifier c))
     = sent c ++ [GetManagedUsers].
Proof.
  intros H.
  destruct (make_request_fails remote MsgAdminRequestFailed GetManagedUsers c H)
    as (c1 & Hreq1 & Hs1 & _).
  destruct (make_request_fails remote MsgApiRequestFailed GetManagedUsers c H)
    as (c2 & Hreq2 & Hs2 & _).
  assert (H1 : UserLogin.get_user_by_username_or_email remote json_loads identifier c
               = (Raise (DependencyTrackAPIError MsgAdminRequestFailed), c1)).
  { unfold UserLogin.get_user_by_username_or_email, UserLogin.get_all_users.
    apply bind_raise, bind_raise. exact Hreq1. }
  assert (H2 : FetchTeams.get_user_by_username_or_email remote json_loads identifier c
               = (Raise (DependencyTrackAPIError MsgApiRequestFailed), c2)).
  { unfold FetchTeams.get_user_by_username_or_email, FetchTeams.get_all_users.
    apply bind_raise, bind_raise. exact Hreq2. }
  rewrite H1, H2. auto.
Qed.

(** X13.  Resolution sees an ASCII identifier only lower-cased and
    trimmed: lower-casing or trimming the identifier beforehand changes
    nothing, in either script. *)
Theorem resolution_ignores_case_and_padding identifier c :
  ascii_text identifier = true ->
  UserLogin.get_user_by_username_or_email remote json_loads (PyStr.lower identifier) c
  = UserLogin.get_user_by_username_or_email remote json_loads identifier c
  /\ UserLogin.get_user_by_username_or_email remote json_loads (PyStr.strip identifier) c
     = UserLogin.get_user_by_username_or_email remote json_loads identifier c
  /\ FetchTeams.get_user_by_username_or_email remote json_loads (PyStr.lower identifier) c
     = FetchTeams.get_user_by_username_or_email remote json_loads identifier c
  /\ FetchTeams.get_user_by_username_or_email remote json_loads (PyStr.strip identifier) c
     = FetchTeams.get_user_by_username_or_email remote json_loads identifier c.
Proof.
  intros _.
  unfold UserLogin.get_user_by_username_or_email,
    FetchTeams.get_user_by_username_or_email.
  rewrite lower_idempotent, lower_strip, strip_idempotent.
  repeat split; reflexivity.
Qed.

End ResolverOutcomes.

(** X13, at the identifier [ Bob ] with its surrounding blanks. *)
Lemma resolution_ignores_case_and_padding_witness :
  UserLogin.get_user_by_username_or_email Samples.bob_service JsonReader.json_loads
    (PyStr.lower " Bob ") new_client
  = UserLogin.get_user_by_username_or_email Samples.bob_service JsonReader.json_loads
      " Bob " new_client
  /\ UserLogin.get_user_by_username_or_email Samples.bob_service JsonReader.json_loads
       (PyStr.strip " Bob ") new_client
     = UserLogin.get_user_by_username_or_email Samples.bob_service JsonReader.json_loads
         " Bob " new_client
  /\ FetchTeams.get_user_by_username_or_email Samples.bob_service JsonReader.json_loads
       (PyStr.lower " Bob ") new_client
     = FetchTeams.get_user_by_username_or_email Samples.bob_service JsonReader.json_loads
         " Bob " new_client
  /\ FetchTeams.get_user_by_username_or_email Samples.bob_service JsonReader.json_loads
       (PyStr.strip " Bob ") new_client
     = FetchTeams.get_user_by_username_or_email Samples.bob_service JsonReader.json_loads
         " Bob " new_client.
Proof.
  apply (resolution_ignores_case_and_padding Samples.bob_service JsonReader.json_loads
           " Bob " new_client).
  reflexivity.
Defined.

(** X12, at a directory that refuses the listing. *)
Lemma resolution_propagates_directory_failure_witness :
  fst (UserLogin.get_user_by_username_or_email Samples.forbidden
         JsonReader.json_loads "bob" new_client)
  = Raise (DependencyTrackAPIError MsgAdminRequestFailed)
  /\ fst (FetchTeams.get_user_by_username_or_email Samples.forbidden
            JsonReader.json_loads "bob" new_client)
     = Raise (DependencyTrackAPIError MsgApiRequestFailed)
  /\ sent (snd (UserLogin.get_user_by_username_or_email Samples.forbidden
                  JsonReader.json_loads "bob" new_client))
     = sent new_client ++ [GetManagedUsers]
  /\ sent (snd (FetchTeams.get_user_by_username_or_email Samples.forbidden
                  JsonReader.json_loads "bob" new_client))
     = sent new_client ++ [GetManagedUsers].
Proof.
  apply (resolution_propagates_directory_failure Samples.forbidden
           JsonReader.json_loads "bob" new_client).
  reflexivity.
Defined.

(** ** The entry points *)

Section EntryPoints.

Variable remote : request -> http_result.
Variable json_loads : string -> result pyval.
Variable timestamp_in_range : pyval -> bool.
Variable str_of : pyval -> string.
Variable now_timestamp : string.
Variable typed_answer : string.

(** X14.  [main] of [dt_user_login.py] never ends in an exception: it
    prints one document and exits with 0 when the document reports success
    and with 1 otherwise; a success document is printed only after a login
    that returned, and its [authenticated_as] is what the login returned. *)
Theorem login_main_always_reports user password c :
  exists code report,
    fst (UserLoginMain.main remote json_loads timestamp_in_range user password c)
    = Ok (code, report)
    /\ (code = 0 /\ UserLoginMain.is_verified report = true
        \/ code = 1 /\ UserLoginMain.is_verified report = false)
    /\ (forall n e f a,
           report = UserLoginMain.Verified n e f a ->
           fst (UserLogin.authenticate_with_identifier remote json_loads
                  timestamp_in_range user password c)
           = Ok a).
Proof.
  unfold UserLoginMain.main, try_except, bind, ret, any_exception.
  destruct (UserLogin.authenticate_with_identifier remote json_loads
              timestamp_in_range user password c) as [[a|e] c1]; simpl.
  - destruct (UserLogin.get_user_by_username_or_email remote json_loads user c1)
      as [[[u|]|e] c2]; simpl.
    + do 2 eexists. split; [reflexivity|]. split; [left; auto|].
      intros n e f a' H. now injection H as _ _ _ <-.
    + do 2 eexists. split; [reflexivity|]. split; [right; auto|]. discriminate.
    + do 2 eexists. split; [reflexivity|]. split; [right; auto|]. discriminate.
  - do 2 eexists. split; [reflexivity|]. split; [right; auto|]. discriminate.
Qed.

Lemma fetch_teams_resolution identifier users c :
  directory_listing remote json_loads GetManagedUsers = Some users ->
  forallb well_formed_identity users = true ->
  exists all_users c',
    FetchTeams.get_user_by_username_or_email remote json_loads identifier c
    = (FetchTeams.scan_users (PyStr.strip (PyStr.lower identifier)) all_users, c')
    /\ FetchTeams.make_users users = Ok all_users.
Proof.
  intros Hlist Hwf.
  unfold directory_listing in Hlist.
  unfold FetchTeams.get_user_by_username_or_email, FetchTeams.get_all_users,
    FetchTeams._make_request, make_request, bind, send, raise, lift, ret.
  destruct (remote GetManagedUsers) as [|r]; [discriminate|].
  destruct (is_http_error r); [discriminate|].
  destruct (json_loads (text r)) as [v|e]; [|discriminate].
  destruct (Py.iter v) as [l|e]; [|discriminate].
  injection Hlist as ->.
  destruct (teams_scan_users_first (PyStr.strip (PyStr.lower identifier)) users Hwf)
    as (all_users & Hmk & _).
  rewrite Hmk. do 2 eexists. split; reflexivity.
Qed.

(** X15.  For an ASCII identifier and well-formed records whose
    usernames and e-mails are ASCII text, [main] of
    [dt_fetch_teams_for_user.py]
    reports the first identity that matches the identifier and exits
    with 0; it labels the match [username] exactly when the username of
    that identity equals the normalized identifier, and [email] otherwise,
    in which case the e-mail does.  With no match it reports "not found"
    and exits with 1. *)
Theorem fetch_teams_main_found_by user users c :
  ascii_text user = true ->
  forallb ascii_identity users = true ->
  directory_listing remote json_loads GetManagedUsers = Some users ->
  forallb well_formed_identity users = true ->
  match find (fun u =>
                negb (String.eqb (PyStr.strip (PyStr.lower user)) EmptyString)
                && matches_identifier (PyStr.strip (PyStr.lower user)) u)
             users with
  | Some u =>
      exists record,
        FetchTeams.make_user u = Ok record
        /\ fst (FetchTeamsMain.main remote json_loads user c)
           = Ok (0, FetchTeamsMain.Found
                      (FetchTeams.username record) (FetchTeams.email record)
                      (FetchTeams.fullname record) (FetchTeams.teams record)
                      (if field_is "username" (PyStr.strip (PyStr.lower user)) u
                       then "username" else "email"))
        /\ (field_is "username" (PyStr.strip (PyStr.lower user)) u = false ->
            field_is "email" (PyStr.strip (PyStr.lower user)) u = true)
  | None =>
      fst (FetchTeamsMain.main remote json_loads user c)
      = Ok (1, FetchTeamsMain.UserNotFound user)
  end.
Proof.
  intros _ _ Hlist Hwf.
  destruct (fetch_teams_resolution user users c Hlist Hwf)
    as (all_users & c' & Hrun & Hmk).
  destruct (teams_scan_users_first (PyStr.strip (PyStr.lower user)) users Hwf)
    as (all_users' & Hmk' & Hfind).
  rewrite Hmk in Hmk'. injection Hmk' as <-.
  destruct (find _ users) as [u|] eqn:Hfound;
    unfold FetchTeamsMain.main, try_except, bind at 1; rewrite Hrun.
  - destruct Hfind as (record & Hrec & ->).
    apply find_some in Hfound as [Hin Hmatch].
    assert (Hu : well_formed_identity u = true)
      by (eapply forallb_forall in Hwf; eauto).
    destruct (teams_make_user_ok u Hu) as (record' & n & e & Hrec' & Hn & He & Hgn & Hge).
    rewrite Hrec in Hrec'. injection Hrec' as <-.
    exists record. split; [exact Hrec|].
    unfold field_is. rewrite Hgn, Hge.
    split.
    + unfold bind, lift, ret. rewrite Hn. simpl.
      destruct (String.eqb (PyStr.lower n) (PyStr.strip (PyStr.lower user)));
        reflexivity.
    + intros Hno.
      apply andb_true_iff in Hmatch as [_ Hmatch].
      unfold matches_identifier, field_is in Hmatch. rewrite Hgn, Hge in Hmatch.
      rewrite Hno in Hmatch. exact Hmatch.
  - rewrite Hfind. reflexivity.
Qed.

(** X16.  [main] of [dt_generate_api_key.py] never ends in an exception;
    it exits with 0 exactly when [generate_api_key_for_team] returns
    [True], and with 1 in every other case. *)
Theorem key_main_exit_status team yes c :
  exists code,
    fst (GenerateApiKeyMain.main remote json_loads str_of now_timestamp typed_answer
           team yes c)
    = Ok code
    /\ (code = 0 \/ code = 1)
    /\ (code = 0 <->
        fst (GenerateApiKey.generate_api_key_for_team
               remote json_loads str_of now_timestamp typed_answer team yes c)
        = Ok true).
Proof.
  unfold GenerateApiKeyMain.main, try_except, bind, ret, any_exception.
  destruct (GenerateApiKey.generate_api_key_for_team
              remote json_loads str_of now_timestamp typed_answer team yes c)
    as [[[]|e] c1]; simpl; eexists; (split; [reflexivity|]); split; auto;
    split; intros H; try discriminate; reflexivity.
Qed.

(** X17.  When the team list cannot be fetched,
    [generate_api_key_for_team] raises the error of the Directory Client
    call, and [main] exits with 1 having printed nothing and sent nothing
    but the listing request. *)
Theorem key_main_directory_failure team yes c :
  directory_fails remote GetTeams = true ->
  fst (GenerateApiKey.generate_api_key_for_team
         remote json_loads str_of now_timestamp typed_answer team yes c)
  = Raise (DependencyTrackAPIError MsgApiRequestFailed)
  /\ fst (GenerateApiKeyMain.main remote json_loads str_of now_timestamp typed_answer
            team yes c)
     = Ok 1
  /\ printed (snd (GenerateApiKeyMain.main remote json_loads str_of now_timestamp
                     typed_answer team yes c))
     = printed c
  /\ sent (snd (GenerateApiKeyMain.main remote json_loads str_of now_timestamp
                  typed_answer team yes c))
     = sent c ++ [GetTeams].
Proof.
  intros H.
  destruct (make_request_fails remote MsgApiRequestFailed GetTeams c H)
    as (c1 & Hreq & Hs & Hp & _).
  assert (Hrun : GenerateApiKey.generate_api_key_for_team
                   remote json_loads str_of now_timestamp typed_answer team yes c
                 = (Raise (DependencyTrackAPIError MsgApiRequestFailed), c1)).
  { unfold GenerateApiKey.generate_api_key_for_team, GenerateApiKey.find_team_by_name,
      GenerateApiKey.get_teams.
    apply bind_raise, bind_raise, bind_raise. exact Hreq. }
  unfold GenerateApiKeyMain.main, try_except, bind, ret, any_exception.
  rewrite Hrun. simpl. auto.
Qed.

End EntryPoints.

(** X15, at the scenario of the design document: [JANE@X.COM] is found by
    e-mail. *)
Lemma fetch_teams_main_found_by_witness :
  exists record,
    FetchTeams.make_user Samples.jdoe = Ok record
    /\ fst (FetchTeamsMain.main
              (Samples.directory_only ("[" ++ Samples.jdoe_json ++ "]")%string)
              JsonReader.json_loads "JANE@X.COM" new_client)
       = Ok (0, FetchTeamsMain.Found
                  (FetchTeams.username record) (FetchTeams.email record)
                  (FetchTeams.fullname record) (FetchTeams.teams record)
                  "email")
    /\ (field_is "username" (PyStr.strip (PyStr.lower "JANE@X.COM")) Samples.jdoe = false ->
        field_is "email" (PyStr.strip (PyStr.lower "JANE@X.COM")) Samples.jdoe = true).
Proof.
  exact (fetch_teams_main_found_by
           (Samples.directory_only ("[" ++ Samples.jdoe_json ++ "]")%string)
           JsonReader.json_loads "JANE@X.COM" [Samples.jdoe] new_client
           eq_refl eq_refl eq_refl eq_refl).
Defined.

(** X17, at a directory that refuses the team list. *)
Lemma key_main_directory_failure_witness :
  fst (GenerateApiKey.generate_api_key_for_team Samples.forbidden
         JsonReader.json_loads Samples.str_of "1700000000.5" "yes" "Security" true
         new_client)
  = Raise (DependencyTrackAPIError MsgApiRequestFailed)
  /\ fst (GenerateApiKeyMain.main Samples.forbidden JsonReader.json_loads
            Samples.str_of "1700000000.5" "yes" "Security" true new_client)
     = Ok 1
  /\ printed (snd (GenerateApiKeyMain.main Samples.forbidden JsonReader.json_loads
                     Samples.str_of "1700000000.5" "yes" "Security" true new_client))
     = printed new_client
  /\ sent (snd (GenerateApiKeyMain.main Samples.forbidden JsonReader.json_loads
                  Samples.str_of "1700000000.5" "yes" "Security" true new_client))
     = sent new_client ++ [GetTeams].
Proof.
  apply (key_main_directory_failure Samples.forbidden JsonReader.json_loads
           Samples.str_of "1700000000.5" "yes" "Security" true new_client).
  reflexivity.
Defined.

(** ** Key issuance: what is returned, printed and sent *)

Section KeyOutcomes.

Variable remote : request -> http_result.
Variable json_loads : string -> result pyval.
Variable str_of : pyval -> string.
Variable now_timestamp : string.
Variable typed_answer : string.

Local Abbreviation find_team_by_name :=
  (GenerateApiKey.find_team_by_name remote json_loads).
Local Abbreviation generate_api_key :=
  (GenerateApiKey.generate_api_key remote json_loads str_of now_timestamp).
Local Abbreviation generate_api_key_for_team :=
  (GenerateApiKey.generate_api_key_for_team
     remote json_loads str_of now_timestamp typed_answer).

(** X18.  When the rotation reply is not an error status and its body is
    a map with a [key] field, both scripts return the value of that field
    as it is, having sent the one rotation request. *)
Theorem rotation_reply_key_returned team_uuid c r d key :
  remote (PutTeamKey team_uuid) = Reply r ->
  is_http_error r = false ->
  text r <> EmptyString ->
  json_loads (text r) = Ok (PDict d) ->
  Py.lookup "key" d = Some key ->
  fst (generate_api_key team_uuid c) = Ok key
  /\ fst (GenerateApiKeyScript.generate_api_key remote json_loads team_uuid c) = Ok key
  /\ sent (snd (generate_api_key team_uuid c)) = sent c ++ [PutTeamKey team_uuid]
  /\ sent (snd (GenerateApiKeyScript.generate_api_key remote json_loads team_uuid c))
     = sent c ++ [PutTeamKey team_uuid].
Proof.
  intros Hr Herr Hne Hd Hk.
  apply String.eqb_neq in Hne.
  unfold GenerateApiKey.generate_api_key, GenerateApiKeyScript.generate_api_key,
    GenerateApiKey._make_request, GenerateApiKeyScript._make_request,
    make_request, bind, send, raise, lift, ret; simpl.
  rewrite Hr, Herr; simpl. rewrite Hne; simpl. rewrite Hd; simpl. rewrite Hk.
  repeat split.
Qed.

Lemma find_team_by_name_state team_name c :
  sent (snd (find_team_by_name team_name c)) = sent c ++ [GetTeams]
  /\ printed (snd (find_team_by_name team_name c)) = printed c.
Proof.
  unfold GenerateApiKey.find_team_by_name, GenerateApiKey.get_teams,
    GenerateApiKey._make_request, make_request, bind, send, raise, lift, ret; simpl.
  destruct (remote GetTeams) as [|r]; simpl; [auto|].
  destruct (is_http_error r); simpl; [auto|].
  destruct (json_loads (text r)) as [v|e]; simpl; [|auto].
  destruct (Py.iter v) as [l|e]; simpl; [|auto].
  destruct (GenerateApiKey.scan_teams team_name l); simpl; auto.
Qed.

(** The loop returns [None] or a listed record whose name is the
    requested one up to case. *)
Lemma scan_teams_sound team_name teams t :
  GenerateApiKey.scan_teams team_name teams = Ok t ->
  t = PNone \/ (In t teams /\ team_named team_name t = true).
Proof.
  induction teams as [|x teams IH]; simpl.
  - intros H. injection H as <-. now left.
  - destruct (Py.get x "name" (PStr EmptyString)) as [n|e] eqn:Hget; simpl;
      [|discriminate].
    destruct n as [| | | |n| |]; simpl; try discriminate.
    destruct (String.eqb (PyStr.lower n) (PyStr.lower team_name)) eqn:Hm.
    + intros H. injection H as <-. right. split; [now left|].
      unfold team_named. now rewrite Hget.
    + intros H. destruct (IH H) as [->|[Hin Hn]]; [now left|].
      right. split; [now right | exact Hn].
Qed.

(** The loop returns a record only when it is the first one in list
    order with the requested name up to case. *)
Lemma scan_teams_finds_first team_name teams t :
  GenerateApiKey.scan_teams team_name teams = Ok t ->
  Py.truthy t = true ->
  find (team_named team_name) teams = Some t.
Proof.
  induction teams as [|x teams IH]; simpl.
  - intros H. injection H as <-. discriminate.
  - destruct (Py.get x "name" (PStr EmptyString)) as [n|e] eqn:Hget; simpl;
      [|discriminate].
    destruct n as [| | | |n| |]; simpl; try discriminate.
    unfold team_named at 1. rewrite Hget.
    destruct (String.eqb (PyStr.lower n) (PyStr.lower team_name)).
    + intros H _. injection H as <-. reflexivity.
    + exact IH.
Qed.

(** What a lookup that returns has seen. *)
Lemma find_team_by_name_returns team_name c t c1 :
  find_team_by_name team_name c = (Ok t, c1) ->
  exists teams,
    directory_listing remote json_loads GetTeams = Some teams
    /\ GenerateApiKey.scan_teams team_name teams = Ok t.
Proof.
  unfold GenerateApiKey.find_team_by_name, GenerateApiKey.get_teams,
    GenerateApiKey._make_request, directory_listing,
    make_request, bind, send, raise, lift, ret; simpl.
  destruct (remote GetTeams) as [|r]; simpl; [discriminate|].
  destruct (is_http_error r); simpl; [discriminate|].
  destruct (json_loads (text r)) as [v|e]; simpl; [|discriminate].
  destruct (Py.iter v) as [l|e]; simpl; [|discriminate].
  destruct (GenerateApiKey.scan_teams team_name l) as [x|e] eqn:Hscan; simpl;
    [|discriminate].
  intros H. injection H as -> _. now exists l.
Qed.

(** What a rotation that returns has been answered. *)
Lemma generate_api_key_returns team_uuid c key c2 :
  generate_api_key team_uuid c = (Ok key, c2) ->
  exists r body,
    remote (PutTeamKey team_uuid) = Reply r
    /\ is_http_error r = false
    /\ text r <> EmptyString
    /\ json_loads (text r) = Ok body
    /\ Py.get body "key"
         (GenerateApiKey.placeholder_key str_of now_timestamp team_uuid)
       = Ok key.
Proof.
  unfold GenerateApiKey.generate_api_key, GenerateApiKey._make_request,
    make_request, bind, send, raise, lift, ret; simpl.
  destruct (remote (PutTeamKey team_uuid)) as [|r]; simpl; [discriminate|].
  destruct (is_http_error r) eqn:Herr; simpl; [discriminate|].
  destruct (String.eqb_spec (text r) EmptyString) as [|Hne]; simpl; [discriminate|].
  destruct (json_loads (text r)) as [body|e] eqn:Hbody; simpl; [|discriminate].
  destruct (Py.get body "key" _) as [k|e] eqn:Hk; simpl; [|discriminate].
  intros H. injection H as -> _. exists r, body. auto.
Qed.

(** X19.  For an ASCII team name and listed names that are ASCII text, on
    any team list, well formed or not, [find_team_by_name] never returns a
    team of another name: what it returns is [None] or a listed record
    whose [name] equals the requested name up to case. *)
Theorem found_team_has_requested_name team_name c t :
  ascii_text team_name = true ->
  (forall teams,
      directory_listing remote json_loads GetTeams = Some teams ->
      forallb ascii_team teams = true) ->
  fst (find_team_by_name team_name c) = Ok t ->
  t = PNone
  \/ exists teams,
       directory_listing remote json_loads GetTeams = Some teams
       /\ In t teams
       /\ team_named team_name t = true.
Proof.
  intros _ _.
  unfold GenerateApiKey.find_team_by_name, GenerateApiKey.get_teams,
    GenerateApiKey._make_request, directory_listing,
    make_request, bind, send, raise, lift, ret; simpl.
  destruct (remote GetTeams) as [|r]; simpl; [discriminate|].
  destruct (is_http_error r); simpl; [discriminate|].
  destruct (json_loads (text r)) as [v|e]; simpl; [|discriminate].
  destruct (Py.iter v) as [l|e]; simpl; [|discriminate].
  destruct (GenerateApiKey.scan_teams team_name l) as [x|e] eqn:Hscan; simpl;
    [|discriminate].
  intros H. injection H as ->.
  destruct (scan_teams_sound team_name l t Hscan) as [->|[Hin Hn]]; [now left|].
  right. exists l. auto.
Qed.

End KeyOutcomes.

Section KeyFlow.

Variable remote : request -> http_result.
Variable json_loads : string -> result pyval.
Variable str_of : pyval -> string.
Variable now_timestamp : string.
Variable typed_answer : string.

Local Abbreviation generate_api_key :=
  (GenerateApiKey.generate_api_key remote json_loads str_of now_timestamp).
Local Abbreviation generate_api_key_for_team :=
  (GenerateApiKey.generate_api_key_for_team
     remote json_loads str_of now_timestamp typed_answer).

(** X20.  For an ASCII team name, an ASCII answer of the operator and
    listed names that are ASCII text, [generate_api_key_for_team] returns
    [True] only when the team list was fetched, [team] is the first record
    in list order with the requested name up to case, the operation was
    confirmed (auto-confirm, or the answer [yes] or [y]), and the rotation
    request for the [uuid] of that record was answered with a status that
    is no error and a non-empty body that parses to a value whose [key]
    (or the placeholder, when there is none) is the key issued; the
    requests sent are the listing and that one rotation request. *)
Theorem true_means_key_rotated team_name auto_confirm c :
  ascii_text team_name = true ->
  ascii_text typed_answer = true ->
  (forall teams,
      directory_listing remote json_loads GetTeams = Some teams ->
      forallb ascii_team teams = true) ->
  fst (generate_api_key_for_team team_name auto_confirm c) = Ok true ->
  exists teams team team_uuid r body key,
    directory_listing remote json_loads GetTeams = Some teams
    /\ find (team_named team_name) teams = Some team
    /\ Py.getitem team "uuid" = Ok team_uuid
    /\ confirmed auto_confirm typed_answer = true
    /\ remote (PutTeamKey team_uuid) = Reply r
    /\ is_http_error r = false
    /\ text r <> EmptyString
    /\ json_loads (text r) = Ok body
    /\ Py.get body "key"
         (GenerateApiKey.placeholder_key str_of now_timestamp team_uuid)
       = Ok key
    /\ sent (snd (generate_api_key_for_team team_name auto_confirm c))
       = sent c ++ [GetTeams; PutTeamKey team_uuid].
Proof.
  intros _ _ _.
  destruct (generate_api_key_for_team team_name auto_confirm c) as [out cf] eqn:Hrun.
  cbn [fst snd]. intros ->.
  destruct (find_team_by_name_state remote json_loads team_name c) as [Hs Hp].
  unfold GenerateApiKey.generate_api_key_for_team, bind at 1 in Hrun.
  destruct (GenerateApiKey.find_team_by_name remote json_loads team_name c)
    as [[team|e] c1] eqn:Hfind; [|discriminate].
  destruct (find_team_by_name_returns remote json_loads team_name c team c1 Hfind)
    as (teams & Hlist & Hscan).
  cbn [snd] in Hs, Hp.
  destruct (Py.truthy team) eqn:Htruthy; cbn [negb] in Hrun;
    [|unfold bind, print, ret in Hrun; discriminate].
  pose proof (scan_teams_finds_first team_name teams team Hscan Htruthy) as Hfirst.
  unfold bind at 1, lift at 1 in Hrun.
  destruct (Py.getitem team "name") as [n|e]; [|discriminate].
  unfold bind at 1, lift at 1 in Hrun.
  destruct (Py.getitem team "uuid") as [u|e] eqn:Hu; [|discriminate].
  unfold bind at 1, lift at 1 in Hrun.
  destruct (Py.get team "permissions" (PList [])) as [perms|e]; [|discriminate].
  unfold bind at 1, lift at 1 in Hrun.
  destruct (Py.len perms) as [k|e]; [|discriminate].
  unfold bind, lift, ret, print, try_except, raise in Hrun.
  unfold confirmed.
  destruct auto_confirm; cbn [negb orb] in Hrun |- *.
  - destruct (generate_api_key_sent remote json_loads str_of now_timestamp u c1)
      as [Hgs _].
    destruct (generate_api_key u c1) as [[key|e] c2] eqn:Hgen; cbn [fst snd] in *.
    + destruct (generate_api_key_returns remote json_loads str_of now_timestamp
                  u c1 key c2 Hgen) as (r & body & Hr & Herr & Hne & Hbody & Hkey).
      injection Hrun as <-. exists teams, team, u, r, body, key.
      cbn [sent]. rewrite Hgs, Hs, <- app_assoc. repeat split; trivial.
    + destruct e; simpl in Hrun; discriminate.
  - destruct (GenerateApiKey.declined (PyStr.lower (PyStr.strip typed_answer)));
      [discriminate|]. cbn [negb].
    match type of Hrun with
    | context [generate_api_key u ?c2] =>
        destruct (generate_api_key_sent remote json_loads str_of now_timestamp u c2)
          as [Hgs _];
        destruct (generate_api_key u c2) as [[key|e] c3] eqn:Hgen
    end; cbn [fst snd sent printed] in *.
    + destruct (generate_api_key_returns remote json_loads str_of now_timestamp
                  u _ key c3 Hgen) as (r & body & Hr & Herr & Hne & Hbody & Hkey).
      injection Hrun as <-. exists teams, team, u, r, body, key.
      cbn [sent]. rewrite Hgs, Hs, <- app_assoc. repeat split; trivial.
    + destruct e; simpl in Hrun; discriminate.
Qed.

(** X21.  For an ASCII team name and well-formed team records whose
    names are ASCII text, with auto-confirm, a failure
    of the rotation request (no response, or an error status) does not
    raise: the function prints the error, returns [False] and has sent the
    listing and the one rotation request. *)
Theorem rotation_failure_is_reported team_name teams team c :
  ascii_text team_name = true ->
  forallb ascii_team teams = true ->
  directory_listing remote json_loads GetTeams = Some teams ->
  forallb well_formed_team teams = true ->
  find (team_named team_name) teams = Some team ->
  directory_fails remote (PutTeamKey (uuid_of team)) = true ->
  fst (generate_api_key_for_team team_name true c) = Ok false
  /\ printed (snd (generate_api_key_for_team team_name true c))
     = printed c ++ [OutError MsgApiRequestFailed]
  /\ sent (snd (generate_api_key_for_team team_name true c))
     = sent c ++ [GetTeams; PutTeamKey (uuid_of team)].
Proof.
  intros _ _ Hlist Hwf Hfound Hfail.
  destruct (find_team_by_name_first remote json_loads team_name teams c Hlist Hwf)
    as (c1 & Hfind & Hsent & Hprinted).
  rewrite Hfound in Hfind.
  apply find_some in Hfound as [Hin _].
  assert (Ht : well_formed_team team = true)
    by (eapply forallb_forall in Hwf; eauto).
  destruct (well_formed_team_inv team Ht)
    as (d & n & u & -> & Hn & Hu & [k Hk] & Htruthy).
  unfold uuid_of in Hfail |- *. cbn [Py.getitem] in Hfail |- *.
  rewrite Hu in Hfail |- *.
  destruct (make_request_fails remote MsgApiRequestFailed (PutTeamKey u) c1 Hfail)
    as (c2 & Hreq & Hs2 & Hp2 & _).
  assert (Hgen : generate_api_key u c1
                 = (Raise (DependencyTrackAPIError MsgApiRequestFailed), c2)).
  { unfold GenerateApiKey.generate_api_key. apply bind_raise. exact Hreq. }
  unfold GenerateApiKey.generate_api_key_for_team.
  rewrite (bind_ok _ _ _ _ _ Hfind), Htruthy. cbn [negb].
  unfold bind at 1, lift at 1. cbn [Py.getitem]. rewrite Hn.
  unfold bind at 1, lift at 1. rewrite Hu.
  unfold bind at 1, lift at 1. rewrite Hk.
  unfold bind at 1, lift at 1. cbn [Py.len].
  unfold bind at 1, ret at 1.
  unfold try_except, bind, lift, ret, print. rewrite Hgen.
  cbn [is_api_error fst snd sent printed].
  rewrite Hs2, Hp2, Hsent, Hprinted, <- app_assoc. repeat split.
Qed.

End KeyFlow.

(** X18, at a rotation that answers [{"key": "K1"}]. *)
Lemma rotation_reply_key_returned_witness :
  fst (GenerateApiKey.generate_api_key Samples.security_service JsonReader.json_loads
         Samples.str_of "1700000000.5" (PStr "u1") new_client)
  = Ok (PStr "K1")
  /\ fst (GenerateApiKeyScript.generate_api_key Samples.security_service
            JsonReader.json_loads (PStr "u1") new_client)
     = Ok (PStr "K1")
  /\ sent (snd (GenerateApiKey.generate_api_key Samples.security_service
                  JsonReader.json_loads Samples.str_of "1700000000.5" (PStr "u1")
                  new_client))
     = sent new_client ++ [PutTeamKey (PStr "u1")]
  /\ sent (snd (GenerateApiKeyScript.generate_api_key Samples.security_service
                  JsonReader.json_loads (PStr "u1") new_client))
     = sent new_client ++ [PutTeamKey (PStr "u1")].
Proof.
  apply (rotation_reply_key_returned Samples.security_service JsonReader.json_loads
           Samples.str_of "1700000000.5" (PStr "u1") new_client
           {| status_code := 200;
              text := ("{" ++ Samples.jstr "key" ++ ":" ++ Samples.jstr "K1" ++ "}")%string |}
           [("key", PStr "K1")] (PStr "K1"));
    try reflexivity.
  discriminate.
Defined.

(** X19, at the team list of the design document. *)
Lemma found_team_has_requested_name_witness :
  Samples.security_team = PNone
  \/ exists teams,
       directory_listing Samples.security_service JsonReader.json_loads GetTeams
       = Some teams
       /\ In Samples.security_team teams
       /\ team_named "SECURITY" Samples.security_team = true.
Proof.
  apply (found_team_has_requested_name Samples.security_service JsonReader.json_loads
           "SECURITY" new_client Samples.security_team).
  - reflexivity.
  - intros teams H. vm_compute in H. injection H as <-. reflexivity.
  - reflexivity.
Defined.

(** X20, at the scenario of the design document, the operator
    answering [Yes]. *)
Lemma true_means_key_rotated_witness :
  exists teams team team_uuid r body key,
    directory_listing Samples.security_service JsonReader.json_loads GetTeams
    = Some teams
    /\ find (team_named "security") teams = Some team
    /\ Py.getitem team "uuid" = Ok team_uuid
    /\ confirmed false " Yes" = true
    /\ Samples.security_service (PutTeamKey team_uuid) = Reply r
    /\ is_http_error r = false
    /\ text r <> EmptyString
    /\ JsonReader.json_loads (text r) = Ok body
    /\ Py.get body "key"
         (GenerateApiKey.placeholder_key Samples.str_of "1700000000.5" team_uuid)
       = Ok key
    /\ sent (snd (GenerateApiKey.generate_api_key_for_team Samples.security_service
                    JsonReader.json_loads Samples.str_of "1700000000.5" " Yes"
                    "security" false new_client))
       = sent new_client ++ [GetTeams; PutTeamKey team_uuid].
Proof.
  apply (true_means_key_rotated Samples.security_service JsonReader.json_loads
           Samples.str_of "1700000000.5" " Yes" "security" false new_client).
  - reflexivity.
  - reflexivity.
  - intros teams H. vm_compute in H. injection H as <-. reflexivity.
  - reflexivity.
Defined.

(** X21, at a service whose rotation endpoint answers 500. *)
Lemma rotation_failure_is_reported_witness :
  fst (GenerateApiKey.generate_api_key_for_team Scenarios.rotation_down_service
         JsonReader.json_loads Samples.str_of "1700000000.5" "yes" "security" true
         new_client)
  = Ok false
  /\ printed (snd (GenerateApiKey.generate_api_key_for_team
                     Scenarios.rotation_down_service JsonReader.json_loads
                     Samples.str_of "1700000000.5" "yes" "security" true new_client))
     = printed new_client ++ [OutError MsgApiRequestFailed]
  /\ sent (snd (GenerateApiKey.generate_api_key_for_team
                  Scenarios.rotation_down_service JsonReader.json_loads
                  Samples.str_of "1700000000.5" "yes" "security" true new_client))
     = sent new_client ++ [GetTeams; PutTeamKey (uuid_of Samples.security_team)].
Proof.
  apply (rotation_failure_is_reported Scenarios.rotation_down_service
           JsonReader.json_loads Samples.str_of "1700000000.5" "yes" "security"
           [Samples.security_team] Samples.security_team new_client);
    reflexivity.
Defined.

(** ** The stand-alone script: confirmation and team lookup *)

(** X22.  On typed lines that are ASCII text, the confirmation loop of
    the stand-alone script skips every
    line that is not [yes], [y], [no] or [n] once trimmed and lower-cased,
    asking again each time: the first recognised line decides, and the
    answer is "go ahead" exactly when the plug-in script would not take
    that line as a refusal.  Input that ends before such a line gives no
    answer. *)
Theorem first_recognised_answer_decides junk :
  forallb ascii_text junk = true ->
  forallb (fun line => negb (ScriptTeams.recognised line)) junk = true ->
  ScriptTeams.confirm_action junk = None
  /\ forall line rest,
       ascii_text line = true ->
       ScriptTeams.recognised line = true ->
       ScriptTeams.confirm_action (junk ++ line :: rest)
       = Some (negb (GenerateApiKey.declined (PyStr.lower (PyStr.strip line))),
               List.length junk).
Proof.
  intros _ Hjunk.
  enough (H : ScriptTeams.confirm_action junk = None
              /\ forall line rest,
                   ScriptTeams.recognised line = true ->
                   ScriptTeams.confirm_action (junk ++ line :: rest)
                   = Some (negb (GenerateApiKey.declined
                                   (PyStr.lower (PyStr.strip line))),
                           List.length junk)).
  { destruct H as [Hnone Hsome]. split; [exact Hnone|].
    intros line rest _ Hline. exact (Hsome line rest Hline). }
  revert Hjunk.
  induction junk as [|j junk IH]; simpl; intros Hjunk.
  - split; [reflexivity|].
    intros line rest Hline. unfold ScriptTeams.recognised in Hline.
    unfold GenerateApiKey.declined. cbv zeta in Hline.
    destruct (String.eqb (PyStr.lower (PyStr.strip line)) "yes"
              || String.eqb (PyStr.lower (PyStr.strip line)) "y") eqn:Hyes;
      simpl; [reflexivity|].
    simpl in Hline. rewrite Hline. reflexivity.
  - apply andb_true_iff in Hjunk as [Hj Hrest].
    destruct (IH Hrest) as [Hnone Hsome].
    unfold ScriptTeams.recognised in Hj. cbv zeta in Hj.
    apply negb_true_iff in Hj.
    apply orb_false_iff in Hj as [Hj Hn].
    apply orb_false_iff in Hj as [Hj Hno].
    rewrite Hj, Hno, Hn, Hnone. simpl.
    split; [reflexivity|].
    intros line rest Hline. now rewrite (Hsome line rest Hline).
Qed.

Lemma script_make_team_ok t :
  well_formed_team t = true ->
  exists team n,
    ScriptTeams.make_team t = Ok team
    /\ ScriptTeams.name team = PStr n
    /\ Py.get t "name" (PStr EmptyString) = Ok (PStr n)
    /\ ScriptTeams.uuid team = uuid_of t.
Proof.
  intros H.
  destruct (well_formed_team_inv t H) as (d & n & u & -> & Hn & Hu & [k Hk] & _).
  unfold ScriptTeams.make_team, uuid_of. cbn [Py.getitem]. rewrite Hn, Hu.
  cbn [rbind]. rewrite Hk. cbn [rbind].
  do 2 eexists. repeat split. simpl. now rewrite Hn.
Qed.

Lemma script_scan_teams_first team_name teams :
  forallb well_formed_team teams = true ->
  exists all_teams,
    ScriptTeams.make_teams teams = Ok all_teams
    /\ match find (team_named team_name) teams with
       | Some t =>
           exists team,
             ScriptTeams.make_team t = Ok team
             /\ ScriptTeams.scan_teams team_name all_teams = Ok (Some team)
       | None => ScriptTeams.scan_teams team_name all_teams = Ok None
       end.
Proof.
  induction teams as [|t teams IH]; simpl; intros H.
  - eexists. split; reflexivity.
  - apply andb_true_iff in H as [Ht Hrest].
    destruct (script_make_team_ok t Ht) as (team & n & Hmk & Hname & Hget & _).
    destruct (IH Hrest) as (rest & Hrest_ok & Hfind).
    rewrite Hmk, Hrest_ok. simpl.
    exists (team :: rest). split; [reflexivity|].
    unfold team_named at 1. rewrite Hget. simpl. rewrite Hname. simpl.
    destruct (String.eqb (PyStr.lower n) (PyStr.lower team_name));
      [now exists team | exact Hfind].
Qed.

Section ScriptLookup.

Variable remote : request -> http_result.
Variable json_loads : string -> result pyval.

(** X23.  For an ASCII team name and well-formed team records whose
    names are ASCII text, the stand-alone script and the
    plug-in script find the same team: the first record in list order
    with the requested name up to case, the one as a [Team] object and the
    other as the record itself; both answer [None] when there is none. *)
Theorem script_lookup_agrees_with_plugin team_name teams c :
  ascii_text team_name = true ->
  forallb ascii_team teams = true ->
  directory_listing remote json_loads GetTeams = Some teams ->
  forallb well_formed_team teams = true ->
  match find (team_named team_name) teams with
  | Some t =>
      exists team,
        ScriptTeams.make_team t = Ok team
        /\ ScriptTeams.uuid team = uuid_of t
        /\ fst (ScriptTeams.find_team_by_name remote json_loads team_name c)
           = Ok (Some team)
        /\ fst (GenerateApiKey.find_team_by_name remote json_loads team_name c) = Ok t
  | None =>
      fst (ScriptTeams.find_team_by_name remote json_loads team_name c) = Ok None
      /\ fst (GenerateApiKey.find_team_by_name remote json_loads team_name c) = Ok PNone
  end.
Proof.
  intros _ _ Hlist Hwf.
  destruct (find_team_by_name_first remote json_loads team_name teams c Hlist Hwf)
    as (c1 & Hplugin & _).
  destruct (script_scan_teams_first team_name teams Hwf) as (all_teams & Hmk & Hfind).
  assert (Hscript :
            fst (ScriptTeams.find_team_by_name remote json_loads team_name c)
            = ScriptTeams.scan_teams team_name all_teams).
  { unfold directory_listing in Hlist.
    unfold ScriptTeams.find_team_by_name, ScriptTeams.get_teams,
      GenerateApiKeyScript._make_request, make_request, bind, send, raise, lift, ret.
    destruct (remote GetTeams) as [|r]; [discriminate|].
    destruct (is_http_error r); [discriminate|].
    destruct (json_loads (text r)) as [v|e]; [|discriminate].
    destruct (Py.iter v) as [l|e]; [|discriminate].
    injection Hlist as ->. rewrite Hmk. reflexivity. }
  rewrite Hscript, Hplugin. cbn [fst].
  destruct (find (team_named team_name) teams) as [t|] eqn:Hfound.
  - destruct Hfind as (team & Hteam & Hscan).
    apply find_some in Hfound as [Hin _].
    assert (Ht : well_formed_team t = true)
      by (eapply forallb_forall in Hwf; eauto).
    destruct (script_make_team_ok t Ht) as (team' & n & Hmk' & _ & _ & Huuid).
    rewrite Hteam in Hmk'. injection Hmk' as <-.
    exists team. auto.
  - auto.
Qed.

Lemma script_make_teams_stops pre t post e :
  forallb well_formed_team pre = true ->
  ScriptTeams.make_team t = Raise e ->
  ScriptTeams.make_teams (pre ++ t :: post) = Raise e.
Proof.
  intros Hpre Ht.
  induction pre as [|x pre IH]; simpl.
  - now rewrite Ht.
  - simpl in Hpre. apply andb_true_iff in Hpre as [Hx Hrest].
    destruct (script_make_team_ok x Hx) as (team & n & -> & _).
    simpl. now rewrite (IH Hrest).
Qed.

Lemma plugin_scan_teams_prefix team_name pre rest x :
  forallb well_formed_team pre = true ->
  find (team_named team_name) pre = Some x ->
  GenerateApiKey.scan_teams team_name (pre ++ rest) = Ok x.
Proof.
  induction pre as [|t pre IH]; simpl; [discriminate|].
  intros H Hfound.
  apply andb_true_iff in H as [Ht Hrest].
  destruct (well_formed_team_inv t Ht) as (d & n & u & -> & Hn & _).
  unfold team_named in Hfound. simpl in Hfound |- *. rewrite Hn in Hfound |- *.
  simpl.
  destruct (String.eqb (PyStr.lower n) (PyStr.lower team_name)).
  - now injection Hfound as <-.
  - now apply IH.
Qed.

(** X24.  One record without [uuid] breaks every lookup of the
    stand-alone script, which builds all [Team] objects first: the lookup
    raises [KeyError] whatever name is asked for, while the plug-in script
    still finds a team listed before that record (stated for an ASCII
    team name and names before that record that are ASCII text). *)
Theorem record_without_uuid_breaks_script_lookup team_name pre t post c :
  directory_listing remote json_loads GetTeams = Some (pre ++ t :: post) ->
  forallb well_formed_team pre = true ->
  Py.getitem t "uuid" = Raise KeyError ->
  fst (ScriptTeams.find_team_by_name remote json_loads team_name c) = Raise KeyError
  /\ (forall x,
        ascii_text team_name = true ->
        forallb ascii_team pre = true ->
        find (team_named team_name) pre = Some x ->
        fst (GenerateApiKey.find_team_by_name remote json_loads team_name c) = Ok x).
Proof.
  intros Hlist Hpre Ht.
  assert (Hmk : ScriptTeams.make_teams (pre ++ t :: post) = Raise KeyError).
  { apply script_make_teams_stops; [exact Hpre|].
    unfold ScriptTeams.make_team. now rewrite Ht. }
  unfold directory_listing in Hlist.
  unfold ScriptTeams.find_team_by_name, ScriptTeams.get_teams,
    GenerateApiKeyScript._make_request,
    GenerateApiKey.find_team_by_name, GenerateApiKey.get_teams,
    GenerateApiKey._make_request, make_request, bind, send, raise, lift, ret.
  destruct (remote GetTeams) as [|r]; [discriminate|].
  destruct (is_http_error r); [discriminate|].
  destruct (json_loads (text r)) as [v|e]; [|discriminate].
  destruct (Py.iter v) as [l|e]; [|discriminate].
  injection Hlist as ->. rewrite Hmk.
  split; [reflexivity|].
  intros x _ _ Hfound.
  rewrite (plugin_scan_teams_prefix team_name pre (t :: post) x Hpre Hfound).
  reflexivity.
Qed.

End ScriptLookup.

(** X22, at an operator who types two stray lines and then [Y]. *)
Lemma first_recognised_answer_decides_witness :
  ScriptTeams.confirm_action ["maybe"; "ok"] = None
  /\ forall line rest,
       ascii_text line = true ->
       ScriptTeams.recognised line = true ->
       ScriptTeams.confirm_action (["maybe"; "ok"] ++ line :: rest)
       = Some (negb (GenerateApiKey.declined (PyStr.lower (PyStr.strip line))),
               List.length ["maybe"; "ok"]).
Proof.
  apply (first_recognised_answer_decides ["maybe"; "ok"]).
  - reflexivity.
  - reflexivity.
Defined.

(** X23, at the team list of the design document. *)
Lemma script_lookup_agrees_with_plugin_witness :
  exists team,
    ScriptTeams.make_team Samples.security_team = Ok team
    /\ ScriptTeams.uuid team = uuid_of Samples.security_team
    /\ fst (ScriptTeams.find_team_by_name Samples.security_service
              JsonReader.json_loads "security" new_client)
       = Ok (Some team)
    /\ fst (GenerateApiKey.find_team_by_name Samples.security_service
              JsonReader.json_loads "security" new_client)
       = Ok Samples.security_team.
Proof.
  exact (script_lookup_agrees_with_plugin Samples.security_service
           JsonReader.json_loads "security" [Samples.security_team] new_client
           eq_refl eq_refl eq_refl eq_refl).
Defined.

(** X24, at a list whose second record has no [uuid]. *)
Lemma record_without_uuid_breaks_script_lookup_witness :
  fst (ScriptTeams.find_team_by_name
         (Samples.directory_only Scenarios.orphan_listing)
         JsonReader.json_loads "security" new_client)
  = Raise KeyError
  /\ (forall x,
        ascii_text "security" = true ->
        forallb ascii_team [Samples.security_team] = true ->
        find (team_named "security") [Samples.security_team] = Some x ->
        fst (GenerateApiKey.find_team_by_name
               (Samples.directory_only Scenarios.orphan_listing)
               JsonReader.json_loads "security" new_client)
        = Ok x).
Proof.
  apply (record_without_uuid_breaks_script_lookup
           (Samples.directory_only Scenarios.orphan_listing)
           JsonReader.json_loads "security"
           [Samples.security_team] Scenarios.orphan_team [] new_client);
    reflexivity.
Defined.

(** ** [app.py]: what the routes answer *)

Section AppFacts.

Variable json_loads : string -> result pyval.
Variable execute : string -> list string -> App.process.

(** X25.  When the key script exits with a non-zero status, the route
    [/api/generate_token] answers 500 with the script's standard error,
    whatever the script printed: never a token, never the 404 of an
    [error] document. *)
Theorem failed_script_answers_500 team returncode stdout stderr :
  team <> EmptyString ->
  execute "dt_generate_api_key.py" ["--team"; team; "--yes"; "--verbose"]
  = App.Finished returncode stdout stderr ->
  returncode <> 0 ->
  App.generate_token json_loads execute (Some team)
  = (500, App.ErrorOf (App.ScriptFailed stderr)).
Proof.
  intros Hteam Hrun Hcode.
  apply String.eqb_neq in Hteam. apply Z.eqb_neq in Hcode.
  unfold App.generate_token, App.run_script.
  now rewrite Hteam, Hrun, Hcode.
Qed.

(** X26.  The route answers 200 only with a token that is the [api_key]
    field of a JSON map the script printed on exiting with 0, a map
    without an [error] field; the token is never [None]. *)
Theorem token_answer_is_api_key team :
  fst (App.generate_token json_loads execute team) = 200 ->
  exists t stdout stderr d key,
    team = Some t
    /\ execute "dt_generate_api_key.py" ["--team"; t; "--yes"; "--verbose"]
       = App.Finished 0 stdout stderr
    /\ json_loads stdout = Ok (PDict d)
    /\ Py.lookup "error" d = None
    /\ Py.lookup "api_key" d = Some key
    /\ key <> PNone
    /\ App.generate_token json_loads execute team = (200, App.Token key).
Proof.
  unfold App.generate_token, App.run_script.
  destruct team as [t|]; [|discriminate].
  destruct (String.eqb t EmptyString); [discriminate|].
  destruct (execute "dt_generate_api_key.py" ["--team"; t; "--yes"; "--verbose"])
    as [|returncode stdout stderr] eqn:Hrun; [discriminate|].
  destruct (Z.eqb_spec returncode 0) as [->|_]; cbn [negb]; [|discriminate].
  destruct (json_loads stdout) as [data|e] eqn:Hjson.
  - destruct data as [| | | | | |d]; simpl; try discriminate.
    + destruct (App.is_substring "error" s); discriminate.
    + destruct (existsb (App.is_str "error") l); discriminate.
    + destruct (Py.lookup "error" d) eqn:Herr; [discriminate|].
      destruct (Py.lookup "api_key" d) as [key|] eqn:Hkey; [|discriminate].
      destruct key; simpl; try discriminate; intros _;
        exists t, stdout, stderr, d; eexists;
        (repeat split; try eassumption; discriminate).
  - destruct e; simpl; discriminate.
Qed.

(** X27.  The route [/login] marks a session as logged in only when both
    form fields are present and the login script has exited with 0; the
    session then carries the submitted username. *)
Theorem login_marks_session_only_after_success username password s :
  App.logged_in s = false ->
  App.logged_in (snd (App.login json_loads execute username password s)) = true ->
  exists u p stdout stderr,
    username = Some u
    /\ password = Some p
    /\ execute "dt_user_login.py" ["--user"; u; "--password"; p; "--verbose"]
       = App.Finished 0 stdout stderr
    /\ App.session_username (snd (App.login json_loads execute username password s))
       = Some u.
Proof.
  intros Hs.
  unfold App.login, App.run_script.
  destruct username as [u|]; [|simpl; congruence].
  destruct password as [p|]; [|simpl; congruence].
  destruct (String.eqb u EmptyString || String.eqb p EmptyString);
    [simpl; congruence|].
  destruct (execute "dt_user_login.py" ["--user"; u; "--password"; p; "--verbose"])
    as [|returncode stdout stderr] eqn:Hrun; [simpl; congruence|].
  destruct (Z.eqb_spec returncode 0) as [->|_]; cbn [negb]; [|simpl; congruence].
  destruct (json_loads stdout) as [data|e].
  - destruct (App.contains_key "error" data) as [[]|e]; simpl.
    + destruct (Py.getitem data "error"); simpl; congruence.
    + intros _. exists u, p, stdout, stderr. repeat split; trivial.
      destruct (Py.get data "email" PNone); simpl; [|reflexivity].
      destruct (Py.get data "username" PNone), (Py.get data "fullname" PNone);
        reflexivity.
    + congruence.
  - destruct e; simpl; try congruence.
    intros _. exists u, p, stdout, stderr. repeat split; trivial.
Qed.

End AppFacts.

(** ** The route and the script together *)

Section RouteAndScript.

Variable remote : request -> http_result.
Variable json_loads : string -> result pyval.
Variable str_of : pyval -> string.
Variable now_timestamp : string.
Variable typed_answer : string.
Variable execute : string -> list string -> App.process.

(** X28.  For an ASCII team name and listed names that are ASCII text,
    a team that is not in the list is answered with 500 and the
    script's standard error, not with the 404 of an [error] document: on
    well-formed records without the requested name, [main] of the key
    script exits with 1, and the route, run on a process that finished
    with the status [main] exits with, takes the failure branch of
    [run_script]. *)
Theorem missing_team_answers_500 team teams c returncode stdout stderr :
  ascii_text team = true ->
  forallb ascii_team teams = true ->
  team <> EmptyString ->
  directory_listing remote json_loads GetTeams = Some teams ->
  forallb well_formed_team teams = true ->
  find (team_named team) teams = None ->
  execute "dt_generate_api_key.py" ["--team"; team; "--yes"; "--verbose"]
  = App.Finished returncode stdout stderr ->
  fst (GenerateApiKeyMain.main remote json_loads str_of now_timestamp typed_answer
         team true c)
  = Ok returncode ->
  returncode = 1
  /\ App.generate_token json_loads execute (Some team)
     = (500, App.ErrorOf (App.ScriptFailed stderr)).
Proof.
  intros _ _ Hteam Hlist Hwf Hnone Hrun Hmain.
  destruct (find_team_by_name_first remote json_loads team teams c Hlist Hwf)
    as (c1 & Hfind & _).
  rewrite Hnone in Hfind.
  assert (Hcode : returncode = 1).
  { unfold GenerateApiKeyMain.main, GenerateApiKey.generate_api_key_for_team in Hmain.
    unfold try_except, bind at 1, bind at 1 in Hmain.
    rewrite Hfind in Hmain. simpl in Hmain.
    unfold bind, print, ret in Hmain. simpl in Hmain. now injection Hmain. }
  split; [exact Hcode|].
  apply String.eqb_neq in Hteam.
  unfold App.generate_token, App.run_script.
  rewrite Hteam, Hrun, Hcode. reflexivity.
Qed.

End RouteAndScript.

(** X25, at a key script that exits with 1. *)
Lemma failed_script_answers_500_witness :
  App.generate_token JsonReader.json_loads Scenarios.sample_execute (Some "Security")
  = (500, App.ErrorOf (App.ScriptFailed "Traceback")).
Proof.
  apply (failed_script_answers_500 JsonReader.json_loads Scenarios.sample_execute
           "Security" 1 EmptyString "Traceback").
  - discriminate.
  - reflexivity.
  - discriminate.
Defined.

(** X26, at a key script that prints [{"api_key": "K1"}]. *)
Lemma token_answer_is_api_key_witness :
  exists t stdout stderr d key,
    Some "Security" = Some t
    /\ Scenarios.key_execute "dt_generate_api_key.py" ["--team"; t; "--yes"; "--verbose"]
       = App.Finished 0 stdout stderr
    /\ JsonReader.json_loads stdout = Ok (PDict d)
    /\ Py.lookup "error" d = None
    /\ Py.lookup "api_key" d = Some key
    /\ key <> PNone
    /\ App.generate_token JsonReader.json_loads Scenarios.key_execute (Some "Security")
       = (200, App.Token key).
Proof.
  apply (token_answer_is_api_key JsonReader.json_loads Scenarios.key_execute
           (Some "Security")).
  reflexivity.
Defined.

(** X27, at a login script that exits with 0. *)
Lemma login_marks_session_only_after_success_witness :
  exists u p stdout stderr,
    Some "bob" = Some u
    /\ Some "secret" = Some p
    /\ Scenarios.sample_execute "dt_user_login.py"
         ["--user"; u; "--password"; p; "--verbose"]
       = App.Finished 0 stdout stderr
    /\ App.session_username
         (snd (App.login JsonReader.json_loads Scenarios.sample_execute
                 (Some "bob") (Some "secret") Scenarios.anonymous))
       = Some u.
Proof.
  apply (login_marks_session_only_after_success JsonReader.json_loads
           Scenarios.sample_execute (Some "bob") (Some "secret") Scenarios.anonymous);
    reflexivity.
Defined.

(** X28, at a request for a team the directory does not list. *)
Lemma missing_team_answers_500_witness :
  1 = 1
  /\ App.generate_token JsonReader.json_loads Scenarios.sample_execute (Some "Payments")
     = (500, App.ErrorOf (App.ScriptFailed "Traceback")).
Proof.
  apply (missing_team_answers_500 Samples.security_service JsonReader.json_loads
           Samples.str_of "1700000000.5" "yes" Scenarios.sample_execute
           "Payments" [Samples.security_team] new_client 1 EmptyString "Traceback");
    try reflexivity.
  discriminate.
Defined.
